(** * Content-credential viewer: manifest summary and JSON highlighter

    A shallow embedding of the viewer's [main.ts]: [formatAction],
    [syntaxHighlight], [extractAuthor], [extractActions] and
    [createCredentialDetails] (with its local [formatValidationCode]);
    further on [formatFileSize], [showState], [showError] and
    [processFile] with the text of [JSON.stringify] that it highlights,
    and [createSummary] of the first version of the file.

    The manifest store handed over by the verification SDK is untyped
    JavaScript data, so the embedding works on a small universe of
    JavaScript values and writes out the dynamic behaviour the source
    relies on: truthiness for [||], [&&], [!] and [?:], property reads,
    [String(...)], iteration and array methods, each with the [TypeError]
    it may raise.

    Scope of the model.
    - Values are JSON data and the members that every object inherits
      from [Object.prototype], which a read with a computed key reaches.
      Numbers are integers and print in decimal, as the language prints
      them up to 2^53; statements about numbers of the input are made
      for that range.
    - Text is a [string] of bytes, the UTF-8 form of the JavaScript
      string; lengths and indices count UTF-16 code units.  [\w], [\d],
      [[a-z]] and [[A-Z]] are classes of ASCII characters in the language
      too; [\s] and [toLowerCase] are taken on the ASCII range, and the
      statements about them are made for texts on which this is what the
      language does.
    - A step whose result the model does not determine ends in [Beyond].
    - The markup written to [innerHTML] is represented by the values the
      template interpolates (a [Panel]); [escapeHtml] and [formatDate]
      belong to the browser and are applied when these values are put
      into the markup. *)

From Stdlib Require Import ZArith String Ascii List Bool Lia DecimalString.
From Stdlib Require QArith Qround Qabs.
From stdpp Require Import gmap strings list fin_maps.

Set Warnings "-register-all".



(** ** Text

    A JavaScript string is a sequence of UTF-16 code units; here it is
    the string of the bytes of its UTF-8 form.  A character takes one to
    four bytes; one of four bytes lies outside the Basic Multilingual
    Plane and takes two code units, a surrogate pair.  A surrogate alone
    is written with three bytes like any other code unit of that size. *)

Module Text.

Definition byte (c : ascii) : N := N_of_ascii c.

(** A byte 10xxxxxx goes on with the character before it. *)
Definition is_continuation (c : ascii) : bool :=
  (128 <=? byte c)%N && (byte c <=? 191)%N.

(** The characters of a text from the right: the bytes that still wait
    for their first byte, and the characters behind them. *)
Fixpoint points_aux (s : string) : string * list string :=
  match s with
  | "" => ("", [])
  | String c r =>
      match points_aux r with
      | (pending, ps) =>
          if is_continuation c then (String c pending, ps)
          else ("", String c pending :: ps)
      end
  end.

(** The characters (code points) of a text, each by its bytes. *)
Definition points (s : string) : list string := snd (points_aux s).

(** A character of four bytes. *)
Definition is_astral (p : string) : bool :=
  match p with
  | String c _ => (240 <=? byte c)%N
  | "" => false
  end.

(** The number of such a character, and a code unit by its three bytes. *)
Definition scalar (p : string) : N :=
  match list_ascii_of_string p with
  | [b0; b1; b2; b3] =>
      (byte b0 mod 8) * 262144 + (byte b1 mod 64) * 4096
      + (byte b2 mod 64) * 64 + byte b3 mod 64
  | _ => 65536
  end%N.

Definition three_bytes (x : N) : string :=
  String (ascii_of_N (224 + x / 4096))
    (String (ascii_of_N (128 + (x / 64) mod 64))
       (String (ascii_of_N (128 + x mod 64)) "")).

Definition high_surrogate (p : string) : string :=
  three_bytes (55296 + (scalar p - 65536) / 1024).

Definition low_surrogate (p : string) : string :=
  three_bytes (56320 + (scalar p - 65536) mod 1024).

(** [s.length]: the number of code units. *)
Fixpoint count_units (ps : list string) : nat :=
  match ps with
  | [] => 0
  | p :: r => (if is_astral p then 2 else 1) + count_units r
  end.

Definition units (s : string) : nat := count_units (points s).

(** [s[i]]: the code unit at index [i], if there is one. *)
Fixpoint unit_at (i : nat) (ps : list string) : option string :=
  match ps with
  | [] => None
  | p :: r =>
      if is_astral p then
        match i with
        | 0 => Some (high_surrogate p)
        | 1 => Some (low_surrogate p)
        | S (S j) => unit_at j r
        end
      else
        match i with
        | 0 => Some p
        | S j => unit_at j r
        end
  end.

(** A text of ASCII characters. *)
Fixpoint is_ascii (s : string) : bool :=
  match s with
  | "" => true
  | String c r => (byte c <? 128)%N && is_ascii r
  end.

(** A text in which no surrogate stands alone: the byte 237 begins a
    character of three bytes from U+D000 on, and the surrogates are those
    whose second byte is 160 or more. *)
Fixpoint no_surrogate (s : string) : bool :=
  match s with
  | "" => true
  | String c r =>
      match r with
      | String d _ => negb ((byte c =? 237)%N && (160 <=? byte d)%N)
      | "" => true
      end && no_surrogate r
  end.

(** A name as a member of a built-in object has it: a letter, the
    underscore or the dollar sign, then letters, digits, underscores and
    dollar signs. *)
Definition is_letter (c : ascii) : bool :=
  ((65 <=? byte c)%N && (byte c <=? 90)%N) || ((97 <=? byte c)%N && (byte c <=? 122)%N)
  || (c =? "_")%char || (c =? "$")%char.

Definition is_name_part (c : ascii) : bool :=
  is_letter c || ((48 <=? byte c)%N && (byte c <=? 57)%N).

Fixpoint all_name_parts (s : string) : bool :=
  match s with
  | "" => true
  | String c r => is_name_part c && all_name_parts r
  end.

Definition is_name (k : string) : bool :=
  match k with
  | String c r => is_letter c && all_name_parts r
  | "" => false
  end.

End Text.

(** ** JavaScript values and outcomes *)

Module JS.

Inductive JSValue : Type :=
| JUndefined
| JNull
| JBool (b : bool)
| JNum (n : Z)
| JStr (s : string)
| JArr (l : list JSValue)
| JObj (m : gmap string JSValue)
| JBuiltin (name : string).   (* the member of Object.prototype of that name *)

(** What running a piece of the program gives: a value, a [TypeError],
    or a step whose result the model does not determine (a conversion of
    a text to a number, the text of a built-in function, a member of a
    built-in object other than [Object.prototype]). *)
Inductive outcome (A : Type) : Type :=
| Ok (a : A)
| Throw
| Beyond.
Arguments Ok {A} a.
Arguments Throw {A}.
Arguments Beyond {A}.

Definition bind {A B} (x : outcome A) (f : A -> outcome B) : outcome B :=
  match x with
  | Ok a => f a
  | Throw => Throw
  | Beyond => Beyond
  end.

(** [mapM f l]: run [f] on the elements from left to right, stopping at
    the first one that does not return. *)
Fixpoint mapM {A B} (f : A -> outcome B) (l : list A) : outcome (list B) :=
  match l with
  | [] => Ok []
  | x :: r =>
      match f x with
      | Ok y =>
          match mapM f r with
          | Ok ys => Ok (y :: ys)
          | Throw => Throw
          | Beyond => Beyond
          end
      | Throw => Throw
      | Beyond => Beyond
      end
  end.

(** An object literal. *)
Definition obj (fields : list (string * JSValue)) : JSValue :=
  JObj (list_to_map fields).

(** ToBoolean. *)
Definition truthy (v : JSValue) : bool :=
  match v with
  | JUndefined | JNull => false
  | JBool b => b
  | JNum n => negb (n =? 0)%Z
  | JStr s => negb (s =? "")%string
  | JArr _ | JObj _ | JBuiltin _ => true
  end.

(** [a || b] on values that are already computed. *)
Definition or_else (a b : JSValue) : JSValue := if truthy a then a else b.

(** A value that can be called. *)
Definition callable (v : JSValue) : bool :=
  match v with
  | JBuiltin name => negb (name =? "__proto__")%string
  | _ => false
  end.

(** The members of [Object.prototype], which every object of the store
    and every object literal inherits.  Eleven are functions;
    [__proto__] reads as [Object.prototype] itself. *)
Definition object_prototype : list string :=
  [ "constructor"; "__defineGetter__"; "__defineSetter__"; "hasOwnProperty";
    "__lookupGetter__"; "__lookupSetter__"; "isPrototypeOf"; "propertyIsEnumerable";
    "toString"; "valueOf"; "__proto__"; "toLocaleString" ].

Definition inherited (k : string) : bool := existsb (String.eqb k) object_prototype.

(** [o[k]] for an object: its own member, else the inherited one, else
    [undefined]. *)
Definition member (m : gmap string JSValue) (k : string) : JSValue :=
  match m !! k with
  | Some v => v
  | None => if inherited k then JBuiltin k else JUndefined
  end.

(** The names under which the program reads the members of the store.
    No built-in object has a member of one of these names. *)
Definition field_names : list string :=
  [ "active_manifest"; "activeManifest"; "manifests"; "validation_status";
    "validationStatus"; "code"; "explanation"; "signature_info"; "signatureInfo";
    "issuer"; "time"; "cert_serial_number"; "certSerialNumber"; "title"; "format";
    "claim_generator"; "claimGenerator"; "assertions"; "label"; "data"; "author";
    "actions"; "action"; "ingredients" ].

(** A key under which no built-in object has a member: one of the names
    above, or a text that is no name at all. *)
Definition no_builtin_member (k : string) : bool :=
  existsb (String.eqb k) field_names || negb (Text.is_name k).

(** A canonical array index: the decimal spelling of a natural number. *)
Definition index_of_key (k : string) : option nat :=
  match NilEmpty.uint_of_string k with
  | Some u =>
      let n := Nat.of_uint u in
      if (NilEmpty.string_of_uint (Nat.to_uint n) =? k)%string
      then Some n else None
  | None => None
  end.

(** A key that is neither [length] nor an index, read in a boolean, a
    number, a text or an array: these have no member [name], and no
    member under a key that no built-in object knows. *)
Definition get_other (k : string) : outcome JSValue :=
  if (k =? "name")%string || no_builtin_member k then Ok JUndefined else Beyond.

(** [v.k] and [v[k]] for a string key [k]. *)
Definition get (v : JSValue) (k : string) : outcome JSValue :=
  match v with
  | JUndefined | JNull => Throw
  | JBool _ | JNum _ =>
      if (k =? "length")%string then Ok JUndefined else get_other k
  | JStr s =>
      if (k =? "length")%string then Ok (JNum (Z.of_nat (Text.units s)))
      else match index_of_key k with
           | Some i =>
               match Text.unit_at i (Text.points s) with
               | Some c => Ok (JStr c)
               | None => Ok JUndefined
               end
           | None => get_other k
           end
  | JArr l =>
      if (k =? "length")%string then Ok (JNum (Z.of_nat (length l)))
      else match index_of_key k with
           | Some i => Ok (default JUndefined (l !! i))
           | None => get_other k
           end
  | JObj m => Ok (member m k)
  | JBuiltin _ => if no_builtin_member k then Ok JUndefined else Beyond
  end.

(** The text of a number: an integer prints in decimal (up to 2^53 in
    absolute value every integer is a number of the language and prints
    so). *)
Definition number_text (n : Z) : string := NilZero.string_of_int (Z.to_int n).

(** The conversion of an object to a text.  [toString] is tried first,
    then [valueOf]: a member of the object's own under one of these names
    that cannot be called is passed over, the inherited [valueOf] gives
    the object back, and with nothing left the conversion raises. *)
Definition object_text (m : gmap string JSValue) : outcome string :=
  match m !! "toString" with
  | None => Ok "[object Object]"
  | Some f =>
      if callable f then Beyond
      else match m !! "valueOf" with
           | Some g => if callable g then Beyond else Throw
           | None => Throw
           end
  end.

(** [String(v)]. *)
Fixpoint toString (v : JSValue) : outcome string :=
  match v with
  | JUndefined => Ok "undefined"
  | JNull => Ok "null"
  | JBool true => Ok "true"
  | JBool false => Ok "false"
  | JNum n => Ok (number_text n)
  | JStr s => Ok s
  | JArr l =>
      let fix join (l : list JSValue) : outcome string :=
        match l with
        | [] => Ok ""
        | x :: r =>
            let piece :=
              match x with
              | JUndefined | JNull => Ok ""
              | _ => toString x
              end in
            match r with
            | [] => piece
            | _ :: _ =>
                bind piece (fun p => bind (join r) (fun q => Ok (p +:+ "," +:+ q)))
            end
        end in
      join l
  | JObj m => object_text m
  | JBuiltin name =>
      (* the text of a built-in function depends on the engine *)
      if (name =? "__proto__")%string then Ok "[object Object]" else Beyond
  end.

(** [o[key]] with a computed key: the key is first turned into a string. *)
Definition get_computed (o key : JSValue) : outcome JSValue :=
  match o with
  | JUndefined | JNull => Throw
  | _ => bind (toString key) (get o)
  end.

(** [v > 0].  An object is converted to a number through [valueOf] and
    then [toString]; the text [[object Object]] is no number. *)
Definition gt0 (v : JSValue) : outcome bool :=
  match v with
  | JUndefined | JNull => Ok false
  | JBool b => Ok b
  | JNum n => Ok (0 <? n)%Z
  | JStr s => if (s =? "")%string then Ok false else Beyond
  | JArr l => match l with [] => Ok false | _ => Beyond end
  | JObj m =>
      match m !! "valueOf" with
      | Some g => if callable g then Beyond else bind (object_text m) (fun _ => Ok false)
      | None => bind (object_text m) (fun _ => Ok false)
      end
  | JBuiltin _ => Ok false
  end.

(** [v !== 1]. *)
Definition is_not_one (v : JSValue) : bool :=
  match v with
  | JNum 1 => false
  | _ => true
  end.

(** [v === lit] for a string literal. *)
Definition strict_eq_str (v : JSValue) (lit : string) : bool :=
  match v with
  | JStr s => (s =? lit)%string
  | _ => false
  end.

(** The elements visited by [for (const x of v)]: those of an array, the
    characters of a text. *)
Definition iterate (v : JSValue) : outcome (list JSValue) :=
  match v with
  | JArr l => Ok l
  | JStr s => Ok (map JStr (Text.points s))
  | _ => Throw
  end.

(** [v ? Object.keys(v).length : 0]. *)
Definition keys_length (v : JSValue) : nat :=
  match v with
  | JObj m => size m
  | JArr l => length l
  | JStr s => Text.units s
  | _ => 0
  end.

(** A method [name] called on a value that is no array: a boolean, a
    number, a text and a built-in member have no such method, and an
    object has it only as a member of its own that can be called. *)
Definition call_method {A} (name : string) (v : JSValue) : outcome A :=
  match v with
  | JObj m =>
      match m !! name with
      | Some f => if callable f then Beyond else Throw
      | None => Throw
      end
  | _ => Throw
  end.

End JS.
Import JS.

Notation "'let*' x ':=' c1 'in' c2" := (bind c1 (fun x => c2))
  (at level 10, x name, c1 at level 100, c2 at level 200).

(** ** String operations used by the source *)

Module Str.

Definition code (c : ascii) : nat := nat_of_ascii c.

Definition in_range (lo hi : nat) (c : ascii) : bool :=
  (lo <=? code c)%nat && (code c <=? hi)%nat.

(** [[a-z]], [[A-Z]], [\d] and [\w], classes of ASCII characters, and
    [\s] on the ASCII range: the white space outside it (U+00A0 and the
    like) is not counted. *)
Definition is_lower : ascii -> bool := in_range 97 122.
Definition is_upper : ascii -> bool := in_range 65 90.
Definition is_digit : ascii -> bool := in_range 48 57.
Definition is_word (c : ascii) : bool :=
  is_lower c || is_upper c || is_digit c || (c =? "_")%char.
Definition is_space (c : ascii) : bool :=
  in_range 9 13 c || (c =? " ")%char.

Definition to_lower (c : ascii) : ascii :=
  if is_upper c then ascii_of_nat (code c + 32) else c.
Definition to_upper (c : ascii) : ascii :=
  if is_lower c then ascii_of_nat (code c - 32) else c.

Fixpoint map_chars (f : ascii -> ascii) (s : string) : string :=
  match s with
  | "" => ""
  | String c r => String (f c) (map_chars f r)
  end.

(** [s.toLowerCase()] on the ASCII range: the letters A to Z are
    lowered and every other byte is kept.  What the language does to the
    cased letters outside that range is not modelled. *)
Definition toLowerCase : string -> string := map_chars to_lower.

Fixpoint drop (n : nat) (s : string) : string :=
  match n, s with
  | S k, String _ r => drop k r
  | _, _ => s
  end.

(** [s.startsWith(p)]. *)
Definition startsWith (p s : string) : bool := String.prefix p s.

(** [s.includes(sub)], also [/sub/.test(s)] for a pattern without
    special characters. *)
Fixpoint contains (sub s : string) : bool :=
  String.prefix sub s ||
  match s with
  | String _ r => contains sub r
  | "" => false
  end.

(** [s.replace(/c/g, by)] for a single character [c]. *)
Fixpoint replace_all_char (c : ascii) (by_ : string) (s : string) : string :=
  match s with
  | "" => ""
  | String d r =>
      if (d =? c)%char then by_ +:+ replace_all_char c by_ r
      else String d (replace_all_char c by_ r)
  end.

(** [s.replace(pat, by)] for a non-empty string pattern: only the first
    occurrence, wherever it is, is replaced. *)
Fixpoint replace_first (pat by_ : string) (s : string) : string :=
  if String.prefix pat s then by_ +:+ drop (String.length pat) s
  else match s with
       | "" => ""
       | String d r => String d (replace_first pat by_ r)
       end.

(** [s.split(sep)] for a single-character separator. *)
Fixpoint split (sep : ascii) (s : string) : list string :=
  match s with
  | "" => [""]
  | String d r =>
      if (d =? sep)%char then "" :: split sep r
      else match split sep r with
           | h :: t => String d h :: t
           | [] => [String d ""]
           end
  end.

(** [s.replace(/([a-z])([A-Z])/g, '$1 $2')]: after a match the scan
    resumes behind the upper-case letter. *)
Fixpoint space_lower_upper (s : string) : string :=
  match s with
  | "" => ""
  | String a t =>
      match t with
      | String b r =>
          if is_lower a && is_upper b
          then String a (String " " (String b (space_lower_upper r)))
          else String a (space_lower_upper t)
      | "" => String a ""
      end
  end.

(** [s.replace(/^\w/, c => c.toUpperCase())]. *)
Definition upper_first_word_char (s : string) : string :=
  match s with
  | String c r => if is_word c then String (to_upper c) r else s
  | "" => ""
  end.

(** The double quote, and the sign U+203A with a space on either side. *)
Definition dq : string := String (ascii_of_nat 34) "".
Definition arrow : string :=
  String " " (String (ascii_of_nat 226) (String (ascii_of_nat 128)
    (String (ascii_of_nat 186) " "))).

End Str.

(** ** The source functions *)

(** Map action codes to human-readable labels: the object literal
    [actionMap] by its fields. *)
Definition actionMap : list (string * JSValue) :=
  [ ("c2pa.created", JStr "Created");
    ("c2pa.opened", JStr "Opened");
    ("c2pa.edited", JStr "Edited");
    ("c2pa.converted", JStr "Converted");
    ("c2pa.resized", JStr "Resized");
    ("c2pa.cropped", JStr "Cropped");
    ("c2pa.color_adjustments", JStr "Color Adjusted");
    ("c2pa.filtered", JStr "Filtered");
    ("c2pa.drawing", JStr "Drawing");
    ("c2pa.placed", JStr "Placed");
    ("c2pa.removed", JStr "Removed");
    ("c2pa.repackaged", JStr "Repackaged");
    ("c2pa.transcoded", JStr "Transcoded");
    ("c2pa.unknown", JStr "Unknown Action") ].

(** [actionMap[action] || action.replace('c2pa.', '').replace(/_/g, ' ')].
    The read of [actionMap] finds a label, a member that the literal
    inherits, or nothing; the result is declared a string and is what
    this read gives when that is truthy. *)
Definition formatAction (action : string) : JSValue :=
  or_else (member (list_to_map actionMap) action)
          (JStr (Str.replace_all_char "_" " " (Str.replace_first "c2pa." "" action))).

(** Format validation code to be more readable. *)
Definition formatValidationCode (code : string) : string :=
  Str.upper_first_word_char
    (Str.toLowerCase
       (Str.space_lower_upper
          (Str.replace_all_char "_" " "
             (Str.replace_all_char "." Str.arrow code)))).

(** Extract author information from assertions: the loop body over the
    elements still to visit. *)
Fixpoint extractAuthor_loop (assertions : list JSValue) : outcome (option string) :=
  match assertions with
  | [] => Ok None
  | a :: rest =>
      let* label := get a "label" in
      if strict_eq_str label "stds.schema-org.CreativeWork" then
        let* data := get a "data" in
        if truthy data then
          let* author := get data "author" in
          if truthy author then
            let* len := get author "length" in
            let* nonempty := gt0 len in
            if nonempty : bool then
              let* firstAuthor := get author "0" in
              let* name := get firstAuthor "name" in
              if truthy name then
                let* s := toString name in Ok (Some s)
              else extractAuthor_loop rest
            else extractAuthor_loop rest
          else extractAuthor_loop rest
        else extractAuthor_loop rest
      else extractAuthor_loop rest
  end.

Definition extractAuthor (assertions : JSValue) : outcome (option string) :=
  let* l := iterate assertions in extractAuthor_loop l.

(** Extract actions from assertions.  The inner loop pushes onto the
    accumulator [actions]. *)
Fixpoint actionList_loop (actionList : list JSValue) (actions : list string)
  : outcome (list string) :=
  match actionList with
  | [] => Ok actions
  | action :: rest =>
      let* act := get action "action" in
      if truthy act then
        let* s := toString act in actionList_loop rest (actions ++ [s])
      else actionList_loop rest actions
  end.

Fixpoint extractActions_loop (assertions : list JSValue) (actions : list string)
  : outcome (list string) :=
  match assertions with
  | [] => Ok actions
  | a :: rest =>
      let* label := get a "label" in
      if strict_eq_str label "c2pa.actions" then
        let* data := get a "data" in
        if truthy data then
          let* actionList := get data "actions" in
          if truthy actionList then
            let* l := iterate actionList in
            let* actions' := actionList_loop l actions in
            extractActions_loop rest actions'
          else extractActions_loop rest actions
        else extractActions_loop rest actions
      else extractActions_loop rest actions
  end.

Definition extractActions (assertions : JSValue) : outcome (list string) :=
  let* l := iterate assertions in extractActions_loop l [].

(** *** The details panel *)

Record Signer := {
  issuer : string;
  signedAt : option string;     (* shown through formatDate *)
  certSerial : option string    (* computed, not interpolated *)
}.

Record Content := {
  author : option string;
  title : option string;
  format : option string
}.

Record Process := {
  appName : option string;
  actions : list JSValue        (* what [formatAction] gives for each action *)
}.

Record Ingredient := {
  ingTitle : string;
  ingFormat : string
}.

Record Issue := {
  issueCode : string;
  issueExplanation : string
}.

Inductive Validation :=
| Verified
| Issues (count : nat) (items : list Issue).

Record Stat := {
  statValue : string;
  statLabel : string
}.

(** One field per section of the markup; [None] stands for the empty
    string a section is left at when its condition fails. *)
Record Details := {
  signerHtml : option Signer;
  contentHtml : option Content;
  processHtml : option Process;
  ingredientsHtml : option (list Ingredient);
  statsHtml : list Stat;
  validationHtml : Validation
}.

Inductive Panel :=
| NoDetails                (* the paragraph of class no-details *)
| Sections (d : Details).

(** [(o.snake || o.camel)]. *)
Definition dual (o : JSValue) (snake camel : string) : outcome JSValue :=
  let* a := get o snake in
  if truthy a then Ok a else get o camel.

(** [v ? String(v) : null]. *)
Definition string_or_null (v : JSValue) : outcome (option string) :=
  if truthy v then let* s := toString v in Ok (Some s) else Ok None.

(** Truthiness of a local of type [string | null]. *)
Definition shown (s : option string) : bool :=
  match s with
  | Some t => negb (t =? "")%string
  | None => false
  end.

(** The callback of [validationStatus.filter]. *)
Definition is_issue (status : JSValue) : outcome bool :=
  let* code := get status "code" in
  if truthy code then
    let* s := toString code in Ok (negb (Str.startsWith "claim" s))
  else Ok false.

Fixpoint filterM (p : JSValue -> outcome bool) (l : list JSValue)
  : outcome (list JSValue) :=
  match l with
  | [] => Ok []
  | x :: r =>
      let* keep := p x in
      let* r' := filterM p r in
      Ok (if keep : bool then x :: r' else r')
  end.

(** [validationStatus?.filter(...) || []]. *)
Definition validationIssues (validationStatus : JSValue) : outcome (list JSValue) :=
  match validationStatus with
  | JUndefined | JNull => Ok []
  | JArr l => filterM is_issue l
  | v => call_method "filter" v
  end.

(** The callback of [validationIssues.map]. *)
Definition issue_item (issue : JSValue) : outcome Issue :=
  let* c := get issue "code" in
  let* code := (if truthy c then toString c else Ok "Unknown issue") in
  let* e := get issue "explanation" in
  let* explanation := (if truthy e then toString e else Ok "") in
  Ok {| issueCode := formatValidationCode code; issueExplanation := explanation |}.

(** Parse claim generator to get app name. *)
Definition appName_of (claimGenerator : string) : string :=
  let parts := Str.split " " claimGenerator in
  Str.replace_all_char "/" " " (Str.replace_all_char "_" " " (hd "" parts)).

(** The callback of [ingredients.map]. *)
Definition ingredient_item (index : nat) (ing : JSValue) : outcome Ingredient :=
  let* t := get ing "title" in
  let* ingTitle :=
    (if truthy t then toString t
     else let* n := toString (JNum (Z.of_nat index + 1)) in Ok ("Ingredient " +:+ n)) in
  let* f := get ing "format" in
  let* ingFormat := (if truthy f then toString f else Ok "") in
  Ok {| ingTitle := ingTitle; ingFormat := ingFormat |}.

Fixpoint mapM_index {B} (f : nat -> JSValue -> outcome B) (i : nat) (l : list JSValue)
  : outcome (list B) :=
  match l with
  | [] => Ok []
  | x :: r =>
      let* y := f i x in
      let* ys := mapM_index f (S i) r in
      Ok (y :: ys)
  end.

(** [x?.length || 0]. *)
Definition length_or_zero (x : JSValue) : outcome JSValue :=
  match x with
  | JUndefined | JNull => Ok (JNum 0)
  | _ => let* n := get x "length" in Ok (or_else n (JNum 0))
  end.

Definition stat (v : JSValue) (singular : string) : outcome Stat :=
  let* s := toString v in
  Ok {| statValue := s;
        statLabel := singular +:+ (if is_not_one v then "s" else "") |}.

(** Validation Status Section: the issues and the badge. *)
Definition validation_section (validationStatus : JSValue) : outcome Validation :=
  let* issues := validationIssues validationStatus in
  let hasErrors := (0 <? length issues)%nat in
  let* items := (if hasErrors then mapM issue_item issues else Ok []) in
  Ok (if hasErrors then Issues (length issues) items else Verified).

(** Signer/Issuer Section. *)
Definition signer_section (signatureInfo : JSValue) : outcome (option Signer) :=
  if truthy signatureInfo then
    let* i := get signatureInfo "issuer" in
    let* issuer := (if truthy i then toString i else Ok "Unknown Issuer") in
    let* t := get signatureInfo "time" in
    let* signedAt := string_or_null t in
    let* c := dual signatureInfo "cert_serial_number" "certSerialNumber" in
    let* certSerial := string_or_null c in
    Ok (Some {| issuer := issuer; signedAt := signedAt; certSerial := certSerial |})
  else Ok None.

(** Process/Actions Section, once [claimGenerator] and [actions] are known. *)
Definition process_section (claimGenerator : option string) (actions : list string)
  : option Process :=
  if shown claimGenerator || (0 <? length actions)%nat then
    let appName :=
      match claimGenerator with
      | Some cg => if shown claimGenerator then Some (appName_of cg) else claimGenerator
      | None => None
      end in
    Some {| appName := appName; actions := map formatAction actions |}
  else None.

(** Ingredients Section. *)
Definition ingredients_section (ingredients : JSValue)
  : outcome (option (list Ingredient)) :=
  if truthy ingredients then
    let* len := get ingredients "length" in
    let* nonempty := gt0 len in
    if nonempty : bool then
      match ingredients with
      | JArr l => let* items := mapM_index ingredient_item 0 l in Ok (Some items)
      | v => call_method "map" v
      end
    else Ok None
  else Ok None.

(** The part of [createCredentialDetails] behind the early return. *)
Definition sections (store manifests activeManifest : JSValue) : outcome Panel :=
  (* Validation Status Section *)
  let* validationStatus := dual store "validation_status" "validationStatus" in
  let* validationHtml := validation_section validationStatus in
  (* Signer/Issuer Section *)
  let* signatureInfo := dual activeManifest "signature_info" "signatureInfo" in
  let* signerHtml := signer_section signatureInfo in
  (* Content Information Section *)
  let* t := get activeManifest "title" in
  let* title := string_or_null t in
  let* f := get activeManifest "format" in
  let* format := string_or_null f in
  let* assertions := get activeManifest "assertions" in
  let* author := (if truthy assertions then extractAuthor assertions else Ok None) in
  let contentHtml :=
    if shown title || shown format || shown author
    then Some {| author := author; title := title; format := format |}
    else None in
  (* Process/Actions Section *)
  let* g := dual activeManifest "claim_generator" "claimGenerator" in
  let* claimGenerator := string_or_null g in
  let* actions := (if truthy assertions then extractActions assertions else Ok []) in
  let processHtml := process_section claimGenerator actions in
  (* Ingredients Section *)
  let* ingredients := get activeManifest "ingredients" in
  let* ingredientsHtml := ingredients_section ingredients in
  (* Manifests Count *)
  let manifestCount := keys_length manifests in
  let* s1 := stat (JNum (Z.of_nat manifestCount)) "Manifest" in
  let* na := length_or_zero assertions in
  let* s2 := stat na "Assertion" in
  let* ni := length_or_zero ingredients in
  let* s3 := stat ni "Ingredient" in
  Ok (Sections {| signerHtml := signerHtml;
                  contentHtml := contentHtml;
                  processHtml := processHtml;
                  ingredientsHtml := ingredientsHtml;
                  statsHtml := [s1; s2; s3];
                  validationHtml := validationHtml |}).

(** Create detailed credential display. *)
Definition createCredentialDetails (store : JSValue) : outcome Panel :=
  let* activeManifestKey := dual store "active_manifest" "activeManifest" in
  let* manifests := get store "manifests" in
  (* Get the actual manifest object using the key *)
  let* activeManifest :=
    (if truthy activeManifestKey && truthy manifests
     then get_computed manifests activeManifestKey
     else Ok JUndefined) in
  if negb (truthy activeManifest) then Ok NoDetails
  else sections store manifests activeManifest.

(** *** Regular expressions

    The fragment of JavaScript's regular expressions that the pattern of
    [syntaxHighlight] uses, with the backtracking semantics of the
    language: a pattern is run from a position with a continuation for
    what follows it; an alternative is tried from left to right, a star
    is greedy and gives back its iterations one by one when what follows
    fails. *)

Module Regex.

Inductive re :=
| Eps                               (* the empty pattern *)
| Chr (p : ascii -> bool)           (* one character of a class *)
| Seq (a b : re)                    (* a followed by b *)
| Alt (a b : re)                    (* a|b *)
| Star (a : re)                     (* a*, greedy *)
| WordB.                            (* \b *)

(** [a?], [a+], [a{4}] and a literal text. *)
Definition Opt (a : re) : re := Alt a Eps.
Definition Plus (a : re) : re := Seq a (Star a).
Definition Four (a : re) : re := Seq a (Seq a (Seq a a)).

Fixpoint Lit (s : string) : re :=
  match s with
  | "" => Eps
  | String c r => Seq (Chr (Ascii.eqb c)) (Lit r)
  end.

(** A position in the input: the character in front of it and the text
    from it on. *)
Record Position := {
  before : option ascii;
  rest : string
}.

Definition word_opt (c : option ascii) : bool :=
  match c with
  | Some a => Str.is_word a
  | None => false
  end.

Definition first_char (s : string) : option ascii :=
  match s with
  | String c _ => Some c
  | "" => None
  end.

(** [\b] holds where exactly one of the two neighbours is a word
    character. *)
Definition boundary (p : Position) : bool :=
  xorb (word_opt (before p)) (word_opt (first_char (rest p))).

Definition step_char (f : ascii -> bool) (p : Position) (k : Position -> option Position)
  : option Position :=
  match rest p with
  | String c s => if f c then k {| before := Some c; rest := s |} else None
  | "" => None
  end.

(** The iterations of a star: one more iteration that moves the
    position, then the star again; failing that, what follows the star.
    [n] bounds the number of iterations. *)
Fixpoint star_loop (iteration : Position -> (Position -> option Position) -> option Position)
    (n : nat) (p : Position) (k : Position -> option Position) : option Position :=
  match n with
  | 0 => k p
  | S n' =>
      match iteration p (fun p' =>
              if (String.length (rest p') <? String.length (rest p))%nat
              then star_loop iteration n' p' k
              else None) with
      | Some x => Some x
      | None => k p
      end
  end.

Fixpoint run (r : re) (fuel : nat) (p : Position) (k : Position -> option Position)
  : option Position :=
  match r with
  | Eps => k p
  | Chr f => step_char f p k
  | Seq a b => run a fuel p (fun p' => run b fuel p' k)
  | Alt a b =>
      match run a fuel p k with
      | Some x => Some x
      | None => run b fuel p k
      end
  | Star a => star_loop (run a fuel) fuel p k
  | WordB => if boundary p then k p else None
  end.

(** The match of [r] at the front of [s], [prev] being the character in
    front of it: the position behind the match.  A star never needs more
    iterations than the text has characters. *)
Definition exec (r : re) (prev : option ascii) (s : string) : option Position :=
  run r (String.length s) {| before := prev; rest := s |} (fun p => Some p).

End Regex.

(** *** Syntax highlighting for JSON

    The pattern of the source, written here with Q for the double quote
    and with blanks between its parts, carries the flag [g]:

      ( Q ( \\u[a-zA-Z0-9]{4} | \\[^u] | [^\\Q] )* Q ( \s* : )?
      | \b ( true | false | null ) \b
      | -? \d+ (?: \. \d* )? (?: [eE] [+\-]? \d+ )? ) *)

Module Highlight.
Import Str Regex.

Definition is_alnum (c : ascii) : bool := is_lower c || is_upper c || is_digit c.

Definition one (c : ascii) : re := Chr (Ascii.eqb c).
Definition other_than (c : ascii) : re := Chr (fun d => negb (d =? c)%char).

Definition quote : ascii := ascii_of_nat 34.
Definition backslash : ascii := ascii_of_nat 92.

(** [\\u[a-zA-Z0-9]{4} | \\[^u] | [^\\Q]] *)
Definition string_item : re :=
  Alt (Seq (one backslash) (Seq (one "u") (Four (Chr is_alnum))))
      (Alt (Seq (one backslash) (other_than "u"))
           (Chr (fun d => negb (d =? backslash)%char && negb (d =? quote)%char))).

(** [Q ( ... )* Q ( \s* : )?] *)
Definition string_pattern : re :=
  Seq (one quote)
      (Seq (Star string_item)
           (Seq (one quote) (Opt (Seq (Star (Chr is_space)) (one ":"))))).

(** [\b ( true | false | null ) \b] *)
Definition literal_pattern : re :=
  Seq WordB (Seq (Alt (Lit "true") (Alt (Lit "false") (Lit "null"))) WordB).

(** [-? \d+ (?: \. \d* )? (?: [eE] [+\-]? \d+ )?] *)
Definition number_pattern : re :=
  Seq (Opt (one "-"))
      (Seq (Plus (Chr is_digit))
           (Seq (Opt (Seq (one ".") (Star (Chr is_digit))))
                (Opt (Seq (Chr (fun c => (c =? "e")%char || (c =? "E")%char))
                          (Seq (Opt (Chr (fun c => (c =? "+")%char || (c =? "-")%char)))
                               (Plus (Chr is_digit))))))).

Definition pattern : re :=
  Alt string_pattern (Alt literal_pattern number_pattern).

Fixpoint take (n : nat) (s : string) : string :=
  match n, s with
  | S k, String c r => String c (take k r)
  | _, _ => ""
  end.

(** The pattern tried at one position: the matched text and what follows
    it. *)
Definition match_at (prev : option ascii) (s : string) : option (string * string) :=
  match exec pattern prev s with
  | Some p => Some (take (String.length s - String.length (rest p)) s, rest p)
  | None => None
  end.

(** The tests [/^Q/], [/:$/], [/true|false/] and [/null/] of the callback. *)
Fixpoint ends_with (c : ascii) (s : string) : bool :=
  match s with
  | "" => false
  | String d "" => (d =? c)%char
  | String _ r => ends_with c r
  end.

Definition cls_of (m : string) : string :=
  if String.prefix dq m then
    if ends_with ":" m then "json-key" else "json-string"
  else if contains "true" m || contains "false" m then "json-boolean"
  else if contains "null" m then "json-null"
  else "json-number".

Definition span (cls m : string) : string :=
  "<span class=" +:+ dq +:+ cls +:+ dq +:+ ">" +:+ m +:+ "</span>".

(** The global replace: [skip] counts the characters of the last match
    that are still to be passed over; [prev] is the character before
    the position. *)
Fixpoint scan (prev : option ascii) (skip : nat) (s : string) : string :=
  match s with
  | "" => ""
  | String c r =>
      match skip with
      | S k => scan (Some c) k r
      | 0 =>
          match match_at prev s with
          | Some (m, _) =>
              span (cls_of m) m +:+ scan (Some c) (String.length m - 1) r
          | None => String c (scan (Some c) 0 r)
          end
      end
  end.

End Highlight.

Definition syntaxHighlight (json : string) : string := Highlight.scan None 0 json.

(** ** The data model of the manifest store

    The store as the specification types it.  Every optional field may be
    missing; a sequence may be missing as a whole. *)

Record ValidationEntry := {
  ve_code : string;
  ve_explanation : option string
}.

Record SignatureInfo := {
  si_issuer : option string;
  si_time : option string;
  si_certSerialNumber : option string
}.

Definition label_CreativeWork : string := "stds.schema-org.CreativeWork".
Definition label_actions : string := "c2pa.actions".

Inductive Assertion :=
| CreativeWork (author : list string)        (* data.author, by name *)
| Actions (actions : list string)            (* data.actions, by action *)
| Other (label : string) (data : JSValue).   (* any other label *)

Record IngredientRef := {
  ing_title : option string;
  ing_format : option string
}.

Record Manifest := {
  m_title : option string;
  m_format : option string;
  m_claimGenerator : option string;
  m_signatureInfo : option SignatureInfo;
  m_assertions : option (list Assertion);
  m_ingredients : option (list IngredientRef)
}.

Record ManifestStore := {
  s_activeManifestKey : option string;
  s_manifests : option (gmap string Manifest);
  s_validationStatus : option (list ValidationEntry)
}.

(** An assertion of another kind does not carry one of the two
    interpreted labels. *)
Definition wf_assertion (a : Assertion) : bool :=
  match a with
  | Other l _ => negb (l =? label_CreativeWork)%string && negb (l =? label_actions)%string
  | _ => true
  end.

Definition wf_manifest (m : Manifest) : bool :=
  match m_assertions m with
  | Some l => forallb wf_assertion l
  | None => true
  end.

(** The manifest the active key selects. *)
Definition active (s : ManifestStore) : option Manifest :=
  match s_activeManifestKey s, s_manifests s with
  | Some k, Some ms => if (k =? "")%string then None else ms !! k
  | _, _ => None
  end.

Definition wf_store (s : ManifestStore) : bool :=
  match active s with
  | Some m => wf_manifest m
  | None => true
  end.

(** *** The two spellings of a store *)

Inductive Convention := Snake | Camel.

Definition spell (c : Convention) (snake camel : string) : string :=
  match c with
  | Snake => snake
  | Camel => camel
  end.

(** The spelling of each of the five fields that have two names. *)
Record Spelling := {
  sp_key : Convention;          (* active_manifest / activeManifest *)
  sp_validation : Convention;   (* validation_status / validationStatus *)
  sp_signature : Convention;    (* signature_info / signatureInfo *)
  sp_serial : Convention;       (* cert_serial_number / certSerialNumber *)
  sp_generator : Convention     (* claim_generator / claimGenerator *)
}.

(** A store spelled in one convention throughout. *)
Definition uniform (c : Convention) : Spelling :=
  {| sp_key := c; sp_validation := c; sp_signature := c;
     sp_serial := c; sp_generator := c |}.

(** A field that is left out when its value is missing. *)
Definition field (k : string) (v : option JSValue) : list (string * JSValue) :=
  match v with
  | Some x => [(k, x)]
  | None => []
  end.

Definition encode_entry (e : ValidationEntry) : JSValue :=
  obj (field "code" (Some (JStr (ve_code e)))
       ++ field "explanation" (JStr <$> ve_explanation e)).

Definition encode_signature (sp : Spelling) (si : SignatureInfo) : JSValue :=
  obj (field "issuer" (JStr <$> si_issuer si)
       ++ field "time" (JStr <$> si_time si)
       ++ field (spell (sp_serial sp) "cert_serial_number" "certSerialNumber")
                (JStr <$> si_certSerialNumber si)).

Definition encode_author (name : string) : JSValue := obj [("name", JStr name)].
Definition encode_action (action : string) : JSValue := obj [("action", JStr action)].

Definition encode_assertion (a : Assertion) : JSValue :=
  match a with
  | CreativeWork au =>
      obj [("label", JStr label_CreativeWork);
           ("data", obj [("author", JArr (map encode_author au))])]
  | Actions acts =>
      obj [("label", JStr label_actions);
           ("data", obj [("actions", JArr (map encode_action acts))])]
  | Other l d => obj [("label", JStr l); ("data", d)]
  end.

Definition encode_ingredient (i : IngredientRef) : JSValue :=
  obj (field "title" (JStr <$> ing_title i) ++ field "format" (JStr <$> ing_format i)).

Definition encode_manifest (sp : Spelling) (m : Manifest) : JSValue :=
  obj (field "title" (JStr <$> m_title m)
       ++ field "format" (JStr <$> m_format m)
       ++ field (spell (sp_generator sp) "claim_generator" "claimGenerator")
                (JStr <$> m_claimGenerator m)
       ++ field (spell (sp_signature sp) "signature_info" "signatureInfo")
                (encode_signature sp <$> m_signatureInfo m)
       ++ field "assertions" ((fun l => JArr (map encode_assertion l)) <$> m_assertions m)
       ++ field "ingredients" ((fun l => JArr (map encode_ingredient l)) <$> m_ingredients m)).

Definition encode_store (sp : Spelling) (s : ManifestStore) : JSValue :=
  obj (field (spell (sp_key sp) "active_manifest" "activeManifest")
             (JStr <$> s_activeManifestKey s)
       ++ field "manifests" ((fun ms => JObj (encode_manifest sp <$> ms)) <$> s_manifests s)
       ++ field (spell (sp_validation sp) "validation_status" "validationStatus")
                ((fun l => JArr (map encode_entry l)) <$> s_validationStatus s)).

(** *** The summary in terms of the data model *)

Definition nonempty (s : string) : bool := negb (s =? "")%string.

(** An optional string as the program sees it: the empty string counts
    as missing. *)
Definition present (o : option string) : option string :=
  match o with
  | Some s => if nonempty s then Some s else None
  | None => None
  end.

(** The format of a validation code, step by step: every dot becomes the
    arrow, every underscore a blank, a blank is put at each place where an
    upper-case letter follows a lower-case one, all is put in lower case,
    and the first character is put in upper case. *)
Definition head_upper (s : string) : bool :=
  match s with
  | String b _ => Str.is_upper b
  | "" => false
  end.

Fixpoint space_boundaries (s : string) : string :=
  match s with
  | "" => ""
  | String a t =>
      String a (if Str.is_lower a && head_upper t
                then String " " (space_boundaries t)
                else space_boundaries t)
  end.

Definition capitalize_first (s : string) : string :=
  match s with
  | String c r => String (Str.to_upper c) r
  | "" => ""
  end.

Definition dots_to_arrows (s : string) : string := Str.replace_all_char "." Str.arrow s.

Definition underscores_to_blanks : string -> string :=
  Str.map_chars (fun c => if (c =? "_")%char then " "%char else c).

(** Lower case, letter by letter: a letter of the first alphabet becomes
    the letter at the same place in the second. *)
Definition upper_case_letters : string := "ABCDEFGHIJKLMNOPQRSTUVWXYZ".
Definition lower_case_letters : string := "abcdefghijklmnopqrstuvwxyz".

Fixpoint position (c : ascii) (s : string) : option nat :=
  match s with
  | "" => None
  | String d r => if (c =? d)%char then Some 0 else S <$> position c r
  end.

Definition lower_letter (c : ascii) : ascii :=
  match position c upper_case_letters with
  | Some i => default c (String.get i lower_case_letters)
  | None => c
  end.

Definition lower_case : string -> string := Str.map_chars lower_letter.

Definition described_format (code : string) : string :=
  capitalize_first
    (lower_case (space_boundaries (underscores_to_blanks (dots_to_arrows code)))).

Definition is_issue_entry (e : ValidationEntry) : bool :=
  nonempty (ve_code e) && negb (Str.startsWith "claim" (ve_code e)).

Definition issue_of (e : ValidationEntry) : Issue :=
  {| issueCode := described_format (ve_code e);
     issueExplanation := default "" (ve_explanation e) |}.

Definition verdict (vs : list ValidationEntry) : Validation :=
  match List.filter is_issue_entry vs with
  | [] => Verified
  | f => Issues (length f) (map issue_of f)
  end.

(** The first assertion of creative work whose author list starts with a
    non-empty name decides. *)
Definition author_of (a : Assertion) : option string :=
  match a with
  | CreativeWork (n :: _) => present (Some n)
  | _ => None
  end.

Fixpoint first_author (l : list Assertion) : option string :=
  match l with
  | [] => None
  | a :: r =>
      match author_of a with
      | Some n => Some n
      | None => first_author r
      end
  end.

Definition actions_of (a : Assertion) : list string :=
  match a with
  | Actions acts => List.filter nonempty acts
  | _ => []
  end.

Definition all_actions (l : list Assertion) : list string :=
  flat_map actions_of l.

Definition decimal (n : nat) : string := NilZero.string_of_int (Z.to_int (Z.of_nat n)).

Definition signer_of (si : SignatureInfo) : Signer :=
  {| issuer := default "Unknown Issuer" (present (si_issuer si));
     signedAt := present (si_time si);
     certSerial := present (si_certSerialNumber si) |}.

Fixpoint ingredients_from (index : nat) (l : list IngredientRef) : list Ingredient :=
  match l with
  | [] => []
  | i :: r =>
      {| ingTitle := default ("Ingredient " +:+ decimal (S index)) (present (ing_title i));
         ingFormat := default "" (present (ing_format i)) |}
      :: ingredients_from (S index) r
  end.

Definition count_stat (n : nat) (singular : string) : Stat :=
  {| statValue := decimal n;
     statLabel := singular +:+ (if (n =? 1)%nat then "" else "s") |}.

Definition details_of (s : ManifestStore) (m : Manifest) : Details :=
  let assertions := default [] (m_assertions m) in
  let ingredients := default [] (m_ingredients m) in
  let title := present (m_title m) in
  let format := present (m_format m) in
  let author := first_author assertions in
  {| signerHtml := signer_of <$> m_signatureInfo m;
     contentHtml :=
       if shown title || shown format || shown author
       then Some {| author := author; title := title; format := format |}
       else None;
     processHtml := process_section (present (m_claimGenerator m)) (all_actions assertions);
     ingredientsHtml :=
       match ingredients with
       | [] => None
       | _ => Some (ingredients_from 0 ingredients)
       end;
     statsHtml :=
       [ count_stat (size (default ∅ (s_manifests s))) "Manifest";
         count_stat (length assertions) "Assertion";
         count_stat (length ingredients) "Ingredient" ];
     validationHtml := verdict (default [] (s_validationStatus s)) |}.

Definition summarize (s : ManifestStore) : Panel :=
  match active s with
  | Some m => Sections (details_of s m)
  | None => NoDetails
  end.

(** A key that is no key of [manifests] but the name of a member that
    every object inherits: the read [manifests[activeManifestKey]] finds
    that member, which has none of the fields of a manifest. *)
Definition selects_inherited (s : ManifestStore) : bool :=
  match s_activeManifestKey s, s_manifests s with
  | Some k, Some ms =>
      match ms !! k with
      | Some _ => false
      | None => inherited k
      end
  | _, _ => false
  end.

Definition blank_manifest : Manifest :=
  {| m_title := None; m_format := None; m_claimGenerator := None;
     m_signatureInfo := None; m_assertions := None; m_ingredients := None |}.

(** The panel of every store, those of the last kind included. *)
Definition rendered (s : ManifestStore) : Panel :=
  match active s with
  | Some m => Sections (details_of s m)
  | None =>
      if selects_inherited s then Sections (details_of s blank_manifest) else NoDetails
  end.

(** The validation codes of the store are texts of ASCII characters. *)
Definition ascii_codes (s : ManifestStore) : bool :=
  forallb (fun e => Text.is_ascii (ve_code e)) (default [] (s_validationStatus s)).

(** The field of an object literal that a key reads: the first one of
    that name. *)
Fixpoint assoc (k : string) (l : list (string * JSValue)) : option JSValue :=
  match l with
  | [] => None
  | (k', v) :: r => if (k' =? k)%string then Some v else assoc k r
  end.

(** What a dual read of an optional string gives under each spelling. *)
Definition read_string (c : Convention) (o : option string) : JSValue :=
  match c with
  | Snake => default JUndefined (JStr <$> present o)
  | Camel => default JUndefined (JStr <$> o)
  end.

(** *** The pattern read from left to right

    The three alternatives of the pattern start with different
    characters, and inside each of them every choice is settled by the
    next characters.  The functions of this module follow the pattern
    without ever going back; they are shown below to find the match that
    [Highlight.match_at] finds. *)

Module Direct.
Import Str Regex.

Definition cons_match (c : ascii) (m : option (string * string))
  : option (string * string) :=
  match m with
  | Some (lexeme, rest) => Some (String c lexeme, rest)
  | None => None
  end.

(** [( \\u[a-zA-Z0-9]{4} | \\[^u] | [^\\Q] )* Q] behind the opening
    quote: the matched text, closing quote included, and what follows
    it. *)
Fixpoint string_body (s : string) : option (string * string) :=
  match s with
  | "" => None
  | String c r =>
      if (c =? "034")%char then Some (String c "", r)
      else if (c =? "\")%char then
        match r with
        | "" => None
        | String e r1 =>
            if (e =? "u")%char then
              match r1 with
              | String h1 (String h2 (String h3 (String h4 r2))) =>
                  if Highlight.is_alnum h1 && Highlight.is_alnum h2 && Highlight.is_alnum h3 && Highlight.is_alnum h4
                  then cons_match c (cons_match e (cons_match h1 (cons_match h2
                         (cons_match h3 (cons_match h4 (string_body r2))))))
                  else None
              | _ => None
              end
            else cons_match c (cons_match e (string_body r1))
        end
      else cons_match c (string_body r)
  end.

(** [\s* :] *)
Fixpoint colon_tail (s : string) : option (string * string) :=
  match s with
  | "" => None
  | String c r =>
      if (c =? ":")%char then Some (String c "", r)
      else if is_space c then cons_match c (colon_tail r)
      else None
  end.

(** A string with its optional [( \s* : )?]. *)
Definition match_string (s : string) : option (string * string) :=
  match s with
  | String c r =>
      if (c =? "034")%char then
        match string_body r with
        | Some (body, rest) =>
            match colon_tail rest with
            | Some (tail, rest') => Some (String c (body +:+ tail), rest')
            | None => Some (String c body, rest)
            end
        | None => None
        end
      else None
  | "" => None
  end.

(** [\b] between the character before the position and the one at it. *)
Definition boundary (prev : option ascii) (s : string) : bool :=
  Regex.boundary {| Regex.before := prev; Regex.rest := s |}.

(** [\b ( true | false | null ) \b] *)
Definition literal_at (lit : string) (s : string) : option (string * string) :=
  if String.prefix lit s then
    let rest := drop (String.length lit) s in
    if negb (word_opt (first_char rest)) then Some (lit, rest) else None
  else None.

Definition match_literal (prev : option ascii) (s : string)
  : option (string * string) :=
  if boundary prev s then
    match literal_at "true" s with
    | Some m => Some m
    | None =>
        match literal_at "false" s with
        | Some m => Some m
        | None => literal_at "null" s
        end
    end
  else None.

(** [\d* ]: the longest run of digits. *)
Fixpoint digits (s : string) : string * string :=
  match s with
  | String c r =>
      if is_digit c then let '(d, rest) := digits r in (String c d, rest)
      else ("", s)
  | "" => ("", "")
  end.

(** [(?: \. \d* )?] *)
Definition fraction (s : string) : string * string :=
  match s with
  | String c r =>
      if (c =? ".")%char then let '(d, rest) := digits r in (String c d, rest)
      else ("", s)
  | "" => ("", s)
  end.

(** [(?: [eE] [+\-]? \d+ )?] *)
Definition exponent (s : string) : string * string :=
  match s with
  | String e r =>
      if (e =? "e")%char || (e =? "E")%char then
        let '(sign, r1) :=
          match r with
          | String g r' =>
              if (g =? "+")%char || (g =? "-")%char then (String g "", r')
              else ("", r)
          | "" => ("", r)
          end in
        let '(d, rest) := digits r1 in
        if (d =? "")%string then ("", s) else (String e (sign +:+ d), rest)
      else ("", s)
  | "" => ("", s)
  end.

(** [-? \d+ (?: \. \d* )? (?: [eE] [+\-]? \d+ )?] *)
Definition match_number (s : string) : option (string * string) :=
  let '(sign, s1) :=
    match s with
    | String c r => if (c =? "-")%char then (String c "", r) else ("", s)
    | "" => ("", s)
    end in
  let '(d, s2) := digits s1 in
  if (d =? "")%string then None
  else
    let '(f, s3) := fraction s2 in
    let '(x, s4) := exponent s3 in
    Some (sign +:+ d +:+ f +:+ x, s4).

(** The whole pattern tried at one position. *)
Definition match_at (prev : option ascii) (s : string) : option (string * string) :=
  match match_string s with
  | Some m => Some m
  | None =>
      match match_literal prev s with
      | Some m => Some m
      | None => match_number s
      end
  end.

(** The character in front of the position behind a text [m], when
    [prev] stands in front of [m]. *)
Fixpoint last_char (prev : option ascii) (m : string) : option ascii :=
  match m with
  | "" => prev
  | String c r => last_char (Some c) r
  end.

(** One element of the inside of a string literal: its last character
    and what follows it. *)
Definition item_next (s : string) : option (ascii * string) :=
  match s with
  | "" => None
  | String c r =>
      if (c =? Highlight.backslash)%char then
        match r with
        | "" => None
        | String e r1 =>
            if (e =? "u")%char then
              match r1 with
              | String h1 (String h2 (String h3 (String h4 r2))) =>
                  if Highlight.is_alnum h1 && Highlight.is_alnum h2 && Highlight.is_alnum h3 && Highlight.is_alnum h4
                  then Some (h4, r2) else None
              | _ => None
              end
            else Some (e, r1)
        end
      else if (c =? Highlight.quote)%char then None
      else Some (c, r)
  end.

(** The position behind the longest run of characters of a class. *)
Fixpoint run_end (f : ascii -> bool) (prev : option ascii) (s : string)
  : Regex.Position :=
  match s with
  | String c r =>
      if f c then run_end f (Some c) r
      else {| Regex.before := prev; Regex.rest := s |}
  | "" => {| Regex.before := prev; Regex.rest := "" |}
  end.

End Direct.

(** ** The lexical structure of JSON text

    The text handed to [syntaxHighlight] is the output of
    [JSON.stringify]: string literals, object keys, numbers, the three
    literal names, structural characters and white space.  The
    definitions below describe such a text as a list of tokens; they are
    a little more liberal than the JSON grammar (any escape behind a
    backslash, leading zeros, an empty fraction). *)

Module JsonText.
Import Str.

(** One element of the inside of a string literal. *)
Inductive item :=
| Plain (c : ascii)                 (* a character other than quote and backslash *)
| Escape (c : ascii)                (* a backslash and one more character *)
| Unicode (h1 h2 h3 h4 : ascii).    (* backslash, u and four digits *)

Definition quote : ascii := Highlight.quote.
Definition backslash : ascii := Highlight.backslash.

Definition item_ok (i : item) : bool :=
  match i with
  | Plain c => negb (c =? quote)%char && negb (c =? backslash)%char
  | Escape c => negb (c =? "u")%char
  | Unicode h1 h2 h3 h4 =>
      Highlight.is_alnum h1 && Highlight.is_alnum h2
      && Highlight.is_alnum h3 && Highlight.is_alnum h4
  end.

Definition item_text (i : item) : string :=
  match i with
  | Plain c => String c ""
  | Escape c => String backslash (String c "")
  | Unicode h1 h2 h3 h4 =>
      String backslash (String "u" (String h1 (String h2 (String h3 (String h4 "")))))
  end.

Fixpoint body_text (b : list item) : string :=
  match b with
  | [] => ""
  | i :: r => item_text i +:+ body_text r
  end.

Fixpoint all_chars (p : ascii -> bool) (s : string) : bool :=
  match s with
  | "" => true
  | String c r => p c && all_chars p r
  end.

(** The exponent of a number: the letter, the optional sign, the digits. *)
Record exp_part := {
  exp_letter : ascii;
  exp_sign : option ascii;
  exp_digits : string
}.

Inductive token :=
| TString (body : list item)
| TKey (body : list item) (gap : string)   (* a string, white space, the colon *)
| TNumber (negative : bool) (int : string) (frac : option string) (exp : option exp_part)
| TTrue
| TFalse
| TNull
| TPunct (c : ascii).                      (* structural character or white space *)

Definition exponent_ok (x : exp_part) : bool :=
  ((exp_letter x =? "e")%char || (exp_letter x =? "E")%char)
  && match exp_sign x with
     | Some g => (g =? "+")%char || (g =? "-")%char
     | None => true
     end
  && nonempty (exp_digits x) && all_chars is_digit (exp_digits x).

(** Text between tokens: braces, brackets, commas, white space; more
    generally any character that is not a word character, a quote, a
    minus sign, a dot or a colon. *)
Definition is_punct (c : ascii) : bool :=
  negb (is_word c) && negb (c =? quote)%char && negb (c =? "-")%char
  && negb (c =? ".")%char && negb (c =? ":")%char.

Definition token_ok (t : token) : bool :=
  match t with
  | TString b => forallb item_ok b
  | TKey b gap => forallb item_ok b && all_chars is_space gap
  | TNumber _ int frac exp =>
      nonempty int && all_chars is_digit int
      && match frac with Some d => all_chars is_digit d | None => true end
      && match exp with Some x => exponent_ok x | None => true end
  | TTrue | TFalse | TNull => true
  | TPunct c => is_punct c
  end.

Definition exponent_text (x : exp_part) : string :=
  String (exp_letter x)
    (match exp_sign x with Some g => String g "" | None => "" end +:+ exp_digits x).

Definition frac_text (frac : option string) : string :=
  match frac with
  | Some d => String "." d
  | None => ""
  end.

Definition exp_text (exp : option exp_part) : string :=
  match exp with
  | Some x => exponent_text x
  | None => ""
  end.

Definition lexeme (t : token) : string :=
  match t with
  | TString b => String quote (body_text b +:+ String quote "")
  | TKey b gap => String quote (body_text b +:+ String quote (gap +:+ ":"))
  | TNumber neg int frac exp =>
      (if neg then "-" else "") +:+ int +:+ frac_text frac +:+ exp_text exp
  | TTrue => "true"
  | TFalse => "false"
  | TNull => "null"
  | TPunct c => String c ""
  end.

(** The class the span of a token is expected to carry. *)
Definition class_of (t : token) : option string :=
  match t with
  | TString _ => Some "json-string"
  | TKey _ _ => Some "json-key"
  | TNumber _ _ _ _ => Some "json-number"
  | TTrue | TFalse => Some "json-boolean"
  | TNull => Some "json-null"
  | TPunct _ => None
  end.

(** The markup expected for a token: the token as it is, between the
    opening tag of a span element whose only attribute is the class and
    the closing tag; other text as it is. *)
Definition open_tag (cls : string) : string :=
  "<span class=" +:+ String quote (cls +:+ String quote ">").

Definition close_tag : string := "</span>".

Definition markup (t : token) : string :=
  match class_of t with
  | Some cls => open_tag cls +:+ lexeme t +:+ close_tag
  | None => lexeme t
  end.

Fixpoint text (ts : list token) : string :=
  match ts with
  | [] => ""
  | t :: r => lexeme t +:+ text r
  end.

Fixpoint highlighted (ts : list token) : string :=
  match ts with
  | [] => ""
  | t :: r => markup t +:+ highlighted r
  end.

(** A number or a literal name ends where the text ends or where a
    character follows that is neither a word character nor a dot. *)
Definition delimited (rest : string) : bool :=
  match rest with
  | "" => true
  | String c _ => negb (is_word c) && negb (c =? ".")%char
  end.

Definition needs_delimiter (t : token) : bool :=
  match t with
  | TNumber _ _ _ _ | TTrue | TFalse | TNull => true
  | _ => false
  end.

Fixpoint tokens_ok (ts : list token) : bool :=
  match ts with
  | [] => true
  | t :: r =>
      token_ok t
      && (if needs_delimiter t then delimited (text r) else true)
      && tokens_ok r
  end.

(** *** Notions used to follow the scan *)

(** The first character of a text, if there is one, satisfies [p]. *)
Definition head_ok (p : ascii -> bool) (s : string) : bool :=
  match s with
  | "" => true
  | String c _ => p c
  end.

Definition not_digit (c : ascii) : bool := negb (is_digit c).
Definition not_dot (c : ascii) : bool := negb (c =? ".")%char.

(** No literal name starts with such a character. *)
Definition not_name_start (c : ascii) : bool :=
  negb ((c =? "t")%char || (c =? "f")%char || (c =? "n")%char).

(** The characters a number is written with. *)
Definition number_char (c : ascii) : bool :=
  is_digit c || (c =? "-")%char || (c =? "+")%char || (c =? ".")%char
  || (c =? "e")%char || (c =? "E")%char.

End JsonText.

(** ** Auxiliary notions for the statements *)

(** The value a key reads in an object: the member of its own, else the
    inherited one, else [undefined]. *)
Definition prop (o : gmap string JSValue) (k : string) : JSValue := member o k.

(** A validation entry without a code: the field is missing, undefined,
    null or the empty string. *)
Definition codeless (e : JSValue) : bool :=
  match e with
  | JObj m =>
      match m !! "code" with
      | None | Some JUndefined | Some JNull => true
      | Some (JStr s) => (s =? "")%string
      | Some _ => false
      end
  | _ => false
  end.

(** The validation entries of the example. *)
Definition example_status : list ValidationEntry :=
  [ {| ve_code := "claim.signingCredential.trusted"; ve_explanation := None |};
    {| ve_code := "signingCredential.untrusted"; ve_explanation := Some "x" |} ].

(** Stripping a prefix: the text behind it when it is there, the text
    itself otherwise. *)
Definition strip_prefix (p s : string) : string :=
  if Str.startsWith p s then Str.drop (String.length p) s else s.

(** The label of an unmapped action code. *)
Definition described_fallback (code : string) : string :=
  underscores_to_blanks (strip_prefix "c2pa." code).

(** Every action string of every assertion of actions, empty ones too. *)
Definition every_action (l : list Assertion) : list string :=
  flat_map (fun a => match a with Actions acts => acts | _ => [] end) l.

(** The two assertions of actions of the example. *)
Definition example_actions : list Assertion :=
  [ Actions ["c2pa.created"]; Actions ["c2pa.resized"; "c2pa.unknown_code"] ].

(** The name of the first author of the first assertion of creative work
    whose author list is not empty, whatever that name is. *)
Fixpoint first_listed_author (l : list Assertion) : option string :=
  match l with
  | [] => None
  | CreativeWork (n :: _) :: _ => Some n
  | _ :: r => first_listed_author r
  end.

(** The two assertions of creative work of the example. *)
Definition example_authors : list Assertion :=
  [ CreativeWork []; CreativeWork ["Jane Doe"] ].

(** An assertion of creative work whose [data.author] is any value. *)
Definition creative_work_with (author : JSValue) : JSValue :=
  obj [("label", JStr label_CreativeWork); ("data", obj [("author", author)])].

(** Values that are not lists and carry no length of their own: null,
    booleans, numbers, texts and objects without a member [length]. *)
Definition no_list (v : JSValue) : bool :=
  match v with
  | JArr _ | JBuiltin _ => false
  | JObj m => match m !! "length" with None => true | Some _ => false end
  | _ => true
  end.

(** The fields that are read under two names. *)
Definition dual_names : list (string * string) :=
  [ ("active_manifest", "activeManifest");
    ("validation_status", "validationStatus");
    ("signature_info", "signatureInfo");
    ("cert_serial_number", "certSerialNumber");
    ("claim_generator", "claimGenerator") ].

(** A store whose key is the name of a member that every object
    inherits, and which has no manifest at all. *)
Definition store_with_inherited_key : JSValue :=
  obj [("active_manifest", JStr "constructor"); ("manifests", obj [])].

(** A store in which each of two fields is there under both names, with
    different values. *)
Definition store_with_both_names : JSValue :=
  obj [ ("active_manifest", JStr "urn:uuid:1");
        ("activeManifest", JStr "urn:uuid:2");
        ("manifests",
         obj [ ("urn:uuid:1",
                obj [ ("claim_generator", JStr "Camera 1.0");
                      ("claimGenerator", JStr "Editor 2.0") ]);
               ("urn:uuid:2", obj [("title", JStr "other.jpg")]) ]) ].

(** The part of a text in front of its first separator. *)
Fixpoint first_piece (is_sep : ascii -> bool) (s : string) : string :=
  match s with
  | "" => ""
  | String c r => if is_sep c then "" else String c (first_piece is_sep r)
  end.

Definition separators_to_blanks : string -> string :=
  Str.map_chars (fun c => if (c =? "_")%char || (c =? "/")%char then " "%char else c).

(** The app name: the claim generator up to its first blank, with
    underscores and slashes turned into blanks. *)
Definition described_appName (g : string) : string :=
  separators_to_blanks (first_piece (fun c => (c =? " ")%char) g).

(** The same with a split on any white space. *)
Definition appName_by_whitespace (g : string) : string :=
  separators_to_blanks (first_piece Str.is_space g).

(** A claim generator with a tab between name and version. *)
Definition tabbed_generator : string := "Photo_App" +:+ String "009" "1.0".

(** A store whose only assertion carries a single action object where a
    list of actions is expected. *)
Definition store_with_single_action : JSValue :=
  obj [ ("active_manifest", JStr "urn:uuid:1");
        ("manifests",
         obj [ ("urn:uuid:1",
                obj [ ("assertions",
                       JArr [ obj [ ("label", JStr "c2pa.actions");
                                    ("data", obj [ ("actions",
                                       obj [("action", JStr "c2pa.created")]) ]) ] ]) ]) ]) ].

(** A store with one manifest, used to exercise the statements. *)
Definition sample_manifest : Manifest :=
  {| m_title := Some "sunset.jpg";
     m_format := Some "image/jpeg";
     m_claimGenerator := Some "Adobe_Photoshop/24.0 c2pa-rs/0.5";
     m_signatureInfo :=
       Some {| si_issuer := Some "Example CA";
               si_time := Some "2024-01-01T00:00:00Z";
               si_certSerialNumber := Some "1234" |};
     m_assertions :=
       Some [ CreativeWork ["Jane Doe"]; Actions ["c2pa.created"; "c2pa.resized"];
              Other "c2pa.hash.data" JNull ];
     m_ingredients := Some [ {| ing_title := Some "base.png"; ing_format := None |} ] |}.

Definition sample_store : ManifestStore :=
  {| s_activeManifestKey := Some "urn:uuid:1";
     s_manifests := Some {[ "urn:uuid:1" := sample_manifest ]};
     s_validationStatus := Some example_status |}.

(** The example text as tokens: brace, key a, number 1, comma, key b,
    the string made of x, an escaped quote and y, brace. *)
Definition example_tokens : list JsonText.token :=
  [ JsonText.TPunct "{";
    JsonText.TKey [JsonText.Plain "a"] "";
    JsonText.TNumber false "1" None None;
    JsonText.TPunct ",";
    JsonText.TKey [JsonText.Plain "b"] "";
    JsonText.TString [JsonText.Plain "x"; JsonText.Escape JsonText.quote; JsonText.Plain "y"];
    JsonText.TPunct "}" ].

Definition example_json : string :=
  "{" +:+ Str.dq +:+ "a" +:+ Str.dq +:+ ":1," +:+ Str.dq +:+ "b" +:+ Str.dq +:+ ":"
  +:+ Str.dq +:+ "x\" +:+ Str.dq +:+ "y" +:+ Str.dq +:+ "}".

(** The markup the example is expected to come out with, the double
    quote written Q. *)
Definition Q : string := String (ascii_of_nat 34) "".

Definition example_markup : string :=
  "{<span class=" +:+ Q +:+ "json-key" +:+ Q +:+ ">" +:+ Q +:+ "a" +:+ Q +:+ ":</span>"
  +:+ "<span class=" +:+ Q +:+ "json-number" +:+ Q +:+ ">1</span>,"
  +:+ "<span class=" +:+ Q +:+ "json-key" +:+ Q +:+ ">" +:+ Q +:+ "b" +:+ Q +:+ ":</span>"
  +:+ "<span class=" +:+ Q +:+ "json-string" +:+ Q +:+ ">"
  +:+ Q +:+ "x\" +:+ Q +:+ "y" +:+ Q +:+ "</span>}".
(** ** The output of the highlighter, piece by piece

    Whatever the input is, [syntaxHighlight] writes it out again as a
    sequence of pieces: a character outside every match is copied, a
    match is put inside a span. *)

Module Pieces.

Inductive piece :=
| Copied (c : ascii)            (* a character outside every match *)
| Tagged (cls m : string).      (* a match, with the class of its span *)

(** The part of the input a piece stands for, and what is written for it. *)
Definition source (p : piece) : string :=
  match p with
  | Copied c => String c ""
  | Tagged _ m => m
  end.

Definition written (p : piece) : string :=
  match p with
  | Copied c => String c ""
  | Tagged cls m => JsonText.open_tag cls +:+ m +:+ JsonText.close_tag
  end.

Fixpoint join {A : Type} (f : A -> string) (l : list A) : string :=
  match l with
  | [] => ""
  | x :: r => f x +:+ join f r
  end.

Definition classes : list string :=
  ["json-key"; "json-string"; "json-number"; "json-boolean"; "json-null"].

Definition piece_ok (p : piece) : bool :=
  match p with
  | Copied _ => true
  | Tagged cls m => nonempty m && existsb (String.eqb cls) classes
  end.

(** The characters one of the three alternatives of the pattern can
    start with: the quote, the minus sign, a digit, and the first letters
    of [true], [false] and [null]. *)
Definition starts_match (c : ascii) : bool :=
  (c =? Highlight.quote)%char || (c =? "-")%char || Str.is_digit c
  || (c =? "t")%char || (c =? "f")%char || (c =? "n")%char.

(** A letter or the underscore: a word character that is no digit. *)
Definition is_name_char (c : ascii) : bool := Str.is_word c && negb (Str.is_digit c).

Definition is_literal_name (w : string) : bool :=
  (w =? "true")%string || (w =? "false")%string || (w =? "null")%string.

End Pieces.

(** ** Conditions on the characters of a formatted validation code *)

Definition no_dot_no_underscore (c : ascii) : bool :=
  negb (c =? ".")%char && negb (c =? "_")%char.

Definition not_upper (c : ascii) : bool := negb (Str.is_upper c).

(** ** File sizes

    [formatFileSize] is called with the size of a [File], an integer.
    The quotient of an integer below 2^53 by a power of two is exact in
    floating point, so it is the rational number written here, and
    [toFixed] rounds this value. *)

Module Number.
Import QArith_base Qround Qabs.

(** The digits of [n / 10], the dot, and the last digit of [n]. *)
Definition tenths (n : Z) : string :=
  NilZero.string_of_int (Z.to_int (n / 10)) +:+ "."
  +:+ NilZero.string_of_int (Z.to_int (n mod 10)).

(** [x.toFixed(1)]: with [n] the integer for which [n / 10] is nearest
    to the absolute value of [x], the larger one if two are equally near,
    the digits of [n] with the dot before the last one, behind a minus
    sign if [x] is negative.  From 10^21 on the result is in the
    exponent notation, which is not modelled. *)
Definition toFixed1 (x : Q) : outcome string :=
  let a := Qabs x in
  if Qle_bool (inject_Z (10 ^ 21)) a then Beyond
  else
    let n := Qfloor (a * inject_Z 10 + (1 # 2)) in
    Ok ((if Qle_bool 0 x then "" else "-") +:+ tenths n).

End Number.

Definition formatFileSize (bytes : Z) : outcome string :=
  if (bytes <? 1024)%Z then
    let* s := toString (JNum bytes) in Ok (s +:+ " B")
  else if (bytes <? 1024 * 1024)%Z then
    let* s := Number.toFixed1
                (QArith_base.Qdiv (QArith_base.inject_Z bytes) (QArith_base.inject_Z 1024)) in
    Ok (s +:+ " KB")
  else
    let* s := Number.toFixed1
                (QArith_base.Qdiv (QArith_base.inject_Z bytes)
                   (QArith_base.inject_Z (1024 * 1024))) in
    Ok (s +:+ " MB").

(** The unit a size of at least 1024 bytes is shown in: its name and its
    number of bytes. *)
Definition unit_of (bytes : Z) : string * Z :=
  if (bytes <? 1024 * 1024)%Z then (" KB", 1024%Z) else (" MB", (1024 * 1024)%Z).

(** ** [JSON.stringify(manifestStore, null, 2)]

    The text [processFile] hands to [syntaxHighlight].  A value is walked
    as a tree; the members of an object come in the order in which the
    object enumerates its keys, each key once.  Numbers are integers, as
    everywhere in this model. *)

Module Json.
Import Str.

Inductive value :=
| Undefined
| Null
| Bool (b : bool)
| Num (n : Z)
| Text (s : string)
| Arr (items : list value)
| Obj (members : list (string * value)).

(** The same value as the rest of the program reads it. *)
Fixpoint to_js (v : value) : JSValue :=
  match v with
  | Undefined => JUndefined
  | Null => JNull
  | Bool b => JBool b
  | Num n => JNum n
  | Text s => JStr s
  | Arr items => JArr (map to_js items)
  | Obj members =>
      JObj (list_to_map (map (fun m => match m with (k, x) => (k, to_js x) end) members))
  end.

(** The values for which the text below is the one [JSON.stringify]
    writes: every number lies in the range in which each integer is a
    number of the language, no text or key holds a surrogate alone, and
    the keys of an object differ from one another. *)
Fixpoint distinct (keys : list string) : bool :=
  match keys with
  | [] => true
  | k :: r => negb (existsb (String.eqb k) r) && distinct r
  end.

Fixpoint safe (v : value) : bool :=
  match v with
  | Undefined | Null | Bool _ => true
  | Num n => (Z.abs n <=? 2 ^ 53)%Z
  | Text s => Text.no_surrogate s
  | Arr items => forallb safe items
  | Obj members =>
      distinct (map fst members)
      && forallb (fun m => match m with (k, x) => Text.no_surrogate k && safe x end) members
  end.

Definition newline : ascii := ascii_of_nat 10.

Definition hex_digit (n : nat) : ascii :=
  nth n (list_ascii_of_string "0123456789abcdef") "0"%char.

(** One character inside a quoted string: the quote and the backslash
    behind a backslash, the control characters as [\b], [\t], [\n], [\f],
    [\r] or [\u00XX], every other character as it is. *)
Definition quote_char (c : ascii) : string :=
  if (c =? Highlight.quote)%char then String Highlight.backslash (String c "")
  else if (c =? Highlight.backslash)%char then String Highlight.backslash (String c "")
  else if (code c =? 8)%nat then String Highlight.backslash "b"
  else if (code c =? 9)%nat then String Highlight.backslash "t"
  else if (code c =? 10)%nat then String Highlight.backslash "n"
  else if (code c =? 12)%nat then String Highlight.backslash "f"
  else if (code c =? 13)%nat then String Highlight.backslash "r"
  else if (code c <? 32)%nat then
    String Highlight.backslash
      (String "u" (String "0" (String "0"
         (String (hex_digit (code c / 16)) (String (hex_digit (code c mod 16)) "")))))
  else String c "".

Fixpoint quote_body (s : string) : string :=
  match s with
  | "" => ""
  | String c r => quote_char c +:+ quote_body r
  end.

Definition quote (s : string) : string :=
  String Highlight.quote (quote_body s +:+ String Highlight.quote "").

(** [parts.join(sep)]. *)
Fixpoint join (sep : string) (parts : list string) : string :=
  match parts with
  | [] => ""
  | [p] => p
  | p :: r => p +:+ sep +:+ join sep r
  end.

(** The indentation of one level. *)
Definition gap : string := "  ".

(** An array or an object from the texts of its elements or members:
    empty brackets if there are none, else one element per line, each
    behind the indentation [indent], and the closing bracket behind
    [stepback]. *)
Definition wrap (opening closing : ascii) (stepback indent : string)
    (partial : list string) : string :=
  match partial with
  | [] => String opening (String closing "")
  | _ =>
      String opening
        (String newline indent
           +:+ join (String "," (String newline indent)) partial
           +:+ String newline stepback +:+ String closing "")
  end.

(** The text of a value at the indentation [stepback]; [None] stands
    for [undefined]: such a member of an object is left out, such an
    element of an array is written [null]. *)
Fixpoint property (stepback : string) (v : value) : option string :=
  match v with
  | Undefined => None
  | Null => Some "null"
  | Bool true => Some "true"
  | Bool false => Some "false"
  | Num n => Some (NilZero.string_of_int (Z.to_int n))
  | Text s => Some (quote s)
  | Arr items =>
      let indent := stepback +:+ gap in
      Some (wrap "[" "]" stepback indent
              (map (fun x => default "null" (property indent x)) items))
  | Obj members =>
      let indent := stepback +:+ gap in
      Some (wrap "{" "}" stepback indent
              (omap (fun m =>
                       match m with
                       | (k, x) =>
                           match property indent x with
                           | Some s => Some (quote k +:+ ": " +:+ s)
                           | None => None
                           end
                       end) members))
  end.

Definition stringify (v : value) : option string := property "" v.

(** *** The tokens of this text *)

Import JsonText.

Definition char_items (c : ascii) : list item :=
  if (c =? Highlight.quote)%char then [Escape c]
  else if (c =? Highlight.backslash)%char then [Escape c]
  else if (code c =? 8)%nat then [Escape "b"]
  else if (code c =? 9)%nat then [Escape "t"]
  else if (code c =? 10)%nat then [Escape "n"]
  else if (code c =? 12)%nat then [Escape "f"]
  else if (code c =? 13)%nat then [Escape "r"]
  else if (code c <? 32)%nat then
    [Unicode "0" "0" (hex_digit (code c / 16)) (hex_digit (code c mod 16))]
  else [Plain c].

Fixpoint string_items (s : string) : list item :=
  match s with
  | "" => []
  | String c r => char_items c ++ string_items r
  end.

(** Structural characters and white space, one token each. *)
Fixpoint punct (s : string) : list token :=
  match s with
  | "" => []
  | String c r => TPunct c :: punct r
  end.

Definition number_token (n : Z) : token :=
  match Z.to_int n with
  | Decimal.Pos d => TNumber false (NilZero.string_of_uint d) None None
  | Decimal.Neg d => TNumber true (NilZero.string_of_uint d) None None
  end.

Fixpoint join_tokens (sep : list token) (parts : list (list token)) : list token :=
  match parts with
  | [] => []
  | [p] => p
  | p :: r => p ++ sep ++ join_tokens sep r
  end.

Definition wrap_tokens (opening closing : ascii) (stepback indent : string)
    (partial : list (list token)) : list token :=
  match partial with
  | [] => [TPunct opening; TPunct closing]
  | _ =>
      TPunct opening
        :: punct (String newline indent)
        ++ join_tokens (TPunct "," :: punct (String newline indent)) partial
        ++ punct (String newline stepback) ++ [TPunct closing]
  end.

(** What each part of the text of a value is: a key with its colon, a
    string, a number, a name, or a structural character or white space
    between them. *)
Fixpoint tokens (stepback : string) (v : value) : list token :=
  match v with
  | Undefined => []
  | Null => [TNull]
  | Bool true => [TTrue]
  | Bool false => [TFalse]
  | Num n => [number_token n]
  | Text s => [TString (string_items s)]
  | Arr items =>
      let indent := stepback +:+ gap in
      wrap_tokens "[" "]" stepback indent
        (map (fun x =>
                match x with
                | Undefined => [TNull]
                | _ => tokens indent x
                end) items)
  | Obj members =>
      let indent := stepback +:+ gap in
      wrap_tokens "{" "}" stepback indent
        (omap (fun m =>
                 match m with
                 | (k, x) =>
                     match x with
                     | Undefined => None
                     | _ => Some (TKey (string_items k) "" :: TPunct " " :: tokens indent x)
                     end
                 end) members)
  end.

End Json.

(** ** The page and [processFile]

    The elements of the page that the program writes to, the answers of
    the SDK, and [processFile] as the sequence of its awaited steps.  A
    promise is given by what it settles to.  Logging to the console is
    left out. *)

Module Page.

Inductive State := empty | loading | no_data | error | results.

Definition State_eqb (a b : State) : bool :=
  match a, b with
  | empty, empty | loading, loading | no_data, no_data
  | error, error | results, results => true
  | _, _ => false
  end.

(** The attribute [hidden] of the five containers. *)
Record Panels := {
  emptyState_hidden : bool;
  loadingState_hidden : bool;
  noDataState_hidden : bool;
  errorState_hidden : bool;
  resultsContainer_hidden : bool
}.

Record File := {
  file_name : string;
  file_size : Z;
  file_type : string
}.

Record View := {
  panels : Panels;
  errorMessage : string;                 (* errorMessage.textContent *)
  previewCard_hidden : bool;
  previewImage_src : option File;        (* the object URL of a file *)
  fileInfo : string;                     (* fileInfo.textContent *)
  credentialDetails : option Panel;      (* innerHTML; [None] when empty *)
  code : option string;                  (* innerHTML of the code element
                                            of jsonOutput, if there is one *)
  currentJsonData : option string        (* [None] for undefined *)
}.

Definition with_panels (p : Panels) (v : View) : View :=
  {| panels := p; errorMessage := errorMessage v;
     previewCard_hidden := previewCard_hidden v; previewImage_src := previewImage_src v;
     fileInfo := fileInfo v; credentialDetails := credentialDetails v;
     code := code v; currentJsonData := currentJsonData v |}.

Definition with_errorMessage (m : string) (v : View) : View :=
  {| panels := panels v; errorMessage := m;
     previewCard_hidden := previewCard_hidden v; previewImage_src := previewImage_src v;
     fileInfo := fileInfo v; credentialDetails := credentialDetails v;
     code := code v; currentJsonData := currentJsonData v |}.

Definition with_preview (f : File) (info : string) (v : View) : View :=
  {| panels := panels v; errorMessage := errorMessage v;
     previewCard_hidden := false; previewImage_src := Some f;
     fileInfo := info; credentialDetails := credentialDetails v;
     code := code v; currentJsonData := currentJsonData v |}.

Definition with_credentialDetails (d : option Panel) (v : View) : View :=
  {| panels := panels v; errorMessage := errorMessage v;
     previewCard_hidden := previewCard_hidden v; previewImage_src := previewImage_src v;
     fileInfo := fileInfo v; credentialDetails := d;
     code := code v; currentJsonData := currentJsonData v |}.

Definition with_currentJsonData (j : option string) (v : View) : View :=
  {| panels := panels v; errorMessage := errorMessage v;
     previewCard_hidden := previewCard_hidden v; previewImage_src := previewImage_src v;
     fileInfo := fileInfo v; credentialDetails := credentialDetails v;
     code := code v; currentJsonData := j |}.

Definition with_code (html : string) (v : View) : View :=
  {| panels := panels v; errorMessage := errorMessage v;
     previewCard_hidden := previewCard_hidden v; previewImage_src := previewImage_src v;
     fileInfo := fileInfo v; credentialDetails := credentialDetails v;
     code := Some html; currentJsonData := currentJsonData v |}.

(** UI State Management. *)
Definition only (state : State) : Panels :=
  {| emptyState_hidden := negb (State_eqb state empty);
     loadingState_hidden := negb (State_eqb state loading);
     noDataState_hidden := negb (State_eqb state no_data);
     errorState_hidden := negb (State_eqb state error);
     resultsContainer_hidden := negb (State_eqb state results) |}.

Definition showState (state : State) (v : View) : View := with_panels (only state) v.

Definition showError (message : string) (v : View) : View :=
  showState error (with_errorMessage message v).

(** A value that is thrown or that a promise is rejected with, by what
    the handler reads of it: [error instanceof Error], [String(error)]
    and [error.message]. *)
Record Thrown := {
  is_Error : bool;
  as_string : string;
  message : string
}.

Inductive settled (A : Type) : Type :=
| fulfilled (a : A)
| rejected (e : Thrown).
Arguments fulfilled {A} a.
Arguments rejected {A} e.

(** A reader by what its two methods settle to. *)
Record Reader := {
  manifestStore : settled Json.value;
  free : settled unit
}.

(** The SDK by what [reader.fromBlob] settles to for the file: [None] is
    null. *)
Definition Sdk : Type := settled (option Reader).

(** The end of a run: the page, and whether [reader.free] was called. *)
Record Run := {
  view : View;
  free_called : bool
}.

(** The sign U+2022 with a blank on either side. *)
Definition bullet : string :=
  String " " (String (ascii_of_nat 226) (String (ascii_of_nat 128)
    (String (ascii_of_nat 162) " "))).

(** The test for an active manifest in [processFile]. *)
Definition no_active_manifest (storeData : JSValue) : outcome bool :=
  let* activeKey := dual storeData "active_manifest" "activeManifest" in
  let* manifestsData := get storeData "manifests" in
  if negb (truthy activeKey) then Ok true
  else if negb (truthy manifestsData) then Ok true
  else let* m := get_computed manifestsData activeKey in Ok (negb (truthy m)).

(** The handler of the [catch] clause. *)
Definition handler (e : Thrown) (v : View) : View :=
  let errorStr := as_string e in
  if Str.contains "No C2PA" errorStr || Str.contains "not found" errorStr
     || Str.contains "JumbfNotFound" errorStr
  then showState no_data v
  else showError ("Error processing file: "
                  +:+ (if is_Error e then message e else "Unknown error")) v.

(** The statements behind the test for an active manifest.  [type_error]
    is the [TypeError] of the engine. *)
Definition display (type_error : Thrown) (store : Json.value) (v : View) : outcome View :=
  match createCredentialDetails (Json.to_js store) with
  | Throw => Ok (handler type_error (with_credentialDetails None v))
  | Beyond => Beyond
  | Ok panel =>
      let v := with_credentialDetails (Some panel) v in
      let v := with_currentJsonData (Json.stringify store) v in
      match code v with
      | Some _ =>
          match Json.stringify store with
          | Some json => Ok (showState results (with_code (syntaxHighlight json) v))
          | None => Ok (handler type_error v)
          end
      | None => Ok (showState results v)
      end
  end.

(** Process uploaded file. *)
Definition processFile (c2pa : option Sdk) (type_error : Thrown) (file : File) (v : View)
  : outcome Run :=
  match c2pa with
  | None =>
      Ok {| view := showError "C2PA SDK is not initialized. Please refresh the page." v;
            free_called := false |}
  | Some fromBlob =>
      (* Update preview *)
      let* size := formatFileSize (file_size file) in
      let v := with_preview file
                 (file_name file +:+ bullet +:+ size +:+ bullet +:+ file_type file) v in
      (* Show loading state *)
      let v := showState loading v in
      match fromBlob with
      | rejected e => Ok {| view := handler e v; free_called := false |}
      | fulfilled None => Ok {| view := showState no_data v; free_called := false |}
      | fulfilled (Some reader) =>
          match manifestStore reader with
          | rejected e => Ok {| view := handler e v; free_called := false |}
          | fulfilled store =>
              match free reader with
              | rejected e => Ok {| view := handler e v; free_called := true |}
              | fulfilled _ =>
                  if negb (truthy (Json.to_js store)) then
                    Ok {| view := showState no_data v; free_called := true |}
                  else
                    match no_active_manifest (Json.to_js store) with
                    | Throw => Ok {| view := handler type_error v; free_called := true |}
                    | Beyond => Beyond
                    | Ok true => Ok {| view := showState no_data v; free_called := true |}
                    | Ok false =>
                        let* v' := display type_error store v in
                        Ok {| view := v'; free_called := true |}
                    end
              end
          end
      end
  end.

(** The inputs for which the run is followed to its end: the size of a
    file is an integer from 0 to below 2^53, and what the reader gives as
    the manifest store is a value that [JSON.stringify] writes as
    modelled and that is either without a store in it (null, false, 0 or
    the empty text) or reads as a well-formed store of the data model in
    some spelling. *)
Definition reads_as_store (store : Json.value) : Prop :=
  Json.safe store = true
  /\ (truthy (Json.to_js store) = false
      \/ exists sp s, wf_store s = true /\ Json.to_js store = encode_store sp s).

Definition in_scope (c2pa : option Sdk) (file : File) : Prop :=
  (0 <= file_size file < 2 ^ 53)%Z
  /\ forall reader store,
       c2pa = Some (fulfilled (Some reader)) ->
       manifestStore reader = fulfilled store ->
       reads_as_store store.

(** The state whose container is the only one not hidden, if there is
    such a state. *)
Definition state_of (p : Panels) : option State :=
  match emptyState_hidden p, loadingState_hidden p, noDataState_hidden p,
        errorState_hidden p, resultsContainer_hidden p with
  | false, true, true, true, true => Some empty
  | true, false, true, true, true => Some loading
  | true, true, false, true, true => Some no_data
  | true, true, true, false, true => Some error
  | true, true, true, true, false => Some results
  | _, _, _, _, _ => None
  end.

End Page.

(** ** The summary of the first version ([createSummary] of main.ts) *)

Module Summary.

(** The value of an item: a text, or the local form of a date
    ([new Date(s).toLocaleString()], which depends on the browser). *)
Inductive ItemValue :=
| Plain (s : string)
| LocalDate (s : string).

Record Item := {
  label : string;
  value : ItemValue
}.

Definition item (l : string) (s : string) : Item := {| label := l; value := Plain s |}.

(** [if (v) summaryItems.push({ label, value: String(v) })]. *)
Definition text_item (l : string) (v : JSValue) : outcome (list Item) :=
  if truthy v then let* s := toString v in Ok [item l s] else Ok [].

(** [if (v && Array.isArray(v)) summaryItems.push({ label, value: String(v.length) })]. *)
Definition count_item (l : string) (v : JSValue) : list Item :=
  match v with
  | JArr items => [item l (decimal (length items))]
  | _ => []
  end.

(** [validationStatus.some(callback)]: the elements are tested from left
    to right up to the first one the callback accepts. *)
Fixpoint some (p : JSValue -> outcome bool) (l : list JSValue) : outcome bool :=
  match l with
  | [] => Ok false
  | x :: r =>
      let* hit := p x in
      if hit : bool then Ok true else some p r
  end.

Definition has_issues : string :=
  String (ascii_of_nat 226) (String (ascii_of_nat 154) (String (ascii_of_nat 160)
    (String (ascii_of_nat 239) (String (ascii_of_nat 184) (String (ascii_of_nat 143)
       " Has Issues"))))).

Definition valid : string :=
  String (ascii_of_nat 226) (String (ascii_of_nat 156) (String (ascii_of_nat 147) " Valid")).

Definition signature_items (signatureInfo : JSValue) : outcome (list Item) :=
  if truthy signatureInfo then
    let* issuer := get signatureInfo "issuer" in
    let* i1 := text_item "Issuer" issuer in
    let* time := get signatureInfo "time" in
    let* i2 := (if truthy time
                then let* s := toString time in
                     Ok [{| label := "Signed At"; value := LocalDate s |}]
                else Ok []) in
    Ok (i1 ++ i2)
  else Ok [].

Definition manifest_items (activeManifest : JSValue) : outcome (list Item) :=
  if truthy activeManifest then
    let* claimGenerator := get activeManifest "claimGenerator" in
    let* i1 := text_item "Claim Generator" claimGenerator in
    let* title := get activeManifest "title" in
    let* i2 := text_item "Title" title in
    let* format := get activeManifest "format" in
    let* i3 := text_item "Format" format in
    let* signatureInfo := get activeManifest "signatureInfo" in
    let* i4 := signature_items signatureInfo in
    let* assertions := get activeManifest "assertions" in
    let i5 := count_item "Assertions" assertions in
    let* ingredients := get activeManifest "ingredients" in
    let i6 := count_item "Ingredients" ingredients in
    Ok (i1 ++ i2 ++ i3 ++ i4 ++ i5 ++ i6)
  else Ok [].

Definition validation_items (validationStatus : JSValue) : outcome (list Item) :=
  if truthy validationStatus then
    match validationStatus with
    | JArr l =>
        let* hasErrors := some is_issue l in
        Ok [item "Validation" (if hasErrors : bool then has_issues else valid)]
    | v => call_method "some" v
    end
  else Ok [].

(** Create summary items from manifest store. *)
Definition createSummary (store : JSValue) : outcome (list Item) :=
  let* activeManifest := get store "activeManifest" in
  let* i1 := manifest_items activeManifest in
  let* manifests := get store "manifests" in
  let i2 := if truthy manifests
            then [item "Total Manifests" (decimal (keys_length manifests))]
            else [] in
  let* validationStatus := get store "validationStatus" in
  let* i3 := validation_items validationStatus in
  Ok (i1 ++ i2 ++ i3).

(** The labels in the order in which the function comes to them. *)
Definition labels : list string :=
  ["Claim Generator"; "Title"; "Format"; "Issuer"; "Signed At"; "Assertions";
   "Ingredients"; "Total Manifests"; "Validation"].

End Summary.

(** *** A run of [processFile] used as an example *)

Module PageExample.
Import Page.

Definition store : Json.value :=
  Json.Obj
    [("active_manifest", Json.Text "urn:m1");
     ("manifests",
      Json.Obj [("urn:m1", Json.Obj [("title", Json.Text "Photo");
                                     ("format", Json.Text "image/jpeg")])])].

(** The same store in the data model. *)
Definition typed_store : ManifestStore :=
  {| s_activeManifestKey := Some "urn:m1";
     s_manifests :=
       Some {[ "urn:m1" :=
                 {| m_title := Some "Photo"; m_format := Some "image/jpeg";
                    m_claimGenerator := None; m_signatureInfo := None;
                    m_assertions := None; m_ingredients := None |} ]};
     s_validationStatus := None |}.

Definition reader : Reader :=
  {| manifestStore := fulfilled store; free := fulfilled tt |}.

(** A reader whose [manifestStore] is rejected. *)
Definition failing_reader : Reader :=
  {| manifestStore := rejected {| is_Error := true;
                                  as_string := "Error: JumbfNotFound";
                                  message := "JumbfNotFound" |};
     free := fulfilled tt |}.

Definition type_error : Thrown :=
  {| is_Error := true; as_string := "TypeError: x is not iterable";
     message := "x is not iterable" |}.

Definition file : File :=
  {| file_name := "photo.jpg"; file_size := 1280; file_type := "image/jpeg" |}.

(** The page before a file is chosen. *)
Definition page : View :=
  {| panels := only empty; errorMessage := ""; previewCard_hidden := true;
     previewImage_src := None; fileInfo := ""; credentialDetails := None;
     code := Some ""; currentJsonData := Some "" |}.

End PageExample.

(** *** Stores used as examples *)

Module StoreExample.

(** A store of the first version: the active manifest is a member of the
    store, and every name is in camel case. *)
Definition first_version : JSValue :=
  obj [ ("activeManifest",
         obj [ ("title", JStr "sunset.jpg");
               ("signatureInfo", obj [("issuer", JStr "Example CA")]);
               ("assertions", JArr [obj [("label", JStr "c2pa.actions")]]);
               ("ingredients", JStr "none") ]);
        ("manifests", obj [("urn:uuid:1", obj [])]);
        ("validationStatus",
         JArr [ obj [("code", JStr "claim.signingCredential.trusted")];
                obj [("code", JStr "signingCredential.untrusted")] ]) ].

(** A store whose active manifest has three ingredients, the last two
    without a title. *)
Definition ingredients : list IngredientRef :=
  [ {| ing_title := Some "base.png"; ing_format := None |};
    {| ing_title := None; ing_format := Some "image/png" |};
    {| ing_title := Some ""; ing_format := None |} ].

Definition manifest : Manifest :=
  {| m_title := None; m_format := None; m_claimGenerator := None;
     m_signatureInfo := None; m_assertions := None;
     m_ingredients := Some ingredients |}.

Definition with_ingredients : ManifestStore :=
  {| s_activeManifestKey := Some "urn:uuid:1";
     s_manifests := Some {[ "urn:uuid:1" := manifest ]};
     s_validationStatus := None |}.

End StoreExample.

(** ** The members of the store that [createCredentialDetails] reads *)

Definition store_members : list string :=
  ["active_manifest"; "activeManifest"; "manifests"; "validation_status"; "validationStatus"].

Definition is_store_member (k : string) : bool := existsb (String.eqb k) store_members.
(** * Properties *)

(** ** Reading the fields of an object literal *)

Lemma lookup_fields (l : list (string * JSValue)) (k : string) :
  (list_to_map l : gmap string JSValue) !! k = assoc k l.
Proof.
  induction l as [|[k' v] r IH]; simpl.
  - apply lookup_empty.
  - rewrite lookup_insert. destruct (String.eqb_spec k' k) as [->|Hne].
    + now rewrite decide_True.
    + now rewrite decide_False.
Qed.

Lemma member_fields (l : list (string * JSValue)) (k : string) :
  inherited k = false ->
  member (list_to_map l) k = default JUndefined (assoc k l).
Proof. intros H. unfold member. rewrite lookup_fields, H. now destruct (assoc k l). Qed.

Lemma get_obj (l : list (string * JSValue)) (k : string) :
  inherited k = false ->
  get (obj l) k = Ok (default JUndefined (assoc k l)).
Proof. intros H. unfold obj, get. now rewrite member_fields. Qed.

Lemma assoc_field_app k k' v r :
  assoc k (field k' v ++ r) =
  if (k' =? k)%string then match v with Some x => Some x | None => assoc k r end
  else assoc k r.
Proof. destruct v; simpl; [reflexivity | now destruct (k' =? k)%string]. Qed.

Lemma assoc_field k k' v :
  assoc k (field k' v) = if (k' =? k)%string then v else None.
Proof. destruct v; simpl; [reflexivity | now destruct (k' =? k)%string]. Qed.

(** A method that is missing gives no result. *)
Lemma call_method_not_Ok {A} (name : string) (v : JSValue) (x : A) :
  call_method name v <> Ok x.
Proof.
  destruct v as [| | | | | |m|]; try discriminate. cbn [call_method].
  destruct (m !! name) as [f|]; [destruct (callable f)|]; discriminate.
Qed.

Arguments obj : simpl never.

Lemma truthy_obj l : truthy (obj l) = true.
Proof. reflexivity. Qed.

Ltac js := repeat (rewrite ?get_obj, ?truthy_obj by reflexivity; cbn).

(** *** Authors *)

Lemma extractAuthor_loop_cons (a : Assertion) (rest : list JSValue) :
  wf_assertion a = true ->
  extractAuthor_loop (encode_assertion a :: rest) =
  match author_of a with
  | Some n => Ok (Some n)
  | None => extractAuthor_loop rest
  end.
Proof.
  intros Hwf. unfold extractAuthor_loop; fold extractAuthor_loop.
  destruct a as [au|acts|l d]; unfold encode_assertion; js.
  - destruct au as [|n au]; js; [reflexivity|].
    unfold encode_author. js. unfold nonempty. now destruct (n =? "")%string.
  - reflexivity.
  - cbn in Hwf. apply andb_prop in Hwf as [H1 _].
    unfold label_CreativeWork in H1. now destruct (l =? _)%string.
Qed.

Lemma extractAuthor_loop_app (pre : list Assertion) (post : list JSValue) :
  forallb wf_assertion pre = true ->
  extractAuthor_loop (map encode_assertion pre ++ post) =
  match first_author pre with
  | Some n => Ok (Some n)
  | None => extractAuthor_loop post
  end.
Proof.
  induction pre as [|a pre IH]; intros Hwf; [reflexivity|].
  cbn [forallb] in Hwf. apply andb_prop in Hwf as [Ha Hpre].
  change (map encode_assertion (a :: pre) ++ post)
    with (encode_assertion a :: (map encode_assertion pre ++ post)).
  rewrite extractAuthor_loop_cons by assumption. cbn [first_author].
  destruct (author_of a); [reflexivity | now apply IH].
Qed.

Lemma extractAuthor_encode (l : list Assertion) :
  forallb wf_assertion l = true ->
  extractAuthor (JArr (map encode_assertion l)) = Ok (first_author l).
Proof.
  intros Hwf. unfold extractAuthor. cbn [iterate bind].
  rewrite <- (app_nil_r (map encode_assertion l)).
  rewrite extractAuthor_loop_app by assumption.
  now destruct (first_author l).
Qed.

(** *** Actions *)

Lemma actionList_loop_cons (a : string) (rest : list JSValue) (acc : list string) :
  actionList_loop (encode_action a :: rest) acc =
  actionList_loop rest (acc ++ List.filter nonempty [a]).
Proof.
  unfold actionList_loop; fold actionList_loop. unfold encode_action. js.
  unfold nonempty. destruct (a =? "")%string; cbn; [now rewrite app_nil_r | reflexivity].
Qed.

Lemma actionList_loop_encode (acts : list string) (acc : list string) :
  actionList_loop (map encode_action acts) acc = Ok (acc ++ List.filter nonempty acts).
Proof.
  revert acc. induction acts as [|a acts IH]; intros acc.
  - cbn. now rewrite app_nil_r.
  - change (map encode_action (a :: acts)) with (encode_action a :: map encode_action acts).
    rewrite actionList_loop_cons, IH, <- app_assoc.
    change (a :: acts) with ([a] ++ acts). now rewrite List.filter_app.
Qed.

Lemma extractActions_loop_cons (a : Assertion) (rest : list JSValue) acc :
  wf_assertion a = true ->
  extractActions_loop (encode_assertion a :: rest) acc =
  extractActions_loop rest (acc ++ actions_of a).
Proof.
  intros Hwf. unfold extractActions_loop; fold extractActions_loop.
  destruct a as [au|acts|l d]; unfold encode_assertion; js.
  - now rewrite app_nil_r.
  - now rewrite actionList_loop_encode.
  - cbn in Hwf. apply andb_prop in Hwf as [_ H2].
    unfold label_actions in H2. rewrite app_nil_r. now destruct (l =? _)%string.
Qed.

Lemma extractActions_loop_encode (l : list Assertion) acc :
  forallb wf_assertion l = true ->
  extractActions_loop (map encode_assertion l) acc = Ok (acc ++ all_actions l).
Proof.
  revert acc. induction l as [|a l IH]; intros acc Hwf.
  - cbn. now rewrite app_nil_r.
  - cbn [forallb] in Hwf. apply andb_prop in Hwf as [Ha Hl].
    change (map encode_assertion (a :: l)) with (encode_assertion a :: map encode_assertion l).
    rewrite extractActions_loop_cons by assumption.
    rewrite IH by assumption. unfold all_actions. cbn [flat_map]. now rewrite <- app_assoc.
Qed.

Lemma extractActions_encode (l : list Assertion) :
  forallb wf_assertion l = true ->
  extractActions (JArr (map encode_assertion l)) = Ok (all_actions l).
Proof.
  intros Hwf. unfold extractActions. cbn [iterate bind]. now rewrite extractActions_loop_encode.
Qed.

(** *** Validation status *)

Lemma is_issue_encode (e : ValidationEntry) :
  is_issue (encode_entry e) = Ok (is_issue_entry e).
Proof.
  unfold is_issue, encode_entry, is_issue_entry. js.
  unfold nonempty. now destruct (ve_code e =? "")%string.
Qed.

Lemma filterM_cons p x r :
  filterM p (x :: r) =
  (let* keep := p x in let* r' := filterM p r in Ok (if keep : bool then x :: r' else r')).
Proof. reflexivity. Qed.

Lemma validationIssues_encode (vs : list ValidationEntry) :
  filterM is_issue (map encode_entry vs) =
  Ok (map encode_entry (List.filter is_issue_entry vs)).
Proof.
  induction vs as [|e vs IH]; [reflexivity|].
  change (map encode_entry (e :: vs)) with (encode_entry e :: map encode_entry vs).
  rewrite filterM_cons, is_issue_encode, IH. cbn [bind List.filter].
  now destruct (is_issue_entry e).
Qed.

Lemma replace_underscores (s : string) :
  Str.replace_all_char "_" " " s = underscores_to_blanks s.
Proof.
  induction s as [|c s IH]; [reflexivity|].
  cbn [Str.replace_all_char]. unfold underscores_to_blanks in *.
  cbn [Str.map_chars]. rewrite IH. now destruct (c =? "_")%char.
Qed.

Lemma upper_not_lower (c : ascii) : Str.is_upper c = true -> Str.is_lower c = false.
Proof. destruct c as [[] [] [] [] [] [] [] []]; try discriminate; reflexivity. Qed.

Lemma space_lower_upper_cons (a b : ascii) (r : string) :
  Str.space_lower_upper (String a (String b r))
  = if Str.is_lower a && Str.is_upper b
    then String a (String " " (String b (Str.space_lower_upper r)))
    else String a (Str.space_lower_upper (String b r)).
Proof. reflexivity. Qed.

Lemma space_boundaries_cons (a : ascii) (t : string) :
  space_boundaries (String a t)
  = String a (if Str.is_lower a && head_upper t
              then String " " (space_boundaries t)
              else space_boundaries t).
Proof. reflexivity. Qed.

Lemma space_lower_upper_boundaries (s : string) :
  Str.space_lower_upper s = space_boundaries s
  /\ forall a, Str.space_lower_upper (String a s) = space_boundaries (String a s).
Proof.
  induction s as [|b r [IH1 IH2]].
  - split; [reflexivity|]. intros a. cbn. now rewrite andb_false_r.
  - split; [apply IH2|]. intros a.
    rewrite space_lower_upper_cons, (space_boundaries_cons a). cbn [head_upper].
    destruct (Str.is_lower a && Str.is_upper b) eqn:E.
    + apply andb_prop in E as [_ Hb]. rewrite (space_boundaries_cons b).
      rewrite (upper_not_lower b Hb). cbn [andb]. now rewrite IH1.
    + now rewrite (IH2 b).
Qed.

Lemma upper_first_capitalize (s : string) :
  Str.upper_first_word_char s = capitalize_first s.
Proof.
  destruct s as [|c r]; [reflexivity|]. cbn.
  destruct (Str.is_word c) eqn:E; [reflexivity|].
  unfold Str.to_upper. unfold Str.is_word in E.
  now destruct (Str.is_lower c).
Qed.

Lemma lower_letter_to_lower (c : ascii) : lower_letter c = Str.to_lower c.
Proof. destruct c as [[] [] [] [] [] [] [] []]; reflexivity. Qed.

Lemma lower_case_toLowerCase (s : string) : lower_case s = Str.toLowerCase s.
Proof.
  unfold lower_case, Str.toLowerCase.
  induction s as [|c s IH]; [reflexivity|].
  cbn [Str.map_chars]. now rewrite lower_letter_to_lower, IH.
Qed.

Lemma described_format_steps (code : string) :
  described_format code
  = capitalize_first
      (Str.toLowerCase (space_boundaries (underscores_to_blanks (dots_to_arrows code)))).
Proof. unfold described_format. now rewrite lower_case_toLowerCase. Qed.

Lemma formatValidationCode_described (code : string) :
  formatValidationCode code = described_format code.
Proof.
  rewrite described_format_steps. unfold formatValidationCode, dots_to_arrows.
  rewrite upper_first_capitalize, replace_underscores.
  now rewrite (proj1 (space_lower_upper_boundaries _)).
Qed.

Lemma issue_item_encode (e : ValidationEntry) :
  is_issue_entry e = true -> issue_item (encode_entry e) = Ok (issue_of e).
Proof.
  intros He. apply andb_prop in He as [Hne _].
  unfold issue_item, encode_entry, issue_of. js.
  change (negb (ve_code e =? "")%string) with (nonempty (ve_code e)). rewrite Hne. cbn.
  rewrite formatValidationCode_described.
  rewrite assoc_field. cbn.
  destruct (ve_explanation e) as [x|]; cbn; [|reflexivity].
  unfold nonempty. destruct (String.eqb_spec x ""); cbn; [now subst | reflexivity].
Qed.

Lemma mapM_cons {A B} (f : A -> outcome B) x r :
  mapM f (x :: r) =
  match f x with
  | Ok y => match mapM f r with Ok ys => Ok (y :: ys) | Throw => Throw | Beyond => Beyond end
  | Throw => Throw
  | Beyond => Beyond
  end.
Proof. reflexivity. Qed.

Lemma mapM_issue_item_encode (vs : list ValidationEntry) :
  forallb is_issue_entry vs = true ->
  mapM issue_item (map encode_entry vs) = Ok (map issue_of vs).
Proof.
  induction vs as [|e vs IH]; intros H; [reflexivity|].
  cbn [forallb] in H. apply andb_prop in H as [He Hvs].
  change (map encode_entry (e :: vs)) with (encode_entry e :: map encode_entry vs).
  now rewrite mapM_cons, issue_item_encode, IH.
Qed.

Lemma forallb_filter {A} (p : A -> bool) l : forallb p (List.filter p l) = true.
Proof.
  induction l as [|x l IH]; [reflexivity|]. cbn.
  destruct (p x) eqn:E; cbn; [now rewrite E|assumption].
Qed.

Lemma validation_section_encode (vs : list ValidationEntry) :
  validation_section (JArr (map encode_entry vs)) = Ok (verdict vs).
Proof.
  unfold validation_section, validationIssues, verdict.
  rewrite validationIssues_encode. cbn [bind].
  rewrite length_map.
  pose proof (forallb_filter is_issue_entry vs) as Hall.
  destruct (List.filter is_issue_entry vs) as [|e f]; [reflexivity|].
  cbn [length Nat.ltb Nat.leb].
  now rewrite mapM_issue_item_encode.
Qed.

(** *** Optional strings *)

Lemma string_or_null_opt (o : option string) :
  string_or_null (default JUndefined (JStr <$> o)) = Ok (present o).
Proof.
  destruct o as [x|]; cbn; [|reflexivity].
  unfold string_or_null, nonempty. cbn. now destruct (x =? "")%string.
Qed.

(** *** Signer *)

Lemma signer_section_encode (sp : Spelling) (si : SignatureInfo) :
  signer_section (encode_signature sp si) = Ok (Some (signer_of si)).
Proof.
  unfold signer_section, encode_signature, signer_of, dual.
  rewrite truthy_obj, !get_obj, !assoc_field_app by reflexivity.
  destruct si as [i t n]; cbn [si_issuer si_time si_certSerialNumber String.eqb Ascii.eqb Bool.eqb].
  destruct (sp_serial sp); cbn [spell String.eqb Ascii.eqb Bool.eqb];
    rewrite ?assoc_field; cbn [String.eqb Ascii.eqb Bool.eqb];
    destruct i as [[|? ?]|], t as [[|? ?]|], n as [[|? ?]|]; reflexivity.
Qed.

(** *** Ingredients and counts *)

Lemma ingredient_item_encode (index : nat) (i : IngredientRef) :
  ingredient_item index (encode_ingredient i) =
  Ok {| ingTitle := default ("Ingredient " +:+ decimal (S index)) (present (ing_title i));
        ingFormat := default "" (present (ing_format i)) |}.
Proof.
  unfold ingredient_item, encode_ingredient.
  rewrite !get_obj, !assoc_field_app, ?assoc_field by reflexivity.
  cbn [String.eqb Ascii.eqb Bool.eqb].
  replace (Z.of_nat index + 1)%Z with (Z.of_nat (S index)) by lia.
  destruct i as [[[|? ?]|] [[|? ?]|]]; reflexivity.
Qed.

Lemma mapM_index_encode (index : nat) (l : list IngredientRef) :
  mapM_index ingredient_item index (map encode_ingredient l) =
  Ok (ingredients_from index l).
Proof.
  revert index. induction l as [|i l IH]; intros index; [reflexivity|].
  change (map encode_ingredient (i :: l)) with (encode_ingredient i :: map encode_ingredient l).
  cbn [mapM_index]. now rewrite ingredient_item_encode, IH.
Qed.

Lemma ingredients_section_encode (l : list IngredientRef) :
  ingredients_section (JArr (map encode_ingredient l)) =
  Ok match l with [] => None | _ => Some (ingredients_from 0 l) end.
Proof.
  unfold ingredients_section. cbn [truthy get String.eqb Ascii.eqb Bool.eqb bind gt0].
  rewrite length_map. destruct l as [|i l]; [reflexivity|].
  replace (0 <? Z.of_nat (length (i :: l)))%Z with true
    by (symmetry; apply Z.ltb_lt; cbn [length]; lia).
  now rewrite mapM_index_encode.
Qed.

Lemma stat_count (n : nat) (singular : string) :
  stat (JNum (Z.of_nat n)) singular = Ok (count_stat n singular).
Proof.
  unfold stat, count_stat, decimal. cbn [toString bind]. do 3 f_equal.
  destruct n as [|[|n]]; [reflexivity | reflexivity |].
  replace (is_not_one (JNum (Z.of_nat (S (S n))))) with true; [reflexivity|].
  unfold is_not_one. destruct (Z.of_nat (S (S n))) as [|[p|p|]|p] eqn:E; try reflexivity. lia.
Qed.

Lemma length_or_zero_arr (l : list JSValue) :
  length_or_zero (JArr l) = Ok (JNum (Z.of_nat (length l))).
Proof.
  unfold length_or_zero. cbn. unfold or_else. cbn.
  destruct l; reflexivity.
Qed.

(** *** The whole panel *)

Lemma dual_obj l snake camel :
  inherited snake = false -> inherited camel = false ->
  dual (obj l) snake camel =
  Ok (or_else (default JUndefined (assoc snake l)) (default JUndefined (assoc camel l))).
Proof.
  intros Hs Hc. unfold dual, or_else. rewrite !get_obj by assumption. cbn [bind].
  now destruct (truthy _).
Qed.

Ltac read_fields :=
  rewrite ?dual_obj, ?get_obj, ?assoc_field_app, ?assoc_field by reflexivity;
  cbn [spell String.eqb Ascii.eqb Bool.eqb].

Lemma string_or_null_read c o : string_or_null (read_string c o) = Ok (present o).
Proof. destruct c, o as [[|? ?]|]; reflexivity. Qed.

Lemma store_key sp s :
  dual (encode_store sp s) "active_manifest" "activeManifest"
  = Ok (read_string (sp_key sp) (s_activeManifestKey s)).
Proof.
  unfold encode_store. destruct (sp_key sp), (sp_validation sp); read_fields;
    destruct (s_activeManifestKey s) as [[|? ?]|]; reflexivity.
Qed.

Lemma store_manifests sp s :
  get (encode_store sp s) "manifests"
  = Ok (default JUndefined ((fun ms => JObj (encode_manifest sp <$> ms)) <$> s_manifests s)).
Proof.
  unfold encode_store. destruct (sp_key sp), (sp_validation sp); read_fields;
    destruct (s_manifests s); reflexivity.
Qed.

Lemma store_validation sp s :
  dual (encode_store sp s) "validation_status" "validationStatus"
  = Ok (default JUndefined ((fun l => JArr (map encode_entry l)) <$> s_validationStatus s)).
Proof.
  unfold encode_store. destruct (sp_key sp), (sp_validation sp); read_fields;
    destruct (s_validationStatus s); reflexivity.
Qed.

Lemma manifest_signature sp m :
  dual (encode_manifest sp m) "signature_info" "signatureInfo"
  = Ok (default JUndefined (encode_signature sp <$> m_signatureInfo m)).
Proof.
  unfold encode_manifest. destruct (sp_generator sp), (sp_signature sp); read_fields;
    destruct (m_signatureInfo m); reflexivity.
Qed.

Lemma manifest_generator sp m :
  dual (encode_manifest sp m) "claim_generator" "claimGenerator"
  = Ok (read_string (sp_generator sp) (m_claimGenerator m)).
Proof.
  unfold encode_manifest. destruct (sp_generator sp), (sp_signature sp); read_fields;
    destruct (m_claimGenerator m) as [[|? ?]|]; reflexivity.
Qed.

Lemma manifest_title sp m :
  get (encode_manifest sp m) "title" = Ok (default JUndefined (JStr <$> m_title m)).
Proof.
  unfold encode_manifest. destruct (sp_generator sp), (sp_signature sp); read_fields; destruct (m_title m); reflexivity.
Qed.

Lemma manifest_format sp m :
  get (encode_manifest sp m) "format" = Ok (default JUndefined (JStr <$> m_format m)).
Proof.
  unfold encode_manifest. destruct (sp_generator sp), (sp_signature sp); read_fields; destruct (m_format m); reflexivity.
Qed.

Lemma manifest_assertions sp m :
  get (encode_manifest sp m) "assertions"
  = Ok (default JUndefined ((fun l => JArr (map encode_assertion l)) <$> m_assertions m)).
Proof.
  unfold encode_manifest. destruct (sp_generator sp), (sp_signature sp); read_fields; destruct (m_assertions m); reflexivity.
Qed.

Lemma manifest_ingredients sp m :
  get (encode_manifest sp m) "ingredients"
  = Ok (default JUndefined ((fun l => JArr (map encode_ingredient l)) <$> m_ingredients m)).
Proof.
  unfold encode_manifest. destruct (sp_generator sp), (sp_signature sp); read_fields; destruct (m_ingredients m); reflexivity.
Qed.

Lemma sections_encode (sp : Spelling) (s : ManifestStore) ms (m : Manifest) :
  s_manifests s = Some ms ->
  wf_manifest m = true ->
  sections (encode_store sp s) (JObj (encode_manifest sp <$> ms)) (encode_manifest sp m)
  = Ok (Sections (details_of s m)).
Proof.
  intros Hms Hwf. unfold sections, details_of.
  rewrite store_validation, manifest_signature, manifest_title, manifest_format,
    manifest_assertions, manifest_generator, manifest_ingredients.
  cbn [bind]. rewrite !string_or_null_opt, string_or_null_read. cbn [bind].
  replace (validation_section _) with (Ok (verdict (default [] (s_validationStatus s))))
    by (destruct (s_validationStatus s);
        [symmetry; apply validation_section_encode | reflexivity]).
  replace (signer_section _) with (Ok (signer_of <$> m_signatureInfo m))
    by (destruct (m_signatureInfo m);
        [symmetry; apply signer_section_encode | reflexivity]).
  cbn [bind]. rewrite Hms. cbn [from_option id keys_length].
  rewrite map_size_fmap, stat_count. cbn [bind].
  unfold wf_manifest in Hwf.
  destruct (m_assertions m) as [asl|], (m_ingredients m) as [ings|];
    cbn [fmap option_fmap option_map from_option id truthy bind];
    rewrite ?extractAuthor_encode, ?extractActions_encode by assumption;
    rewrite ?ingredients_section_encode, ?length_or_zero_arr; cbn [bind];
    rewrite ?length_map, ?stat_count; reflexivity.
Qed.

Lemma sections_inherited (sp : Spelling) (s : ManifestStore) ms (k : string) :
  s_manifests s = Some ms ->
  sections (encode_store sp s) (JObj (encode_manifest sp <$> ms)) (JBuiltin k)
  = Ok (Sections (details_of s blank_manifest)).
Proof.
  intros Hms. unfold sections, details_of.
  rewrite store_validation. cbn [bind].
  replace (validation_section _) with (Ok (verdict (default [] (s_validationStatus s))))
    by (destruct (s_validationStatus s);
        [symmetry; apply validation_section_encode | reflexivity]).
  cbn [bind]. rewrite Hms. cbn [from_option id keys_length].
  rewrite map_size_fmap. unfold dual. cbn [get].
  change (no_builtin_member "signature_info") with true.
  change (no_builtin_member "signatureInfo") with true.
  change (no_builtin_member "title") with true.
  change (no_builtin_member "format") with true.
  change (no_builtin_member "assertions") with true.
  change (no_builtin_member "claim_generator") with true.
  change (no_builtin_member "claimGenerator") with true.
  change (no_builtin_member "ingredients") with true.
  cbn [bind truthy signer_section string_or_null ingredients_section length_or_zero].
  rewrite stat_count. cbn [bind].
  change (JNum 0) with (JNum (Z.of_nat 0)). rewrite stat_count. reflexivity.
Qed.

Lemma createCredentialDetails_rendered (sp : Spelling) (s : ManifestStore) :
  wf_store s = true ->
  createCredentialDetails (encode_store sp s) = Ok (rendered s).
Proof.
  intros Hwf. unfold createCredentialDetails, rendered, selects_inherited.
  rewrite store_key, store_manifests. cbn [bind].
  unfold wf_store in Hwf. unfold active in *.
  destruct (s_activeManifestKey s) as [k|]; [|now destruct (sp_key sp), (s_manifests s)].
  destruct (s_manifests s) as [ms|] eqn:Hms; [|now destruct (sp_key sp), k].
  destruct k as [|a k]; [destruct (sp_key sp), (ms !! ""); reflexivity|].
  cbn [String.eqb] in *.
  replace (read_string (sp_key sp) (Some (String a k))) with (JStr (String a k))
    by now destruct (sp_key sp).
  cbn [fmap option_fmap option_map from_option id truthy String.eqb negb andb get_computed toString bind get].
  unfold member. rewrite lookup_fmap.
  destruct (ms !! String a k) as [m|]; cbn [fmap option_fmap option_map from_option id].
  - unfold encode_manifest at 1. rewrite truthy_obj. cbn [negb].
    now apply sections_encode.
  - destruct (inherited (String a k)); cbn [truthy negb]; [|reflexivity].
    now apply sections_inherited.
Qed.

Lemma rendered_summarize (s : ManifestStore) :
  selects_inherited s = false -> rendered s = summarize s.
Proof. intros H. unfold rendered, summarize. rewrite H. now destruct (active s). Qed.

Lemma createCredentialDetails_encode (sp : Spelling) (s : ManifestStore) :
  wf_store s = true ->
  selects_inherited s = false ->
  createCredentialDetails (encode_store sp s) = Ok (summarize s).
Proof.
  intros Hwf Hk. rewrite createCredentialDetails_rendered by assumption.
  now rewrite rendered_summarize.
Qed.

Lemma createCredentialDetails_active (sp : Spelling) (s : ManifestStore) (m : Manifest) :
  wf_store s = true ->
  active s = Some m ->
  createCredentialDetails (encode_store sp s) = Ok (Sections (details_of s m)).
Proof.
  intros Hwf Hact. rewrite createCredentialDetails_rendered by assumption.
  unfold rendered. now rewrite Hact.
Qed.

(** ** The pattern and its reading from left to right *)

Section RegexProofs.
Import Str Regex.

Local Abbreviation pos prev s := {| before := prev; rest := s |}.

Lemma app_cons c s r : String c s +:+ r = String c (s +:+ r).
Proof. reflexivity. Qed.

Lemma app_nil_l s : "" +:+ s = s.
Proof. reflexivity. Qed.

Lemma app_assoc_s (a b c : string) : (a +:+ b) +:+ c = a +:+ (b +:+ c).
Proof. induction a as [|x a IH]; [reflexivity|]. now rewrite !app_cons, IH. Qed.

Lemma length_app_s (a b : string) :
  String.length (a +:+ b) = String.length a + String.length b.
Proof. induction a as [|x a IH]; [reflexivity|]. rewrite app_cons. cbn. now rewrite IH. Qed.

Lemma take_app (m r : string) :
  Highlight.take (String.length (m +:+ r) - String.length r) (m +:+ r) = m.
Proof.
  rewrite length_app_s. replace (String.length m + String.length r - String.length r)
    with (String.length m) by lia.
  induction m as [|c m IH]; [now destruct r|].
  rewrite app_cons. cbn [String.length Highlight.take]. now rewrite IH.
Qed.

Lemma prefix_nil (s : string) : String.prefix "" s = true.
Proof. now destruct s. Qed.

Lemma prefix_cons (c d : ascii) (l s : string) :
  String.prefix (String c l) (String d s) = (c =? d)%char && String.prefix l s.
Proof.
  cbn [String.prefix]. destruct (ascii_dec c d) as [->|Hne].
  - now rewrite Ascii.eqb_refl.
  - apply Ascii.eqb_neq in Hne. now rewrite Hne.
Qed.

(** *** A literal text *)

Lemma run_lit (lit : string) (fuel : nat) (prev : option ascii) (s : string)
    (k : Position -> option Position) :
  run (Lit lit) fuel (pos prev s) k
  = if String.prefix lit s
    then k (pos (Direct.last_char prev lit) (drop (String.length lit) s))
    else None.
Proof.
  revert prev s. induction lit as [|c lit IH]; intros prev s.
  - cbn [Lit run Direct.last_char String.length drop]. rewrite prefix_nil.
    now destruct s.
  - cbn [Lit run]. unfold step_char. cbn [rest].
    destruct s as [|d s]; [reflexivity|].
    rewrite prefix_cons. destruct (c =? d)%char eqn:E; [|reflexivity].
    apply Ascii.eqb_eq in E as <-. cbn [andb]. rewrite IH. reflexivity.
Qed.

(** *** A star over a class of characters *)

Lemma star_chars (f : ascii -> bool) iteration (k : Position -> option Position) :
  (forall p k', iteration p k' = step_char f p k') ->
  forall n prev s,
    String.length s <= n ->
    k (Direct.run_end f prev s) <> None ->
    star_loop iteration n (pos prev s) k = k (Direct.run_end f prev s).
Proof.
  intros Hit. induction n as [|n IH]; intros prev s Hn Hk.
  - destruct s; [reflexivity | cbn in Hn; lia].
  - cbn [star_loop]. rewrite Hit. unfold step_char. cbn [rest].
    destruct s as [|c s]; [reflexivity|].
    cbn [Direct.run_end] in *. destruct (f c); [|reflexivity].
    replace (String.length s <? String.length (String c s))%nat with true
      by (symmetry; apply Nat.ltb_lt; cbn; lia).
    cbn [String.length] in Hn.
    rewrite IH by (assumption || lia).
    destruct (k (Direct.run_end f (Some c) s)); [reflexivity | contradiction].
Qed.

(** *** White space and the colon behind a string *)

Lemma star_colon iteration (k : Position -> option Position) :
  (forall p k', iteration p k' = step_char is_space p k') ->
  forall n prev s,
    String.length s <= n ->
    star_loop iteration n (pos prev s) (fun p => step_char (Ascii.eqb ":") p k)
    = match Direct.colon_tail s with
      | Some (_, r) => k (pos (Some ":"%char) r)
      | None => None
      end.
Proof.
  intros Hit. induction n as [|n IH]; intros prev s Hn.
  - destruct s; [reflexivity | cbn in Hn; lia].
  - cbn [star_loop]. rewrite Hit. unfold step_char at 1. cbn [rest].
    destruct s as [|c s]; [reflexivity|].
    cbn [Direct.colon_tail]. cbn [String.length] in Hn.
    destruct (is_space c) eqn:Hsp.
    + replace (String.length s <? String.length (String c s))%nat with true
        by (symmetry; apply Nat.ltb_lt; cbn; lia).
      rewrite IH by lia.
      replace (c =? ":")%char with false
        by (revert Hsp; destruct c as [[] [] [] [] [] [] [] []]; try discriminate; reflexivity).
      unfold step_char. cbn [rest].
      replace (":" =? c)%char with false
        by (revert Hsp; destruct c as [[] [] [] [] [] [] [] []]; try discriminate; reflexivity).
      destruct (Direct.colon_tail s) as [[t r]|]; cbn [Direct.cons_match]; [|reflexivity].
      now destruct (k (pos (Some ":"%char) r)).
    + unfold step_char. cbn [rest]. rewrite (Ascii.eqb_sym ":" c).
      destruct (c =? ":")%char eqn:E; [|reflexivity].
      apply Ascii.eqb_eq in E as ->. reflexivity.
Qed.

(** *** The inside of a string *)

Lemma run_string_item (fuel : nat) (prev : option ascii) (s : string)
    (k : Position -> option Position) :
  run Highlight.string_item fuel (pos prev s) k
  = match Direct.item_next s with
    | Some (c', r') => k (pos (Some c') r')
    | None => None
    end.
Proof.
  unfold Highlight.string_item, Highlight.one, Highlight.other_than, Four.
  cbn [run]. unfold step_char. cbn [rest].
  destruct s as [|c r]; [reflexivity|]. cbn [Direct.item_next].
  rewrite (Ascii.eqb_sym Highlight.backslash c).
  destruct (c =? Highlight.backslash)%char eqn:Eb; cbn [negb andb].
  - destruct r as [|e r1]; [reflexivity|].
    rewrite (Ascii.eqb_sym "u" e). destruct (e =? "u")%char eqn:Eu; cbn [negb].
    + destruct r1 as [|h1 [|h2 [|h3 [|h4 r2]]]]; try reflexivity;
        repeat match goal with
               | |- context [Highlight.is_alnum ?h] => destruct (Highlight.is_alnum h)
               end; cbn [andb]; try reflexivity.
      now destruct (k (pos (Some h4) r2)).
    + now destruct (k (pos (Some e) r1)).
  - destruct (c =? Highlight.quote)%char; reflexivity.
Qed.

Lemma item_next_shorter (s : string) c' r' :
  Direct.item_next s = Some (c', r') -> String.length r' < String.length s.
Proof.
  destruct s as [|c r]; [discriminate|]. cbn [Direct.item_next].
  destruct (c =? Highlight.backslash)%char.
  - destruct r as [|e r1]; [discriminate|]. destruct (e =? "u")%char.
    + destruct r1 as [|h1 [|h2 [|h3 [|h4 r2]]]]; try discriminate.
      destruct (_ && _); [|discriminate]. intros H. injection H as _ <-. cbn. lia.
    + intros H. injection H as _ <-. cbn. lia.
  - destruct (c =? Highlight.quote)%char; [discriminate|].
    intros H. injection H as _ <-. cbn. lia.
Qed.

Lemma string_body_item (s : string) c' r' :
  Direct.item_next s = Some (c', r') ->
  option_map snd (Direct.string_body s) = option_map snd (Direct.string_body r')
  /\ (first_char s <> Some Highlight.quote).
Proof.
  destruct s as [|c r]; [discriminate|]. cbn [Direct.item_next Direct.string_body first_char].
  change ("\"%char) with Highlight.backslash. change ("034"%char) with Highlight.quote.
  destruct (c =? Highlight.backslash)%char eqn:Eb.
  - apply Ascii.eqb_eq in Eb as ->.
    change ((Highlight.backslash =? Highlight.quote)%char) with false. cbn iota.
    destruct r as [|e r1]; [discriminate|]. destruct (e =? "u")%char.
    + destruct r1 as [|h1 [|h2 [|h3 [|h4 r2]]]]; try discriminate.
      destruct (_ && _); [|discriminate]. intros H. injection H as _ <-.
      split; [|discriminate]. now destruct (Direct.string_body r2) as [[? ?]|].
    + intros H. injection H as _ <-.
      split; [|discriminate]. now destruct (Direct.string_body r1) as [[? ?]|].
  - destruct (c =? Highlight.quote)%char eqn:Eq; [discriminate|].
    intros H. injection H as _ <-. split.
    + now destruct (Direct.string_body r) as [[? ?]|].
    + intros H. injection H as ->. now rewrite Ascii.eqb_refl in Eq.
Qed.

Lemma string_body_stop (s : string) :
  Direct.item_next s = None ->
  option_map snd (Direct.string_body s)
  = match s with
    | String c r => if (c =? Highlight.quote)%char then Some r else None
    | "" => None
    end.
Proof.
  destruct s as [|c r]; [reflexivity|]. cbn [Direct.item_next Direct.string_body].
  change ("\"%char) with Highlight.backslash. change ("034"%char) with Highlight.quote.
  destruct (c =? Highlight.backslash)%char eqn:Eb.
  - apply Ascii.eqb_eq in Eb as ->.
    change ((Highlight.backslash =? Highlight.quote)%char) with false. cbn iota.
    destruct r as [|e r1]; [reflexivity|]. destruct (e =? "u")%char; [|discriminate].
    destruct r1 as [|h1 [|h2 [|h3 [|h4 r2]]]]; try reflexivity.
    destruct (_ && _); [discriminate | reflexivity].
  - destruct (c =? Highlight.quote)%char; [reflexivity | discriminate].
Qed.

Lemma star_items (fuel : nat) (k : Position -> option Position) :
  forall n prev s,
    String.length s <= n ->
    star_loop (run Highlight.string_item fuel) n (pos prev s)
      (fun p => step_char (Ascii.eqb Highlight.quote) p k)
    = match option_map snd (Direct.string_body s) with
      | Some r => k (pos (Some Highlight.quote) r)
      | None => None
      end.
Proof.
  assert (Hquote : forall prev s,
    step_char (Ascii.eqb Highlight.quote) (pos prev s) k
    = match s with
      | String c r => if (c =? Highlight.quote)%char
                      then k (pos (Some Highlight.quote) r) else None
      | "" => None
      end).
  { intros prev s. unfold step_char. cbn [rest]. destruct s as [|c r]; [reflexivity|].
    rewrite (Ascii.eqb_sym Highlight.quote c).
    destruct (c =? Highlight.quote)%char eqn:E; [|reflexivity].
    now apply Ascii.eqb_eq in E as ->. }
  induction n as [|n IH]; intros prev s Hn.
  - destruct s; [reflexivity | cbn in Hn; lia].
  - cbn [star_loop]. rewrite run_string_item.
    destruct (Direct.item_next s) as [[c' r']|] eqn:E.
    + pose proof (item_next_shorter s c' r' E) as Hlt.
      destruct (string_body_item s c' r' E) as [Hbody Hnq].
      cbn [rest].
      replace (String.length r' <? String.length s)%nat with true
        by (symmetry; now apply Nat.ltb_lt).
      rewrite IH by lia. rewrite Hbody.
      destruct (match option_map snd (Direct.string_body r') with
                | Some r => k (pos (Some Highlight.quote) r)
                | None => None
                end); [reflexivity|].
      rewrite Hquote. destruct s as [|c r]; [reflexivity|].
      cbn [first_char] in Hnq.
      destruct (c =? Highlight.quote)%char eqn:Eq; [|reflexivity].
      apply Ascii.eqb_eq in Eq as ->. now contradict Hnq.
    + rewrite (string_body_stop s E), Hquote.
      destruct s as [|c r]; [reflexivity|].
      now destruct (c =? Highlight.quote)%char.
Qed.

(** *** What the direct matchers return is a split of the text *)

Lemma cons_match_some c x m r :
  Direct.cons_match c x = Some (m, r) ->
  exists m', x = Some (m', r) /\ m = String c m'.
Proof.
  destruct x as [[m' r']|]; [|discriminate]. cbn. intros H.
  injection H as <- <-. now exists m'.
Qed.

Lemma string_body_split :
  forall n s m r,
    String.length s <= n -> Direct.string_body s = Some (m, r) -> s = m +:+ r.
Proof.
  induction n as [|n IH]; intros s m r Hn; (destruct s as [|c s]; [discriminate|]);
    [cbn in Hn; lia|].
  cbn [String.length] in Hn. cbn [Direct.string_body].
  destruct (c =? "034")%char.
  { intros H. now injection H as <- <-. }
  destruct (c =? "\")%char.
  - destruct s as [|e r1]; [discriminate|]. destruct (e =? "u")%char.
    + destruct r1 as [|h1 [|h2 [|h3 [|h4 r2]]]]; try discriminate.
      destruct (_ && _); [|discriminate]. intros H.
      repeat (apply cons_match_some in H as (? & H & ->)).
      rewrite !app_cons. do 6 f_equal. apply IH; [cbn in Hn; lia | assumption].
    + intros H. repeat (apply cons_match_some in H as (? & H & ->)).
      rewrite !app_cons. do 2 f_equal. apply IH; [cbn in Hn; lia | assumption].
  - intros H. apply cons_match_some in H as (? & H & ->).
    rewrite app_cons. f_equal. apply IH; [lia | assumption].
Qed.

Lemma colon_tail_split s : forall m r, Direct.colon_tail s = Some (m, r) -> s = m +:+ r.
Proof.
  induction s as [|c s IH]; intros m r; [discriminate|]. cbn [Direct.colon_tail].
  destruct (c =? ":")%char.
  { intros H. now injection H as <- <-. }
  destruct (is_space c); [|discriminate]. intros H.
  apply cons_match_some in H as (? & H & ->). rewrite app_cons. f_equal. now apply IH.
Qed.

Lemma match_string_split s m r : Direct.match_string s = Some (m, r) -> s = m +:+ r.
Proof.
  destruct s as [|c s]; [discriminate|]. cbn [Direct.match_string].
  destruct (c =? "034")%char; [|discriminate].
  destruct (Direct.string_body s) as [[body rest]|] eqn:Eb; [|discriminate].
  apply (string_body_split (String.length s)) in Eb; [|lia]. subst s.
  destruct (Direct.colon_tail rest) as [[tail rest']|] eqn:Et.
  - apply colon_tail_split in Et. subst rest. intros H. injection H as <- <-.
    now rewrite app_cons, app_assoc_s.
  - intros H. now injection H as <- <-.
Qed.

Lemma prefix_split lit : forall s,
  String.prefix lit s = true -> s = lit +:+ drop (String.length lit) s.
Proof.
  induction lit as [|c lit IH]; intros s; [now destruct s|].
  destruct s as [|d s]; [discriminate|]. rewrite prefix_cons.
  destruct (c =? d)%char eqn:E; [|discriminate]. apply Ascii.eqb_eq in E as <-.
  cbn [andb String.length drop]. intros H. rewrite app_cons. f_equal. now apply IH.
Qed.

Lemma literal_at_split lit s m r : Direct.literal_at lit s = Some (m, r) -> s = m +:+ r.
Proof.
  unfold Direct.literal_at. destruct (String.prefix lit s) eqn:E; [|discriminate].
  destruct (negb _); [|discriminate]. intros H. injection H as <- <-.
  now apply prefix_split.
Qed.

Lemma match_literal_split prev s m r :
  Direct.match_literal prev s = Some (m, r) -> s = m +:+ r.
Proof.
  unfold Direct.match_literal. destruct (Direct.boundary prev s); [|discriminate].
  destruct (Direct.literal_at "true" s) as [x|] eqn:E1.
  { intros H. injection H as ->. now apply literal_at_split in E1. }
  destruct (Direct.literal_at "false" s) as [x|] eqn:E2.
  { intros H. injection H as ->. now apply literal_at_split in E2. }
  apply literal_at_split.
Qed.

Lemma digits_split s : s = fst (Direct.digits s) +:+ snd (Direct.digits s).
Proof.
  induction s as [|c s IH]; [reflexivity|]. cbn [Direct.digits].
  destruct (is_digit c); [|reflexivity].
  destruct (Direct.digits s) as [d r]. cbn [fst snd] in *. now rewrite app_cons, <- IH.
Qed.

Lemma fraction_split s : s = fst (Direct.fraction s) +:+ snd (Direct.fraction s).
Proof.
  destruct s as [|c s]; [reflexivity|]. cbn [Direct.fraction].
  destruct (c =? ".")%char; [|reflexivity].
  pose proof (digits_split s) as H. destruct (Direct.digits s) as [d r].
  cbn [fst snd] in *. now rewrite app_cons, <- H.
Qed.

Lemma exponent_split s : s = fst (Direct.exponent s) +:+ snd (Direct.exponent s).
Proof.
  destruct s as [|e s]; [reflexivity|]. cbn [Direct.exponent].
  destruct ((e =? "e")%char || (e =? "E")%char); [|reflexivity].
  destruct s as [|g s'].
  - reflexivity.
  - destruct ((g =? "+")%char || (g =? "-")%char).
    + pose proof (digits_split s') as H. destruct (Direct.digits s') as [d r].
      cbn [fst snd] in H. destruct (d =? "")%string; [reflexivity|].
      cbn [fst snd]. now rewrite !app_cons, app_nil_l, <- H.
    + pose proof (digits_split (String g s')) as H.
      destruct (Direct.digits (String g s')) as [d r].
      cbn [fst snd] in H. destruct (d =? "")%string; [reflexivity|].
      cbn [fst snd]. now rewrite !app_cons, app_nil_l, <- H.
Qed.

Lemma match_number_split s m r : Direct.match_number s = Some (m, r) -> s = m +:+ r.
Proof.
  unfold Direct.match_number.
  assert (Hgen : forall sign s1, s = sign +:+ s1 ->
    (let '(d, s2) := Direct.digits s1 in
     if (d =? "")%string then None
     else let '(f, s3) := Direct.fraction s2 in
          let '(x, s4) := Direct.exponent s3 in
          Some (sign +:+ d +:+ f +:+ x, s4)) = Some (m, r) -> s = m +:+ r).
  { intros sign s1 ->. pose proof (digits_split s1) as Hd.
    destruct (Direct.digits s1) as [d s2]. cbn [fst snd] in Hd.
    destruct (d =? "")%string; [discriminate|].
    pose proof (fraction_split s2) as Hf. destruct (Direct.fraction s2) as [f s3].
    pose proof (exponent_split s3) as Hx. destruct (Direct.exponent s3) as [x s4].
    cbn [fst snd] in *. intros H. injection H as <- <-.
    rewrite !app_assoc_s. now rewrite <- Hx, <- Hf, <- Hd. }
  destruct s as [|c s'].
  - apply (Hgen "" ""). reflexivity.
  - destruct (c =? "-")%char eqn:E.
    + apply (Hgen (String c "") s'). reflexivity.
    + apply (Hgen "" (String c s')). reflexivity.
Qed.

Lemma match_at_split prev s m r : Direct.match_at prev s = Some (m, r) -> s = m +:+ r.
Proof.
  unfold Direct.match_at.
  destruct (Direct.match_string s) as [x|] eqn:E1.
  { intros H. injection H as ->. now apply match_string_split in E1. }
  destruct (Direct.match_literal prev s) as [x|] eqn:E2.
  { intros H. injection H as ->. now apply match_literal_split in E2. }
  apply match_number_split.
Qed.

(** *** The three alternatives of the pattern *)

Lemma run_seq a b fuel p k :
  run (Seq a b) fuel p k = run a fuel p (fun p' => run b fuel p' k).
Proof. reflexivity. Qed.

Lemma run_alt a b fuel p k :
  run (Alt a b) fuel p k
  = match run a fuel p k with Some x => Some x | None => run b fuel p k end.
Proof. reflexivity. Qed.

Lemma run_star a fuel p k : run (Star a) fuel p k = star_loop (run a fuel) fuel p k.
Proof. reflexivity. Qed.

Lemma run_chr f fuel p k : run (Chr f) fuel p k = step_char f p k.
Proof. reflexivity. Qed.

Lemma string_body_shorter s r :
  option_map snd (Direct.string_body s) = Some r -> String.length r <= String.length s.
Proof.
  destruct (Direct.string_body s) as [[m r']|] eqn:E; [|discriminate].
  cbn. intros H. injection H as ->.
  apply (string_body_split (String.length s)) in E; [|lia].
  subst s. rewrite length_app_s. lia.
Qed.

Lemma run_colon_tail (fuel : nat) (prev : option ascii) (s : string) :
  String.length s <= fuel ->
  run (Opt (Seq (Star (Chr is_space)) (Highlight.one ":"))) fuel (pos prev s) Some
  = match Direct.colon_tail s with
    | Some (_, r) => Some (pos (Some ":"%char) r)
    | None => Some (pos prev s)
    end.
Proof.
  intros Hn. unfold Opt, Highlight.one. rewrite run_alt, run_seq, run_star.
  change (fun p' => run (Chr (Ascii.eqb ":")) fuel p' Some)
    with (fun p => step_char (Ascii.eqb ":") p Some).
  rewrite (star_colon (run (Chr is_space) fuel) Some (fun p k' => eq_refl) fuel prev s Hn).
  now destruct (Direct.colon_tail s) as [[t r]|].
Qed.

Lemma run_string_pattern (fuel : nat) (prev : option ascii) (s : string) :
  String.length s <= fuel ->
  option_map rest (run Highlight.string_pattern fuel (pos prev s) Some)
  = option_map snd (Direct.match_string s).
Proof.
  intros Hn. unfold Highlight.string_pattern. rewrite run_seq. unfold Highlight.one at 1.
  rewrite run_chr. unfold step_char. cbn [rest].
  destruct s as [|c s]; [reflexivity|]. cbn [Direct.match_string].
  change ("034"%char) with Highlight.quote. rewrite (Ascii.eqb_sym Highlight.quote c).
  destruct (c =? Highlight.quote)%char; [|reflexivity].
  cbn [String.length] in Hn.
  rewrite run_seq, run_star.
  pose proof (star_items fuel
    (fun p => run (Opt (Seq (Star (Chr is_space)) (Highlight.one ":"))) fuel p Some)
    fuel (Some c) s) as H.
  etransitivity; [apply f_equal; apply H; lia|]. clear H.
  pose proof (string_body_shorter s) as Hlen.
  destruct (Direct.string_body s) as [[body r]|]; [|reflexivity].
  cbn [option_map snd] in *. specialize (Hlen r eq_refl).
  rewrite run_colon_tail by lia.
  now destruct (Direct.colon_tail r) as [[t r']|].
Qed.

Lemma run_wordb fuel p k : run WordB fuel p k = if boundary p then k p else None.
Proof. reflexivity. Qed.

Lemma run_literal (lit : string) (fuel : nat) (prev : option ascii) (s : string) :
  word_opt (Direct.last_char prev lit) = true ->
  run (Lit lit) fuel (pos prev s) (fun p' => run WordB fuel p' Some)
  = match Direct.literal_at lit s with
    | Some (_, r) => Some (pos (Direct.last_char prev lit) r)
    | None => None
    end.
Proof.
  intros Hw. rewrite run_lit. unfold Direct.literal_at.
  destruct (String.prefix lit s); [|reflexivity].
  rewrite run_wordb. unfold boundary. cbn [before rest]. rewrite Hw.
  cbn [xorb].
  now destruct (word_opt (first_char (drop (String.length lit) s))).
Qed.

Lemma run_literal_pattern (fuel : nat) (prev : option ascii) (s : string) :
  option_map rest (run Highlight.literal_pattern fuel (pos prev s) Some)
  = option_map snd (Direct.match_literal prev s).
Proof.
  unfold Highlight.literal_pattern, Direct.match_literal, Direct.boundary.
  rewrite run_seq, run_wordb.
  destruct (boundary (pos prev s)); [|reflexivity].
  rewrite run_seq, !run_alt, !run_literal by reflexivity.
  destruct (Direct.literal_at "true" s) as [[m r]|]; [reflexivity|].
  destruct (Direct.literal_at "false" s) as [[m r]|]; [reflexivity|].
  now destruct (Direct.literal_at "null" s) as [[m r]|].
Qed.

(** *** Numbers *)

Local Abbreviation digit := (Chr is_digit).
Local Abbreviation fraction_part := (Opt (Seq (Highlight.one ".") (Star digit))).
Local Abbreviation exponent_part :=
  (Opt (Seq (Chr (fun c => (c =? "e")%char || (c =? "E")%char))
            (Seq (Opt (Chr (fun c => (c =? "+")%char || (c =? "-")%char)))
                 (Plus digit)))).

Lemma run_eps fuel p k : run Eps fuel p k = k p.
Proof. reflexivity. Qed.

Lemma position_eta (p : Position) : p = pos (before p) (rest p).
Proof. now destruct p. Qed.

Lemma run_end_rest (prev : option ascii) (s : string) :
  rest (Direct.run_end is_digit prev s) = snd (Direct.digits s).
Proof.
  revert prev. induction s as [|c s IH]; intros prev; [reflexivity|].
  cbn [Direct.run_end Direct.digits]. destruct (is_digit c); [|reflexivity].
  rewrite IH. now destruct (Direct.digits s).
Qed.

Lemma digits_shorter (s : string) : String.length (snd (Direct.digits s)) <= String.length s.
Proof. rewrite (digits_split s) at 2. rewrite length_app_s. lia. Qed.

Lemma digits_head (s : string) :
  (fst (Direct.digits s) =? "")%string
  = match s with String c _ => negb (is_digit c) | "" => true end.
Proof.
  destruct s as [|c s]; [reflexivity|]. cbn [Direct.digits].
  destruct (is_digit c); [|reflexivity]. now destruct (Direct.digits s).
Qed.

Lemma run_plus_digits (fuel : nat) (prev : option ascii) (s : string)
    (k : Position -> option Position) :
  String.length s <= fuel ->
  k (Direct.run_end is_digit prev s) <> None ->
  run (Plus digit) fuel (pos prev s) k
  = if (fst (Direct.digits s) =? "")%string then None
    else k (Direct.run_end is_digit prev s).
Proof.
  intros Hn Hk. unfold Plus. rewrite run_seq, run_chr, digits_head.
  unfold step_char. cbn [rest]. destruct s as [|c s]; [reflexivity|].
  cbn [Direct.run_end] in *. destruct (is_digit c); [|reflexivity]. cbn [negb].
  rewrite run_star. cbn [String.length] in Hn.
  apply (star_chars is_digit (run digit fuel) k (fun p k' => eq_refl)); [lia | apply Hk].
Qed.

Lemma run_exponent (fuel : nat) (p : Position) :
  String.length (rest p) <= fuel ->
  option_map rest (run exponent_part fuel p Some)
  = Some (snd (Direct.exponent (rest p))).
Proof.
  destruct p as [prev s]. cbn [rest]. intros Hn.
  unfold Opt at 1. rewrite run_alt, run_eps, run_seq, run_chr.
  unfold step_char. cbn [rest]. destruct s as [|e s]; [reflexivity|].
  cbn [Direct.exponent]. destruct ((e =? "e")%char || (e =? "E")%char); [|reflexivity].
  cbn [String.length] in Hn.
  rewrite run_seq. unfold Opt. rewrite run_alt, run_eps, run_chr.
  unfold step_char. cbn [rest].
  destruct s as [|g s'].
  - rewrite run_plus_digits by (cbn; lia || discriminate). reflexivity.
  - cbn [String.length] in Hn.
    destruct ((g =? "+")%char || (g =? "-")%char) eqn:Esign.
    + rewrite !run_plus_digits by (cbn [String.length]; lia || discriminate).
      rewrite (digits_head (String g s')).
      replace (is_digit g) with false
        by (revert Esign; destruct g as [[] [] [] [] [] [] [] []];
            try discriminate; reflexivity).
      cbn [negb]. pose proof (run_end_rest (Some g) s') as Hr.
      destruct (Direct.digits s') as [d r]. cbn [fst snd] in *.
      destruct (d =? "")%string; [reflexivity|]. cbn [option_map snd]. now rewrite Hr.
    + rewrite run_plus_digits by (cbn [String.length]; lia || discriminate).
      pose proof (run_end_rest (Some e) (String g s')) as Hr.
      destruct (Direct.digits (String g s')) as [d r]. cbn [fst snd] in *.
      destruct (d =? "")%string; [reflexivity|]. cbn [option_map snd]. now rewrite Hr.
Qed.

Lemma run_exponent_some (fuel : nat) (p : Position) :
  String.length (rest p) <= fuel -> run exponent_part fuel p Some <> None.
Proof.
  intros Hn E. pose proof (run_exponent fuel p Hn) as H. rewrite E in H. discriminate.
Qed.

Lemma run_end_shorter (prev : option ascii) (s : string) :
  String.length (rest (Direct.run_end is_digit prev s)) <= String.length s.
Proof. rewrite run_end_rest. apply digits_shorter. Qed.

Lemma run_fraction_exponent (fuel : nat) (p : Position) :
  String.length (rest p) <= fuel ->
  option_map rest (run (Seq fraction_part exponent_part) fuel p Some)
  = Some (snd (Direct.exponent (snd (Direct.fraction (rest p))))).
Proof.
  destruct p as [prev s]. cbn [rest]. intros Hn.
  rewrite run_seq. unfold Opt at 1. rewrite run_alt, run_eps, run_seq.
  unfold Highlight.one. rewrite run_chr. unfold step_char. cbn [rest].
  destruct s as [|c s]; [now rewrite run_exponent|]. cbn [Direct.fraction].
  rewrite (Ascii.eqb_sym "." c). destruct (c =? ".")%char.
  - cbn [String.length] in Hn. pose proof (run_end_shorter (Some c) s) as Hlen.
    rewrite run_star.
    rewrite (star_chars is_digit (run digit fuel) _ (fun p k' => eq_refl))
      by (lia || (apply run_exponent_some; lia)).
    pose proof (run_exponent_some fuel (Direct.run_end is_digit (Some c) s)) as Hs.
    destruct (run exponent_part fuel (Direct.run_end is_digit (Some c) s) Some) as [q|] eqn:E;
      [|exfalso; apply Hs; [lia | reflexivity]].
    rewrite <- E, run_exponent, run_end_rest by lia.
    now destruct (Direct.digits s).
  - now rewrite run_exponent.
Qed.

Lemma run_unsigned (fuel : nat) (p : Position) :
  String.length (rest p) <= fuel ->
  option_map rest
    (run (Seq (Plus digit) (Seq fraction_part exponent_part)) fuel p Some)
  = if (fst (Direct.digits (rest p)) =? "")%string then None
    else Some (snd (Direct.exponent (snd (Direct.fraction (snd (Direct.digits (rest p))))))).
Proof.
  destruct p as [prev s]. cbn [rest]. intros Hn.
  pose proof (run_end_shorter prev s) as Hlen.
  pose proof (run_fraction_exponent fuel (Direct.run_end is_digit prev s)) as Hfe.
  rewrite run_seq, run_plus_digits.
  - destruct (fst (Direct.digits s) =? "")%string; [reflexivity|].
    now rewrite Hfe, run_end_rest by lia.
  - assumption.
  - intros E. rewrite E in Hfe. specialize (Hfe ltac:(lia)). discriminate.
Qed.

Lemma match_number_rest (s : string) :
  option_map snd (Direct.match_number s)
  = let s1 := match s with
              | String c r => if (c =? "-")%char then r else s
              | "" => s
              end in
    if (fst (Direct.digits s1) =? "")%string then None
    else Some (snd (Direct.exponent (snd (Direct.fraction (snd (Direct.digits s1)))))).
Proof.
  unfold Direct.match_number.
  destruct s as [|c r]; [reflexivity|]. cbv zeta.
  destruct (c =? "-")%char.
  - destruct (Direct.digits r) as [d s2]. cbn [fst snd].
    destruct (d =? "")%string; [reflexivity|].
    destruct (Direct.fraction s2) as [f s3]. cbn [fst snd].
    now destruct (Direct.exponent s3) as [x s4].
  - destruct (Direct.digits (String c r)) as [d s2]. cbn [fst snd].
    destruct (d =? "")%string; [reflexivity|].
    destruct (Direct.fraction s2) as [f s3]. cbn [fst snd].
    now destruct (Direct.exponent s3) as [x s4].
Qed.

Lemma run_number_pattern (fuel : nat) (prev : option ascii) (s : string) :
  String.length s <= fuel ->
  option_map rest (run Highlight.number_pattern fuel (pos prev s) Some)
  = option_map snd (Direct.match_number s).
Proof.
  intros Hn. rewrite match_number_rest. unfold Highlight.number_pattern.
  rewrite run_seq. unfold Opt at 1. rewrite run_alt, run_eps.
  unfold Highlight.one at 1. rewrite run_chr. unfold step_char. cbn [rest].
  destruct s as [|c r]; [now rewrite run_unsigned|].
  rewrite (Ascii.eqb_sym "-" c). cbv zeta.
  destruct (c =? "-")%char eqn:E; [|now rewrite run_unsigned].
  apply Ascii.eqb_eq in E as ->. cbn [String.length] in Hn.
  pose proof (run_unsigned fuel (pos (Some "-"%char) r)) as H1.
  pose proof (run_unsigned fuel (pos prev (String "-" r))) as H2.
  cbn [rest] in H1, H2. specialize (H1 ltac:(lia)). specialize (H2 ltac:(cbn; lia)).
  rewrite (digits_head (String "-" r)) in H2.
  change (negb (is_digit "-")) with true in H2. cbv iota in H2.
  destruct (run _ fuel (pos (Some "-"%char) r) Some) as [q|].
  - exact H1.
  - rewrite H2. exact H1.
Qed.

(** *** The pattern as a whole *)

Lemma match_at_direct (prev : option ascii) (s : string) :
  Highlight.match_at prev s = Direct.match_at prev s.
Proof.
  unfold Highlight.match_at, exec, Highlight.pattern, Direct.match_at.
  rewrite !run_alt.
  pose proof (run_string_pattern (String.length s) prev s (Nat.le_refl _)) as H1.
  pose proof (run_literal_pattern (String.length s) prev s) as H2.
  pose proof (run_number_pattern (String.length s) prev s (Nat.le_refl _)) as H3.
  assert (Hsplit : forall (q : option Position) (d : option (string * string)),
    option_map rest q = option_map snd d ->
    (forall m r, d = Some (m, r) -> s = m +:+ r) ->
    match q with
    | Some p => Some (Highlight.take (String.length s - String.length (rest p)) s, rest p)
    | None => None
    end = d).
  { intros [q|] [[m r]|] Hq Hd; try discriminate; [|reflexivity].
    cbn in Hq. injection Hq as Hq. rewrite Hq.
    rewrite (Hd m r eq_refl) at 1 2. now rewrite take_app. }
  destruct (run Highlight.string_pattern _ _ Some) as [q1|].
  { destruct (Direct.match_string s) as [[m r]|] eqn:E; [|discriminate].
    apply (Hsplit (Some q1) (Some (m, r)) H1).
    intros m' r' H. injection H as <- <-. now apply match_string_split. }
  destruct (Direct.match_string s) as [x|]; [discriminate|].
  destruct (run Highlight.literal_pattern _ _ Some) as [q2|].
  { destruct (Direct.match_literal prev s) as [[m r]|] eqn:E; [|discriminate].
    apply (Hsplit (Some q2) (Some (m, r)) H2).
    intros m' r' H. injection H as <- <-. now apply match_literal_split in E. }
  destruct (Direct.match_literal prev s) as [x|]; [discriminate|].
  apply Hsplit; [assumption | apply match_number_split].
Qed.

End RegexProofs.

(** ** The highlighter on JSON text *)

Section HighlightProofs.
Import Str Regex Highlight Direct JsonText.

(** *** Passing over a match *)

Lemma scan_skip (m r : string) (prev : option ascii) :
  scan prev (String.length m) (m +:+ r) = scan (last_char prev m) 0 r.
Proof.
  revert prev. induction m as [|c m IH]; intros prev; [reflexivity|].
  rewrite app_cons. cbn [String.length scan last_char]. apply IH.
Qed.

(** The span that the callback writes is the match between the two tags. *)
Lemma span_tags (cls m rest : string) :
  span cls m +:+ rest = (open_tag cls +:+ m +:+ close_tag) +:+ rest.
Proof.
  unfold span, open_tag, close_tag, dq. change (ascii_of_nat 34) with quote.
  repeat rewrite ?app_assoc_s, ?app_cons, ?app_nil_l. reflexivity.
Qed.

Lemma scan_match (prev : option ascii) (c : ascii) (m r : string) :
  match_at prev (String c m +:+ r) = Some (String c m, r) ->
  scan prev 0 (String c m +:+ r)
  = (open_tag (cls_of (String c m)) +:+ String c m +:+ close_tag)
    +:+ scan (last_char prev (String c m)) 0 r.
Proof.
  intros H. rewrite app_cons in *. cbn [scan]. rewrite match_at_direct, H.
  cbn [String.length Nat.sub]. rewrite Nat.sub_0_r. now rewrite scan_skip, span_tags.
Qed.

(** *** Facts about single characters *)

Ltac by_char c := destruct c as [[] [] [] [] [] [] [] []]; try discriminate; try reflexivity.

Lemma eqb_quote c : (c =? "034")%char = (c =? quote)%char.
Proof. reflexivity. Qed.

Lemma space_not_colon c : is_space c = true -> (c =? ":")%char = false.
Proof. by_char c. Qed.

Lemma punct_inert c :
  is_punct c = true ->
  is_word c = false /\ (c =? "034")%char = false /\ (c =? "-")%char = false
  /\ (c =? ".")%char = false /\ (c =? ":")%char = false /\ is_digit c = false.
Proof. by_char c; intros _; repeat split. Qed.

(** *** Strings and keys *)

Lemma string_body_items (b : list item) (r : string) :
  forallb item_ok b = true ->
  string_body (body_text b +:+ String quote r)
  = Some (body_text b +:+ String quote "", r).
Proof.
  induction b as [|i b IH]; intros Hok; [reflexivity|].
  cbn [forallb] in Hok. apply andb_prop in Hok as [Hi Hb].
  specialize (IH Hb). cbn [body_text]. rewrite !app_assoc_s.
  destruct i as [c|e|h1 h2 h3 h4]; cbn [item_text item_ok] in *; rewrite !app_cons, !app_nil_l.
  - apply andb_prop in Hi as [Hq Hs].
    cbn [string_body]. rewrite eqb_quote.
    apply negb_true_iff in Hq, Hs. rewrite Hq.
    change ("\"%char) with backslash. rewrite Hs, IH. reflexivity.
  - apply negb_true_iff in Hi.
    cbn [string_body]. change ((backslash =? "034")%char) with false.
    change ((backslash =? "\")%char) with true. cbn iota. rewrite Hi, IH. reflexivity.
  - cbn [string_body]. change ((backslash =? "034")%char) with false.
    change ((backslash =? "\")%char) with true. cbn iota.
    change (("u" =? "u")%char) with true. cbn iota.
    apply andb_prop in Hi as [Hi H4]. apply andb_prop in Hi as [Hi H3].
    apply andb_prop in Hi as [H1 H2]. rewrite H1, H2, H3, H4, IH. reflexivity.
Qed.

Lemma colon_tail_gap (gap r : string) :
  all_chars is_space gap = true ->
  colon_tail (gap +:+ String ":" r) = Some (gap +:+ ":", r).
Proof.
  induction gap as [|c gap IH]; intros Hok; [reflexivity|].
  cbn [all_chars] in Hok. apply andb_prop in Hok as [Hc Hgap].
  rewrite !app_cons. cbn [colon_tail]. rewrite (space_not_colon c Hc), Hc, (IH Hgap).
  reflexivity.
Qed.

(** Every token starts with a character; only white space kept as
    punctuation starts with a blank, and none starts with a colon. *)
Lemma lexeme_head (t : token) :
  token_ok t = true ->
  exists c m, lexeme t = String c m
    /\ (c =? ":")%char = false
    /\ (is_space c = true -> t = TPunct c).
Proof.
  intros Hok. destruct t as [b|b gap|neg int frac exp| | | |c]; cbn [lexeme].
  - eexists _, _. split; [reflexivity|]. split; [reflexivity|discriminate].
  - eexists _, _. split; [reflexivity|]. split; [reflexivity|discriminate].
  - cbn [token_ok] in Hok. repeat (apply andb_prop in Hok as [Hok ?]).
    destruct int as [|d int]; [discriminate|].
    cbn [all_chars] in *.
    match goal with H : is_digit d && _ = true |- _ => apply andb_prop in H as [Hd _] end.
    destruct neg; rewrite ?app_cons, ?app_nil_l.
    + eexists _, _. split; [reflexivity|]. split; [reflexivity|discriminate].
    + eexists _, _. split; [reflexivity|].
      split; revert Hd; by_char d.
  - eexists _, _. split; [reflexivity|]. split; [reflexivity|discriminate].
  - eexists _, _. split; [reflexivity|]. split; [reflexivity|discriminate].
  - eexists _, _. split; [reflexivity|]. split; [reflexivity|discriminate].
  - eexists _, _. split; [reflexivity|]. cbn [token_ok] in Hok.
    destruct (punct_inert c Hok) as (_ & _ & _ & _ & Hc & _). now split.
Qed.

Lemma colon_tail_text (ts : list token) :
  tokens_ok ts = true -> colon_tail (text ts) = None.
Proof.
  induction ts as [|t ts IH]; intros Hok; [reflexivity|].
  cbn [tokens_ok] in Hok. apply andb_prop in Hok as [Hok Hts].
  apply andb_prop in Hok as [Ht _]. specialize (IH Hts).
  destruct (lexeme_head t Ht) as (c & m & Hlex & Hcolon & Hspace).
  cbn [text]. destruct (is_space c) eqn:Hsp.
  - rewrite (Hspace eq_refl). cbn [lexeme]. rewrite app_cons, app_nil_l.
    cbn [colon_tail]. now rewrite Hcolon, Hsp, IH.
  - rewrite Hlex, app_cons. cbn [colon_tail]. now rewrite Hcolon, Hsp.
Qed.

Lemma match_string_TString (b : list item) (r : string) :
  forallb item_ok b = true ->
  colon_tail r = None ->
  match_string (lexeme (TString b) +:+ r) = Some (lexeme (TString b), r).
Proof.
  intros Hb Hr. cbn [lexeme]. rewrite app_cons, app_assoc_s, app_cons, app_nil_l.
  cbn [match_string]. change ((quote =? "034")%char) with true. cbn iota.
  now rewrite string_body_items, Hr.
Qed.

Lemma match_string_TKey (b : list item) (gap r : string) :
  forallb item_ok b = true ->
  all_chars is_space gap = true ->
  match_string (lexeme (TKey b gap) +:+ r) = Some (lexeme (TKey b gap), r).
Proof.
  intros Hb Hgap. cbn [lexeme]. rewrite app_cons, app_assoc_s, app_cons, app_assoc_s.
  rewrite app_cons, app_nil_l.
  cbn [match_string]. change ((quote =? "034")%char) with true. cbn iota.
  rewrite string_body_items by assumption. rewrite colon_tail_gap by assumption.
  now rewrite app_assoc_s, app_cons, app_nil_l.
Qed.

(** *** Numbers *)

Lemma delimited_not_digit r : delimited r = true -> head_ok not_digit r = true.
Proof.
  destruct r as [|c r]; [reflexivity|]. cbn [delimited head_ok].
  intros H. apply andb_prop in H as [H _]. revert H. unfold not_digit. by_char c.
Qed.

Lemma delimited_not_dot r : delimited r = true -> head_ok not_dot r = true.
Proof.
  destruct r as [|c r]; [reflexivity|]. cbn [delimited head_ok].
  intros H. now apply andb_prop in H as [_ H].
Qed.

Lemma digits_stop (r : string) : head_ok not_digit r = true -> digits r = ("", r).
Proof.
  destruct r as [|c r]; [reflexivity|]. cbn [head_ok digits]. unfold not_digit.
  intros H. apply negb_true_iff in H. now rewrite H.
Qed.

Lemma digits_run (d r : string) :
  all_chars is_digit d = true ->
  head_ok not_digit r = true ->
  digits (d +:+ r) = (d, r).
Proof.
  intros Hd Hr. induction d as [|c d IH]; [now apply digits_stop|].
  cbn [all_chars] in Hd. apply andb_prop in Hd as [Hc Hd].
  rewrite app_cons. cbn [digits]. now rewrite Hc, (IH Hd).
Qed.

Lemma exponent_some (x : exp_part) (r : string) :
  exponent_ok x = true ->
  head_ok not_digit r = true ->
  exponent (exponent_text x +:+ r) = (exponent_text x, r).
Proof.
  intros Hx Hr. destruct x as [e g d]. unfold exponent_ok in Hx.
  cbn [exp_letter exp_sign exp_digits] in Hx.
  apply andb_prop in Hx as [Hx Hd]. apply andb_prop in Hx as [Hx Hne].
  apply andb_prop in Hx as [He Hg].
  unfold exponent_text. cbn [exp_letter exp_sign exp_digits].
  rewrite app_cons, app_assoc_s. cbn [exponent]. rewrite He.
  destruct d as [|d0 d]; [discriminate|].
  destruct g as [g|].
  - rewrite app_cons, app_nil_l, Hg.
    rewrite (digits_run (String d0 d) r Hd Hr). reflexivity.
  - rewrite app_nil_l, app_cons.
    cbn [all_chars] in Hd. pose proof Hd as Hd'. apply andb_prop in Hd' as [Hd0 _].
    replace ((d0 =? "+")%char || (d0 =? "-")%char) with false
      by (revert Hd0; by_char d0).
    rewrite <- app_cons.
    rewrite (digits_run (String d0 d) r Hd Hr). reflexivity.
Qed.

Lemma exponent_none (r : string) :
  delimited r = true -> exponent r = ("", r).
Proof.
  destruct r as [|c r]; [reflexivity|]. cbn [delimited exponent]. intros H.
  apply andb_prop in H as [H _].
  replace ((c =? "e")%char || (c =? "E")%char) with false by (revert H; by_char c).
  reflexivity.
Qed.

Lemma exponent_exp (exp : option exp_part) (r : string) :
  match exp with Some x => exponent_ok x | None => true end = true ->
  delimited r = true ->
  exponent (exp_text exp +:+ r) = (exp_text exp, r).
Proof.
  intros Hx Hr. destruct exp as [x|]; cbn [exp_text].
  - apply exponent_some; [assumption | now apply delimited_not_digit].
  - now apply exponent_none.
Qed.

Lemma exp_text_head (exp : option exp_part) (r : string) :
  match exp with Some x => exponent_ok x | None => true end = true ->
  delimited r = true ->
  head_ok not_digit (exp_text exp +:+ r) = true
  /\ head_ok not_dot (exp_text exp +:+ r) = true.
Proof.
  intros Hx Hr. destruct exp as [[e g d]|]; cbn [exp_text].
  - unfold exponent_text. rewrite app_cons. cbn [head_ok exp_letter].
    unfold exponent_ok in Hx. cbn [exp_letter] in Hx.
    repeat (apply andb_prop in Hx as [Hx _]).
    unfold not_digit, not_dot. split; revert Hx; by_char e.
  - rewrite app_nil_l. split; [now apply delimited_not_digit | now apply delimited_not_dot].
Qed.

Lemma fraction_frac (frac : option string) (r : string) :
  match frac with Some d => all_chars is_digit d | None => true end = true ->
  head_ok not_digit r = true ->
  head_ok not_dot r = true ->
  fraction (frac_text frac +:+ r) = (frac_text frac, r).
Proof.
  intros Hf Hr Hdot. destruct frac as [d|]; cbn [frac_text].
  - rewrite app_cons. cbn [fraction]. change (("." =? ".")%char) with true. cbn iota.
    now rewrite digits_run.
  - rewrite app_nil_l. destruct r as [|c r]; [reflexivity|].
    cbn [fraction]. cbn [head_ok] in Hdot. unfold not_dot in Hdot.
    apply negb_true_iff in Hdot. now rewrite Hdot.
Qed.

Lemma frac_text_head (frac : option string) (r : string) :
  head_ok not_digit r = true ->
  head_ok not_digit (frac_text frac +:+ r) = true.
Proof.
  intros Hr. destruct frac as [d|]; cbn [frac_text]; [reflexivity|].
  now rewrite app_nil_l.
Qed.

Lemma match_number_TNumber neg int frac exp (r : string) :
  token_ok (TNumber neg int frac exp) = true ->
  delimited r = true ->
  match_number (lexeme (TNumber neg int frac exp) +:+ r)
  = Some (lexeme (TNumber neg int frac exp), r).
Proof.
  intros Hok Hr. cbn [token_ok] in Hok.
  apply andb_prop in Hok as [Hok Hexp]. apply andb_prop in Hok as [Hok Hfrac].
  apply andb_prop in Hok as [Hne Hint].
  destruct (exp_text_head exp r Hexp Hr) as [Hx1 Hx2].
  pose proof (frac_text_head frac _ Hx1) as Hf1.
  cbn [lexeme]. change (match frac with Some d => String "." d | None => "" end)
    with (frac_text frac).
  change (match exp with Some x => exponent_text x | None => "" end) with (exp_text exp).
  rewrite !app_assoc_s.
  destruct int as [|d0 int]; [discriminate|].
  assert (Hd0 : is_digit d0 = true)
    by (cbn [all_chars] in Hint; now apply andb_prop in Hint as [? _]).
  unfold match_number.
  destruct neg.
  - rewrite app_cons, app_nil_l. change (("-" =? "-")%char) with true. cbn iota.
    rewrite (digits_run _ _ Hint Hf1). cbn [String.eqb].
    rewrite (fraction_frac _ _ Hfrac Hx1 Hx2), (exponent_exp _ _ Hexp Hr).
    reflexivity.
  - rewrite app_nil_l. rewrite app_cons.
    replace ((d0 =? "-")%char) with false by (revert Hd0; by_char d0).
    rewrite <- app_cons.
    rewrite (digits_run _ _ Hint Hf1). cbn [String.eqb].
    rewrite (fraction_frac _ _ Hfrac Hx1 Hx2), (exponent_exp _ _ Hexp Hr).
    reflexivity.
Qed.

(** *** Literal names and punctuation *)

Lemma delimited_not_word r : delimited r = true -> word_opt (first_char r) = false.
Proof.
  destruct r as [|c r]; [reflexivity|]. cbn [delimited first_char word_opt].
  intros H. apply andb_prop in H as [H _]. now apply negb_true_iff in H.
Qed.

Lemma match_at_string (prev : option ascii) (s : string) m :
  match_string s = Some m -> match_at prev s = Some m.
Proof. intros H. unfold match_at. now rewrite H. Qed.

Lemma prefix_app (lit r : string) : String.prefix lit (lit +:+ r) = true.
Proof.
  induction lit as [|c lit IH]; [now destruct r|].
  rewrite app_cons. cbn [String.prefix]. now destruct (ascii_dec c c).
Qed.

Lemma drop_app (lit r : string) : drop (String.length lit) (lit +:+ r) = r.
Proof. induction lit as [|c lit IH]; [now destruct r|]. now rewrite app_cons. Qed.

Lemma literal_at_app (lit r : string) :
  delimited r = true -> literal_at lit (lit +:+ r) = Some (lit, r).
Proof.
  intros Hr. unfold literal_at.
  now rewrite prefix_app, drop_app, (delimited_not_word r Hr).
Qed.

Lemma match_at_literal (t : token) (prev : option ascii) (r : string) :
  needs_delimiter t = true ->
  class_of t <> Some "json-number" ->
  word_opt prev = false ->
  delimited r = true ->
  match_at prev (lexeme t +:+ r) = Some (lexeme t, r).
Proof.
  intros Hn Hc Hprev Hr.
  assert (Hb : forall c m, is_word c = true -> boundary prev (String c m) = true)
    by (intros c m Hc'; unfold boundary, Regex.boundary;
        cbn [before rest first_char word_opt]; now rewrite Hprev, Hc').
  destruct t; try discriminate; try (now contradict Hc); cbn [lexeme];
    unfold match_at, match_literal.
  - rewrite (literal_at_app "true" r Hr).
    change ("true" +:+ r) with (String "t" (String "r" (String "u" (String "e" r)))).
    now rewrite (Hb "t"%char _ eq_refl).
  - rewrite (literal_at_app "false" r Hr).
    replace (literal_at "true" ("false" +:+ r)) with (@None (string * string))
      by reflexivity.
    change ("false" +:+ r)
      with (String "f" (String "a" (String "l" (String "s" (String "e" r))))).
    now rewrite (Hb "f"%char _ eq_refl).
  - rewrite (literal_at_app "null" r Hr).
    replace (literal_at "true" ("null" +:+ r)) with (@None (string * string))
      by reflexivity.
    replace (literal_at "false" ("null" +:+ r)) with (@None (string * string))
      by reflexivity.
    change ("null" +:+ r) with (String "n" (String "u" (String "l" (String "l" r)))).
    now rewrite (Hb "n"%char _ eq_refl).
Qed.

Lemma match_literal_none (prev : option ascii) (c : ascii) (r : string) :
  not_name_start c = true -> match_literal prev (String c r) = None.
Proof.
  intros Hc. unfold match_literal, literal_at.
  replace (String.prefix "true" (String c r)) with false by (revert Hc; by_char c).
  replace (String.prefix "false" (String c r)) with false by (revert Hc; by_char c).
  replace (String.prefix "null" (String c r)) with false by (revert Hc; by_char c).
  now destruct (boundary prev (String c r)).
Qed.

Lemma match_at_punct (prev : option ascii) (c : ascii) (r : string) :
  is_punct c = true -> match_at prev (String c r) = None.
Proof.
  intros Hc. destruct (punct_inert c Hc) as (Hw & Hq & Hm & _ & _ & Hd).
  unfold match_at. cbn [match_string]. rewrite Hq.
  rewrite match_literal_none by (revert Hc; by_char c).
  unfold match_number. rewrite Hm. cbn [digits]. now rewrite Hd.
Qed.

Lemma match_at_number neg int frac exp (prev : option ascii) (r : string) :
  token_ok (TNumber neg int frac exp) = true ->
  delimited r = true ->
  match_at prev (lexeme (TNumber neg int frac exp) +:+ r)
  = Some (lexeme (TNumber neg int frac exp), r).
Proof.
  intros Hok Hr. pose proof (match_number_TNumber neg int frac exp r Hok Hr) as Hnum.
  destruct (lexeme_head _ Hok) as (c & m & Hlex & _ & _).
  assert (Hc : (c =? "034")%char = false /\ not_name_start c = true).
  { cbn [token_ok] in Hok. repeat (apply andb_prop in Hok as [Hok ?]).
    destruct int as [|d0 int]; [discriminate|].
    match goal with H : all_chars is_digit _ = true |- _ =>
      cbn [all_chars] in H; apply andb_prop in H as [Hd0 _] end.
    cbn [lexeme] in Hlex. destruct neg; rewrite ?app_cons, ?app_nil_l in Hlex;
      injection Hlex as <- _; [now split|].
    split; revert Hd0; by_char d0. }
  destruct Hc as [Hq Hname].
  unfold match_at. rewrite Hnum. rewrite Hlex, app_cons.
  cbn [match_string]. rewrite Hq. now rewrite match_literal_none.
Qed.

(** *** The class given to a match *)

Lemma ends_with_last (c d : ascii) (m : string) :
  ends_with c (m +:+ String d "") = (d =? c)%char.
Proof.
  induction m as [|x m IH]; [reflexivity|].
  rewrite app_cons. cbn [ends_with]. rewrite IH.
  destruct m; reflexivity.
Qed.

Lemma last_char_last (prev : option ascii) (d : ascii) (m : string) :
  last_char prev (m +:+ String d "") = Some d.
Proof.
  revert prev. induction m as [|x m IH]; intros prev; [reflexivity|].
  rewrite app_cons. cbn [last_char]. apply IH.
Qed.

Lemma all_chars_app (p : ascii -> bool) (a b : string) :
  all_chars p (a +:+ b) = all_chars p a && all_chars p b.
Proof.
  induction a as [|x a IH]; [reflexivity|].
  rewrite app_cons. cbn [all_chars]. now rewrite IH, andb_assoc.
Qed.

Lemma all_chars_impl (p q : ascii -> bool) (s : string) :
  (forall c, p c = true -> q c = true) ->
  all_chars p s = true -> all_chars q s = true.
Proof.
  intros Hpq. induction s as [|x s IH]; [reflexivity|]. cbn [all_chars].
  intros H. apply andb_prop in H as [Hx Hs]. now rewrite (Hpq x Hx), (IH Hs).
Qed.

Lemma contains_absent (h : ascii) (t m : string) :
  all_chars (fun c => negb (c =? h)%char) m = true ->
  contains (String h t) m = false.
Proof.
  induction m as [|x m IH]; [reflexivity|]. cbn [all_chars contains String.prefix].
  intros H. apply andb_prop in H as [Hx Hm]. rewrite (IH Hm).
  destruct (ascii_dec h x) as [->|]; [|reflexivity].
  now rewrite Ascii.eqb_refl in Hx.
Qed.

Lemma number_chars neg int frac exp :
  token_ok (TNumber neg int frac exp) = true ->
  all_chars number_char (lexeme (TNumber neg int frac exp)) = true.
Proof.
  intros Hok. cbn [token_ok] in Hok.
  apply andb_prop in Hok as [Hok Hexp]. apply andb_prop in Hok as [Hok Hfrac].
  apply andb_prop in Hok as [_ Hint].
  assert (Hdig : forall d, all_chars is_digit d = true -> all_chars number_char d = true).
  { intros d. apply all_chars_impl. intros c Hc. unfold number_char. now rewrite Hc. }
  cbn [lexeme]. rewrite !all_chars_app, (Hdig int Hint).
  replace (all_chars number_char (if neg then "-" else "")) with true by now destruct neg.
  cbn [andb]. apply andb_true_intro. split.
  - destruct frac as [d|]; [|reflexivity]. cbn [frac_text all_chars].
    now rewrite (Hdig d Hfrac).
  - destruct exp as [[e g d]|]; [|reflexivity]. cbn [exp_text].
    unfold exponent_ok in Hexp. cbn [exp_letter exp_sign exp_digits] in Hexp.
    apply andb_prop in Hexp as [Hexp Hd]. apply andb_prop in Hexp as [Hexp _].
    apply andb_prop in Hexp as [He Hg].
    unfold exponent_text. cbn [exp_letter exp_sign exp_digits all_chars].
    rewrite all_chars_app, (Hdig d Hd), andb_true_r.
    apply andb_true_intro. split.
    + unfold number_char. revert He. by_char e.
    + destruct g as [g|]; [|reflexivity]. cbn [all_chars]. rewrite andb_true_r.
      unfold number_char. revert Hg. by_char g.
Qed.

Lemma prefix_dq (m : string) : String.prefix dq (String quote m) = true.
Proof. destruct m; reflexivity. Qed.

Lemma cls_of_token (t : token) :
  token_ok t = true ->
  class_of t = match t with TPunct _ => None | _ => Some (cls_of (lexeme t)) end.
Proof.
  intros Hok. destruct t as [b|b gap|neg int frac exp| | | |c]; try reflexivity.
  - cbn [class_of lexeme]. unfold cls_of.
    rewrite prefix_dq.
    rewrite <- app_cons, ends_with_last. reflexivity.
  - cbn [class_of lexeme]. unfold cls_of.
    rewrite prefix_dq.
    change (gap +:+ ":") with (gap +:+ String ":" ""). rewrite <- !app_cons.
    rewrite <- app_assoc_s, ends_with_last. reflexivity.
  - pose proof (number_chars _ _ _ _ Hok) as Hch. cbn [class_of]. unfold cls_of.
    destruct (lexeme_head _ Hok) as (c & m & Hlex & _ & _).
    assert (Hc : number_char c = true)
      by (rewrite Hlex in Hch; cbn [all_chars] in Hch; now apply andb_prop in Hch as [? _]).
    replace (String.prefix dq (lexeme (TNumber neg int frac exp))) with false
      by (rewrite Hlex; revert Hc; by_char c).
    rewrite !contains_absent; [reflexivity | | | ];
      (eapply all_chars_impl; [|exact Hch]); intros x; by_char x.
Qed.

(** *** The scan over a token list *)

Lemma lexeme_last_nonword (t : token) (prev : option ascii) :
  token_ok t = true ->
  needs_delimiter t = false ->
  word_opt (last_char prev (lexeme t)) = false.
Proof.
  intros Hok Hn. destruct t as [b|b gap|neg int frac exp| | | |c]; try discriminate.
  - cbn [lexeme]. rewrite <- app_cons, last_char_last. reflexivity.
  - cbn [lexeme]. change (gap +:+ ":") with (gap +:+ String ":" "").
    rewrite <- !app_cons, <- app_assoc_s, last_char_last. reflexivity.
  - cbn [lexeme last_char word_opt]. cbn [token_ok] in Hok.
    now destruct (punct_inert c Hok) as (Hw & _).
Qed.

Lemma scan_tokens (ts : list token) (prev : option ascii) :
  tokens_ok ts = true ->
  word_opt prev = false \/ delimited (text ts) = true ->
  scan prev 0 (text ts) = highlighted ts.
Proof.
  revert prev. induction ts as [|t ts IH]; intros prev Hok Hprev; [reflexivity|].
  cbn [tokens_ok] in Hok. apply andb_prop in Hok as [Hok Hts].
  apply andb_prop in Hok as [Ht Hdel].
  cbn [text highlighted].
  assert (Hnext : word_opt (last_char prev (lexeme t)) = false
                  \/ delimited (text ts) = true).
  { destruct (needs_delimiter t) eqn:Hn; [now right|].
    left. now apply lexeme_last_nonword. }
  destruct (lexeme_head t Ht) as (c & m & Hlex & _ & _).
  assert (Hmatch : (exists p, t = TPunct p) \/
                   match_at prev (lexeme t +:+ text ts) = Some (lexeme t, text ts)).
  { destruct t as [b|b gap|neg int frac exp| | | |p].
    - right. apply match_at_string. apply match_string_TString;
        [exact Ht | now apply colon_tail_text].
    - right. cbn [token_ok] in Ht. apply andb_prop in Ht as [Hb Hgap].
      apply match_at_string. now apply match_string_TKey.
    - right. now apply match_at_number.
    - right. apply match_at_literal; [reflexivity | discriminate | | exact Hdel].
      destruct Hprev as [H|H]; [exact H | discriminate].
    - right. apply match_at_literal; [reflexivity | discriminate | | exact Hdel].
      destruct Hprev as [H|H]; [exact H | discriminate].
    - right. apply match_at_literal; [reflexivity | discriminate | | exact Hdel].
      destruct Hprev as [H|H]; [exact H | discriminate].
    - left. now exists p. }
  destruct Hmatch as [[p ->]|Hmatch].
  - cbn [lexeme] in *. rewrite app_cons, app_nil_l. cbn [scan].
    rewrite match_at_direct, (match_at_punct prev p _ Ht).
    unfold markup. cbn [class_of lexeme]. rewrite app_cons, app_nil_l.
    f_equal. apply IH; [exact Hts | exact Hnext].
  - rewrite Hlex in Hmatch |- *. rewrite (scan_match _ _ _ _ Hmatch).
    rewrite <- Hlex in *. rewrite (IH _ Hts Hnext).
    unfold markup. rewrite (cls_of_token t Ht).
    destruct t as [| | | | | |p]; try reflexivity.
    cbn [lexeme] in Hmatch. rewrite app_cons, app_nil_l in Hmatch.
    rewrite (match_at_punct prev p _ Ht) in Hmatch. discriminate.
Qed.

End HighlightProofs.

(** * The claims *)

(** ** Validation verdict *)

Lemma sections_validation store manifests activeManifest d :
  sections store manifests activeManifest = Ok (Sections d) ->
  exists vs, dual store "validation_status" "validationStatus" = Ok vs
             /\ validation_section vs = Ok (validationHtml d).
Proof.
  unfold sections. intros H.
  destruct (dual store "validation_status" "validationStatus") as [vs| |];
    cbn [bind] in H; try discriminate.
  exists vs. split; [reflexivity|].
  destruct (validation_section vs) as [v| |]; cbn [bind] in H; try discriminate.
  repeat match type of H with
         | bind ?x _ = Ok _ => destruct x; cbn [bind] in H; try discriminate
         end.
  now injection H as <-.
Qed.

Lemma verdict_example :
  validation_section (JArr (map encode_entry example_status))
  = Ok (Issues 1 [ {| issueCode := "Signing credential › untrusted";
                      issueExplanation := "x" |} ]).
Proof. vm_compute. reflexivity. Qed.

(** C2, as the claim states it, fails twice: the formatted code of the
    example keeps the arrow that replaces the dot, and an entry whose
    code is the empty string is no issue although that code does not
    start with the prefix. *)
Lemma validation_verdict_as_stated_fails :
  (validation_section (JArr (map encode_entry example_status))
   = Ok (Issues 1 [ {| issueCode := "Signing credential › untrusted";
                       issueExplanation := "x" |} ])
   /\ "Signing credential › untrusted" <> "Signing credential untrusted")
  /\ (validation_section
        (JArr (map encode_entry [ {| ve_code := ""; ve_explanation := None |} ]))
      = Ok Verified
      /\ negb (Str.startsWith "claim" "") = true).
Proof.
  split; split; try (vm_compute; reflexivity). discriminate.
Qed.

(** C2, amended.  The verdict keeps the entries whose code is non-empty
    and does not start with [claim]; it is [Issues], with their number and
    for each the formatted code and the explanation, exactly when some
    entry is kept, and [Verified] otherwise.  The format replaces dots by
    the arrow and underscores by blanks, puts a blank at every boundary
    from lower to upper case, lowers the case and capitalizes the first
    character; this is stated for codes of ASCII characters, as validation
    codes are.  On the example the one issue reads
    [Signing credential › untrusted] with explanation [x]. *)
Theorem validation_verdict :
  (forall vs : list ValidationEntry,
      forallb (fun e => Text.is_ascii (ve_code e)) vs = true ->
      validation_section (JArr (map encode_entry vs)) = Ok (verdict vs)
      /\ (verdict vs = Verified <-> List.filter is_issue_entry vs = [])
      /\ (verdict vs <> Verified ->
          verdict vs = Issues (length (List.filter is_issue_entry vs))
                              (map issue_of (List.filter is_issue_entry vs))))
  /\ (forall code, Text.is_ascii code = true ->
        formatValidationCode code = described_format code)
  /\ (forall sp s m, wf_store s = true -> active s = Some m -> ascii_codes s = true ->
        exists d, createCredentialDetails (encode_store sp s) = Ok (Sections d)
                  /\ validationHtml d = verdict (default [] (s_validationStatus s)))
  /\ validation_section (JArr (map encode_entry example_status))
     = Ok (Issues 1 [ {| issueCode := "Signing credential › untrusted";
                         issueExplanation := "x" |} ]).
Proof.
  split; [|split; [|split]].
  - intros vs _. split; [apply validation_section_encode|].
    unfold verdict. destruct (List.filter is_issue_entry vs) as [|e f].
    + split; [tauto | intros H; now contradict H].
    + split; [split; discriminate | reflexivity].
  - intros code _. apply formatValidationCode_described.
  - intros sp s m Hwf Hact _. exists (details_of s m). split; [|reflexivity].
    now apply createCredentialDetails_active.
  - apply verdict_example.
Qed.

Lemma validation_verdict_witness :
  formatValidationCode "signingCredential.ocsp_revoked"
  = "Signing credential › ocsp revoked"
  /\ validation_section
       (JArr (map encode_entry
                [ {| ve_code := "timeStamp.mismatch"; ve_explanation := None |} ]))
     = Ok (Issues 1 [ {| issueCode := "Time stamp › mismatch"; issueExplanation := "" |} ]).
Proof.
  split.
  - apply (proj1 (proj2 validation_verdict) "signingCredential.ocsp_revoked"). reflexivity.
  - apply (proj1 (proj1 validation_verdict
                    [ {| ve_code := "timeStamp.mismatch"; ve_explanation := None |} ]
                    eq_refl)).
Defined.

(** ** Entries without a code *)

Lemma is_issue_codeless (e : JSValue) : codeless e = true -> is_issue e = Ok false.
Proof.
  destruct e as [| | | | |l|m|b]; try discriminate. unfold codeless, is_issue.
  cbn [get bind]. unfold member.
  destruct (m !! "code") as [[| | | |s| | |]|]; try discriminate; try reflexivity.
  cbn. intros ->. reflexivity.
Qed.

Lemma filterM_codeless (l : list JSValue) :
  forallb codeless l = true -> filterM is_issue l = Ok [].
Proof.
  induction l as [|e l IH]; [reflexivity|]. cbn [forallb]. intros H.
  apply andb_prop in H as [He Hl]. cbn [filterM].
  now rewrite (is_issue_codeless e He), (IH Hl).
Qed.

(** C10.  An entry whose code is missing, null or empty is never an
    issue, and a status list of such entries alone gives the verdict
    [Verified], also in the panel. *)
Theorem codeless_entries_are_no_issue (l : list JSValue) :
  forallb codeless l = true ->
  Forall (fun e => is_issue e = Ok false) l
  /\ validationIssues (JArr l) = Ok []
  /\ validation_section (JArr l) = Ok Verified
  /\ (forall store manifests activeManifest d,
        dual store "validation_status" "validationStatus" = Ok (JArr l) ->
        sections store manifests activeManifest = Ok (Sections d) ->
        validationHtml d = Verified).
Proof.
  intros Hl. pose proof (filterM_codeless l Hl) as Hf.
  assert (Hv : validation_section (JArr l) = Ok Verified)
    by (unfold validation_section, validationIssues; now rewrite Hf).
  repeat split; try assumption.
  - apply Forall_forall. intros e He. apply is_issue_codeless.
    rewrite forallb_forall in Hl. apply Hl. now apply list_elem_of_In.
  - intros store manifests activeManifest d Hd Hs.
    destruct (sections_validation _ _ _ _ Hs) as (vs & Hvs & Hval).
    rewrite Hd in Hvs. injection Hvs as <-. rewrite Hv in Hval. now injection Hval.
Qed.

Lemma codeless_entries_are_no_issue_witness :
  validation_section
    (JArr [obj []; obj [("code", JNull)]; obj [("code", JStr ""); ("explanation", JStr "x")]])
  = Ok Verified.
Proof.
  refine (proj1 (proj2 (proj2 (codeless_entries_are_no_issue _ _)))).
  vm_compute. reflexivity.
Defined.

(** ** Actions *)

Lemma formatAction_unmapped (code : string) :
  assoc code actionMap = None ->
  inherited code = false ->
  formatAction code
  = JStr (Str.replace_all_char "_" " " (Str.replace_first "c2pa." "" code)).
Proof.
  intros H Hi. unfold formatAction. rewrite member_fields by assumption.
  now rewrite H.
Qed.

Lemma contains_cons (sub : string) (c : ascii) (s : string) :
  Str.contains sub (String c s)
  = String.prefix sub (String c s) || Str.contains sub s.
Proof. reflexivity. Qed.

Lemma replace_first_absent (pat by_ s : string) :
  Str.contains pat s = false -> Str.replace_first pat by_ s = s.
Proof.
  induction s as [|c s IH]; intros H.
  - cbn in *. rewrite orb_false_r in H. now rewrite H.
  - rewrite contains_cons in H. apply orb_false_elim in H as [Hp Hs].
    cbn [Str.replace_first]. rewrite Hp. now rewrite (IH Hs).
Qed.

Lemma replace_first_prefix (pat s : string) :
  String.prefix pat s = true ->
  Str.replace_first pat "" s = Str.drop (String.length pat) s.
Proof. intros H. destruct s; cbn [Str.replace_first]; now rewrite H. Qed.

Lemma replace_first_strip (code : string) :
  Str.startsWith "c2pa." code = true \/ Str.contains "c2pa." code = false ->
  Str.replace_first "c2pa." "" code = strip_prefix "c2pa." code.
Proof.
  unfold strip_prefix, Str.startsWith. intros [H|H].
  - rewrite H. now apply replace_first_prefix.
  - rewrite (replace_first_absent _ _ _ H).
    destruct code as [|c s]; [reflexivity|].
    rewrite contains_cons in H. apply orb_false_elim in H as [-> _]. reflexivity.
Qed.

(** C4, as the claim states it, fails: an action that is the empty
    string is left out, and [c2pa.] is removed where it first occurs,
    which need not be the front. *)
Lemma action_extraction_as_stated_fails :
  (extractActions (JArr (map encode_assertion [Actions [""; "c2pa.created"]]))
   = Ok ["c2pa.created"]
   /\ every_action [Actions [""; "c2pa.created"]] = [""; "c2pa.created"])
  /\ (assoc "my.c2pa.edit" actionMap = None
      /\ formatAction "my.c2pa.edit" = JStr "my.edit"
      /\ described_fallback "my.c2pa.edit" = "my.c2pa.edit").
Proof. repeat split; vm_compute; reflexivity. Qed.

(** C4, amended.  The actions are, in the order of the assertions and
    with duplicates, the non-empty action strings of all assertions
    labelled [c2pa.actions]; the table has fourteen entries and each of
    its codes is shown by its label; a code outside the table that is not
    the name of a member every object inherits, and in which [c2pa.]
    stands at the front or nowhere, is shown without that prefix and with
    blanks for underscores, not capitalized. *)
Theorem action_extraction :
  (forall l : list Assertion,
      forallb wf_assertion l = true ->
      extractActions (JArr (map encode_assertion l)) = Ok (all_actions l))
  /\ (forall pre acts post,
        all_actions (pre ++ Actions acts :: post)
        = all_actions pre ++ List.filter nonempty acts ++ all_actions post)
  /\ length actionMap = 14
  /\ (forall code label, In (code, JStr label) actionMap -> formatAction code = JStr label)
  /\ (forall code,
        assoc code actionMap = None ->
        inherited code = false ->
        Str.startsWith "c2pa." code = true \/ Str.contains "c2pa." code = false ->
        formatAction code = JStr (described_fallback code))
  /\ (extractActions (JArr (map encode_assertion example_actions))
      = Ok ["c2pa.created"; "c2pa.resized"; "c2pa.unknown_code"]
      /\ map formatAction ["c2pa.created"; "c2pa.resized"; "c2pa.unknown_code"]
         = [JStr "Created"; JStr "Resized"; JStr "unknown code"]).
Proof.
  split; [|split; [|split; [|split; [|split]]]].
  - apply extractActions_encode.
  - intros pre acts post. unfold all_actions. rewrite flat_map_app. reflexivity.
  - reflexivity.
  - intros code label H. cbn [In actionMap] in H.
    repeat (destruct H as [H|H]; [injection H as <- <-; reflexivity|]).
    destruct H.
  - intros code Hnone Hown Hfront. rewrite (formatAction_unmapped code Hnone Hown).
    unfold described_fallback. now rewrite replace_first_strip, replace_underscores.
  - split; vm_compute; reflexivity.
Qed.

Lemma action_extraction_witness :
  extractActions (JArr (map encode_assertion
    [Other "c2pa.hash.data" JNull; Actions ["c2pa.opened"; ""; "c2pa.opened"]]))
  = Ok ["c2pa.opened"; "c2pa.opened"]
  /\ formatAction "c2pa.ai_generated" = JStr "ai generated".
Proof.
  split.
  - apply (proj1 action_extraction
             [Other "c2pa.hash.data" JNull; Actions ["c2pa.opened"; ""; "c2pa.opened"]]).
    reflexivity.
  - apply (proj1 (proj2 (proj2 (proj2 (proj2 action_extraction)))) "c2pa.ai_generated").
    + reflexivity.
    + reflexivity.
    + left. reflexivity.
Defined.

(** ** Author *)

Lemma first_author_none (l : list Assertion) :
  Forall (fun a => author_of a = None) l -> first_author l = None.
Proof.
  induction 1 as [|a l Ha _ IH]; [reflexivity|]. cbn [first_author]. now rewrite Ha.
Qed.

(** C5, as the claim states it, fails: when the first author of the first
    non-empty author list has an empty name, or none, the scan goes on to
    the next assertion of creative work. *)
Lemma author_extraction_as_stated_fails :
  extractAuthor (JArr (map encode_assertion [CreativeWork [""]; CreativeWork ["Bob"]]))
  = Ok (Some "Bob")
  /\ first_listed_author [CreativeWork [""]; CreativeWork ["Bob"]] = Some ""
  /\ extractAuthor
       (JArr [ creative_work_with (JArr [obj [("url", JStr "https://example.org")]]);
               creative_work_with (JArr [obj [("name", JStr "Bob")]]) ])
     = Ok (Some "Bob").
Proof. repeat split; vm_compute; reflexivity. Qed.

(** C5, amended.  The author is the name of the first author entry of
    the first assertion labelled [stds.schema-org.CreativeWork] whose
    author list is not empty and starts with a non-empty name; nothing
    behind that assertion is looked at; without such an assertion the
    result is null.  On the example it is [Jane Doe]. *)
Theorem author_extraction :
  (forall (pre : list Assertion) (n : string) (au : list string) (post : list JSValue),
      forallb wf_assertion pre = true ->
      Forall (fun a => author_of a = None) pre ->
      n <> "" ->
      extractAuthor
        (JArr (map encode_assertion pre ++ encode_assertion (CreativeWork (n :: au)) :: post))
      = Ok (Some n))
  /\ (forall l : list Assertion,
        forallb wf_assertion l = true ->
        Forall (fun a => author_of a = None) l ->
        extractAuthor (JArr (map encode_assertion l)) = Ok None)
  /\ (forall a, author_of a = None <->
                forall n au, a = CreativeWork (n :: au) -> n = "")
  /\ extractAuthor (JArr (map encode_assertion example_authors)) = Ok (Some "Jane Doe").
Proof.
  split; [|split; [|split]].
  - intros pre n au post Hwf Hpre Hn. unfold extractAuthor. cbn [iterate bind].
    rewrite extractAuthor_loop_app by assumption.
    rewrite (first_author_none pre Hpre).
    rewrite extractAuthor_loop_cons by reflexivity.
    cbn [author_of present]. unfold nonempty.
    destruct (String.eqb_spec n ""); [contradiction | reflexivity].
  - intros l Hwf Hl. rewrite extractAuthor_encode by assumption.
    now rewrite (first_author_none l Hl).
  - intros a. split.
    + intros H n au ->. cbn [author_of present] in H. unfold nonempty in H.
      destruct (String.eqb_spec n ""); [assumption | discriminate].
    + intros H. destruct a as [[|n au]| |]; try reflexivity.
      cbn [author_of present]. now rewrite (H n au eq_refl).
  - vm_compute. reflexivity.
Qed.

Lemma author_extraction_witness :
  extractAuthor
    (JArr (map encode_assertion [Actions ["c2pa.created"]; CreativeWork []]
           ++ encode_assertion (CreativeWork ["Ann"; "Bo"]) :: [JNull; JNum 3]))
  = Ok (Some "Ann").
Proof.
  apply (proj1 author_extraction [Actions ["c2pa.created"]; CreativeWork []] "Ann" ["Bo"]).
  - reflexivity.
  - repeat constructor.
  - discriminate.
Defined.

(** ** The absent manifest *)

(** C3, as the claim states it, fails: the key [constructor] indexes no
    manifest of an empty [manifests], but the read with this key finds
    the member of that name that every object inherits, and the sections
    are written for it: the three counts and the badge. *)
Lemma no_manifest_details_as_stated_fails :
  (∅ : gmap string JSValue) !! "constructor" = None
  /\ createCredentialDetails store_with_inherited_key
     = Ok (Sections
             {| signerHtml := None; contentHtml := None; processHtml := None;
                ingredientsHtml := None;
                statsHtml := [ {| statValue := "0"; statLabel := "Manifests" |};
                               {| statValue := "0"; statLabel := "Assertions" |};
                               {| statValue := "0"; statLabel := "Ingredients" |} ];
                validationHtml := Verified |})
  /\ createCredentialDetails store_with_inherited_key <> Ok NoDetails.
Proof. split; [|split]; try (vm_compute; reflexivity). vm_compute. discriminate. Qed.

(** C3, amended.  When the store has no active-manifest key under either
    name, or no manifests, or manifests in which the key finds nothing,
    neither a member of their own nor one that every object inherits,
    the panel is the no-details paragraph and nothing is raised. *)
Theorem no_manifest_details (store : gmap string JSValue) :
  (truthy (prop store "active_manifest") = false
   /\ truthy (prop store "activeManifest") = false)
  \/ truthy (prop store "manifests") = false
  \/ (exists k ms,
        or_else (prop store "active_manifest") (prop store "activeManifest") = JStr k
        /\ prop store "manifests" = JObj ms
        /\ truthy (prop ms k) = false) ->
  createCredentialDetails (JObj store) = Ok NoDetails.
Proof.
  intros H. unfold createCredentialDetails, dual. cbn [get bind].
  fold (prop store "active_manifest") (prop store "activeManifest") (prop store "manifests").
  destruct H as [[H1 H2]|[H|(k & ms & Hk & Hms & Hnone)]].
  - rewrite H1. cbn [bind]. rewrite H2. reflexivity.
  - destruct (truthy (prop store "active_manifest")); cbn [bind];
      rewrite H, andb_false_r; reflexivity.
  - unfold or_else in Hk.
    destruct (truthy (prop store "active_manifest")) eqn:E; cbn [bind]; rewrite Hk, Hms.
    + rewrite <- Hk, E, Hk. cbn [truthy andb get_computed toString bind get].
      fold (prop ms k). now rewrite Hnone.
    + cbn [truthy andb]. destruct (negb (k =? "")%string); [|reflexivity].
      cbn [andb get_computed toString bind get]. fold (prop ms k). now rewrite Hnone.
Qed.

Lemma no_manifest_details_witness :
  createCredentialDetails (obj [("manifests", obj [])]) = Ok NoDetails
  /\ createCredentialDetails
       (obj [("activeManifest", JStr "urn:uuid:9"); ("manifests", obj [])])
     = Ok NoDetails.
Proof.
  split.
  - apply (no_manifest_details (list_to_map [("manifests", obj [])])).
    left. split; reflexivity.
  - apply (no_manifest_details
             (list_to_map [("activeManifest", JStr "urn:uuid:9"); ("manifests", obj [])])).
    right. right. exists "urn:uuid:9", ∅. repeat split.
Defined.

(** ** Dual lookup *)

Lemma dual_prop (o : gmap string JSValue) (snake camel : string) :
  dual (JObj o) snake camel = Ok (or_else (prop o snake) (prop o camel)).
Proof. unfold dual, or_else, prop. cbn [get bind]. now destruct (truthy _). Qed.

Lemma prop_delete_ne (o : gmap string JSValue) (k k' : string) :
  k <> k' -> prop (delete k o) k' = prop o k'.
Proof. intros H. unfold prop, member. now rewrite lookup_delete_ne. Qed.

Lemma prop_delete_eq (o : gmap string JSValue) (k : string) :
  inherited k = false -> prop (delete k o) k = JUndefined.
Proof. intros H. unfold prop, member. now rewrite lookup_delete_eq, H. Qed.

Lemma prop_own (o : gmap string JSValue) (k : string) (v : JSValue) :
  o !! k = Some v -> prop o k = v.
Proof. intros H. unfold prop, member. now rewrite H. Qed.

Lemma get_delete_ne (o : gmap string JSValue) (k k' : string) :
  k <> k' -> get (JObj (delete k o)) k' = get (JObj o) k'.
Proof. intros H. cbn [get]. f_equal. now apply prop_delete_ne. Qed.

Lemma dual_delete_ne (o : gmap string JSValue) (k snake camel : string) :
  k <> snake -> k <> camel ->
  dual (JObj (delete k o)) snake camel = dual (JObj o) snake camel.
Proof. intros H1 H2. now rewrite !dual_prop, !prop_delete_ne. Qed.

Lemma dual_delete_falsy (o : gmap string JSValue) (snake camel : string) (v : JSValue) :
  o !! snake = Some v -> truthy v = false -> snake <> camel -> inherited snake = false ->
  dual (JObj (delete snake o)) snake camel = dual (JObj o) snake camel.
Proof.
  intros Hv Hf Hne Hi. rewrite !dual_prop, prop_delete_eq, prop_delete_ne by assumption.
  unfold or_else. cbn [truthy]. rewrite (prop_own o snake v Hv). now rewrite Hf.
Qed.

(** A truthy snake_case member hides the camelCase one. *)
Lemma dual_delete_hidden (o : gmap string JSValue) (snake camel : string) (v : JSValue) :
  o !! snake = Some v -> truthy v = true -> snake <> camel ->
  dual (JObj (delete camel o)) snake camel = dual (JObj o) snake camel.
Proof.
  intros Hv Ht Hne. rewrite !dual_prop. unfold or_else.
  rewrite prop_delete_ne by (intros E; now apply Hne).
  rewrite (prop_own o snake v Hv). now rewrite Ht.
Qed.

Lemma sections_store store store' manifests activeManifest :
  dual store "validation_status" "validationStatus"
  = dual store' "validation_status" "validationStatus" ->
  sections store manifests activeManifest = sections store' manifests activeManifest.
Proof. intros H. unfold sections. now rewrite H. Qed.

Lemma bind_ext {A B} (x : outcome A) (f g : A -> outcome B) :
  (forall a, f a = g a) -> bind x f = bind x g.
Proof. intros H. destruct x; cbn [bind]; [apply H | reflexivity | reflexivity]. Qed.

Lemma createCredentialDetails_store (o o' : gmap string JSValue) :
  dual (JObj o') "active_manifest" "activeManifest"
  = dual (JObj o) "active_manifest" "activeManifest" ->
  get (JObj o') "manifests" = get (JObj o) "manifests" ->
  dual (JObj o') "validation_status" "validationStatus"
  = dual (JObj o) "validation_status" "validationStatus" ->
  createCredentialDetails (JObj o) = createCredentialDetails (JObj o').
Proof.
  intros Hk Hm Hv. unfold createCredentialDetails. rewrite Hk, Hm.
  apply bind_ext; intros key. apply bind_ext; intros ms. apply bind_ext; intros am.
  destruct (negb (truthy am)); [reflexivity|].
  apply sections_store. now symmetry.
Qed.

(** C9.  The dual lookup goes by truthiness: a snake_case field that is
    present with a falsy value is passed over in favour of the camelCase
    one, and for each of the five fields read that way the result is the
    one obtained without the falsy field. *)
Theorem falsy_snake_case_falls_back :
  (forall (o : gmap string JSValue) (snake camel : string) (v : JSValue),
      o !! snake = Some v -> truthy v = false ->
      dual (JObj o) snake camel = Ok (prop o camel))
  /\ (forall (o : gmap string JSValue) (v : JSValue),
        o !! "active_manifest" = Some v -> truthy v = false ->
        createCredentialDetails (JObj o)
        = createCredentialDetails (JObj (delete "active_manifest" o)))
  /\ (forall (o : gmap string JSValue) (v : JSValue),
        o !! "validation_status" = Some v -> truthy v = false ->
        createCredentialDetails (JObj o)
        = createCredentialDetails (JObj (delete "validation_status" o)))
  /\ (forall (o : gmap string JSValue) (v : JSValue) store manifests,
        o !! "signature_info" = Some v -> truthy v = false ->
        sections store manifests (JObj o)
        = sections store manifests (JObj (delete "signature_info" o)))
  /\ (forall (o : gmap string JSValue) (v : JSValue) store manifests,
        o !! "claim_generator" = Some v -> truthy v = false ->
        sections store manifests (JObj o)
        = sections store manifests (JObj (delete "claim_generator" o)))
  /\ (forall (o : gmap string JSValue) (v : JSValue),
        o !! "cert_serial_number" = Some v -> truthy v = false ->
        signer_section (JObj o)
        = signer_section (JObj (delete "cert_serial_number" o))).
Proof.
  split; [|split; [|split; [|split; [|split]]]].
  - intros o snake camel v Hv Hf. rewrite dual_prop. unfold or_else.
    rewrite (prop_own o snake v Hv). now rewrite Hf.
  - intros o v Hv Hf. apply createCredentialDetails_store.
    + now apply (dual_delete_falsy o _ _ v).
    + now apply get_delete_ne.
    + now apply dual_delete_ne.
  - intros o v Hv Hf. apply createCredentialDetails_store.
    + now apply dual_delete_ne.
    + now apply get_delete_ne.
    + now apply (dual_delete_falsy o _ _ v).
  - intros o v store manifests Hv Hf. unfold sections.
    rewrite (dual_delete_falsy o _ _ v Hv Hf) by (discriminate || reflexivity).
    rewrite !get_delete_ne by discriminate. now rewrite dual_delete_ne by discriminate.
  - intros o v store manifests Hv Hf. unfold sections.
    rewrite (dual_delete_falsy o _ _ v Hv Hf) by (discriminate || reflexivity).
    rewrite !get_delete_ne by discriminate. now rewrite dual_delete_ne by discriminate.
  - intros o v Hv Hf. unfold signer_section. cbn [truthy].
    rewrite (dual_delete_falsy o _ _ v Hv Hf) by (discriminate || reflexivity).
    now rewrite !get_delete_ne by discriminate.
Qed.

Lemma falsy_snake_case_falls_back_witness :
  dual (obj [("active_manifest", JStr ""); ("activeManifest", JStr "urn:uuid:1")])
       "active_manifest" "activeManifest"
  = Ok (JStr "urn:uuid:1")
  /\ dual (obj [("validation_status", JNull); ("validationStatus", JArr [])])
          "validation_status" "validationStatus"
     = Ok (JArr []).
Proof.
  split.
  - refine (proj1 falsy_snake_case_falls_back
              (list_to_map [("active_manifest", JStr "");
                            ("activeManifest", JStr "urn:uuid:1")])
              "active_manifest" "activeManifest" (JStr "") _ _);
      vm_compute; reflexivity.
  - refine (proj1 falsy_snake_case_falls_back
              (list_to_map [("validation_status", JNull); ("validationStatus", JArr [])])
              "validation_status" "validationStatus" JNull _ _);
      vm_compute; reflexivity.
Defined.

(** ** The two spellings *)

Lemma sections_manifest store manifests (o o' : gmap string JSValue) :
  dual (JObj o') "signature_info" "signatureInfo"
  = dual (JObj o) "signature_info" "signatureInfo" ->
  dual (JObj o') "claim_generator" "claimGenerator"
  = dual (JObj o) "claim_generator" "claimGenerator" ->
  (forall k, In k ["title"; "format"; "assertions"; "ingredients"] ->
             get (JObj o') k = get (JObj o) k) ->
  sections store manifests (JObj o) = sections store manifests (JObj o').
Proof.
  intros Hs Hg Hk. unfold sections. rewrite Hs, Hg.
  rewrite !Hk by (cbn [In]; tauto). reflexivity.
Qed.

Lemma dual_absent (o : gmap string JSValue) (snake camel : string) :
  In (snake, camel) dual_names -> o !! snake = None ->
  dual (JObj o) snake camel = Ok (prop o camel).
Proof.
  intros Hin Hs. rewrite dual_prop. unfold or_else, prop at 1 2, member. rewrite Hs.
  cbn [In dual_names] in Hin.
  repeat (destruct Hin as [Hin|Hin]; [injection Hin as <- <-; reflexivity|]).
  destruct Hin.
Qed.

(** C1.  A store gives the same panel whether its fields are spelled in
    snake_case or in camelCase, and also when the five fields with two
    names are spelled one by one in either way.  Each of the five is read
    under the snake_case name first: where that member is truthy the
    camelCase member is not looked at, so the result is the one without
    it; where the snake_case member is missing the camelCase member is
    read, and where both are missing the field is undefined. *)
Theorem spelling_equivalence :
  (forall s : ManifestStore,
      wf_store s = true ->
      createCredentialDetails (encode_store (uniform Snake) s)
      = createCredentialDetails (encode_store (uniform Camel) s)
      /\ (forall sp sp',
            createCredentialDetails (encode_store sp s)
            = createCredentialDetails (encode_store sp' s))
      /\ (forall sp, exists p, createCredentialDetails (encode_store sp s) = Ok p))
  /\ (forall (o : gmap string JSValue) (v : JSValue),
        o !! "active_manifest" = Some v -> truthy v = true ->
        createCredentialDetails (JObj o)
        = createCredentialDetails (JObj (delete "activeManifest" o)))
  /\ (forall (o : gmap string JSValue) (v : JSValue),
        o !! "validation_status" = Some v -> truthy v = true ->
        createCredentialDetails (JObj o)
        = createCredentialDetails (JObj (delete "validationStatus" o)))
  /\ (forall (o : gmap string JSValue) (v : JSValue) store manifests,
        o !! "signature_info" = Some v -> truthy v = true ->
        sections store manifests (JObj o)
        = sections store manifests (JObj (delete "signatureInfo" o)))
  /\ (forall (o : gmap string JSValue) (v : JSValue) store manifests,
        o !! "claim_generator" = Some v -> truthy v = true ->
        sections store manifests (JObj o)
        = sections store manifests (JObj (delete "claimGenerator" o)))
  /\ (forall (o : gmap string JSValue) (v : JSValue),
        o !! "cert_serial_number" = Some v -> truthy v = true ->
        signer_section (JObj o)
        = signer_section (JObj (delete "certSerialNumber" o)))
  /\ (forall (o : gmap string JSValue) snake camel,
        In (snake, camel) dual_names -> o !! snake = None ->
        dual (JObj o) snake camel = Ok (prop o camel))
  /\ (forall (o : gmap string JSValue) snake camel,
        In (snake, camel) dual_names -> o !! snake = None -> o !! camel = None ->
        dual (JObj o) snake camel = Ok JUndefined).
Proof.
  split; [|split; [|split; [|split; [|split; [|split; [|split]]]]]].
  - intros s Hwf. split; [|split].
    + now rewrite !createCredentialDetails_rendered.
    + intros sp sp'. now rewrite !createCredentialDetails_rendered.
    + intros sp. exists (rendered s). now apply createCredentialDetails_rendered.
  - intros o v Hv Ht. apply createCredentialDetails_store.
    + now apply (dual_delete_hidden o _ _ v).
    + now apply get_delete_ne.
    + now apply dual_delete_ne.
  - intros o v Hv Ht. apply createCredentialDetails_store.
    + now apply dual_delete_ne.
    + now apply get_delete_ne.
    + now apply (dual_delete_hidden o _ _ v).
  - intros o v store manifests Hv Ht. apply sections_manifest.
    + now apply (dual_delete_hidden o _ _ v).
    + now apply dual_delete_ne.
    + intros k Hk. apply get_delete_ne. cbn [In] in Hk.
      intuition (subst; discriminate).
  - intros o v store manifests Hv Ht. apply sections_manifest.
    + now apply dual_delete_ne.
    + now apply (dual_delete_hidden o _ _ v).
    + intros k Hk. apply get_delete_ne. cbn [In] in Hk.
      intuition (subst; discriminate).
  - intros o v Hv Ht. unfold signer_section.
    rewrite (dual_delete_hidden o _ _ v Hv Ht) by discriminate.
    now rewrite !get_delete_ne by discriminate.
  - apply dual_absent.
  - intros o snake camel Hin Hs Hc. rewrite (dual_absent o snake camel Hin Hs).
    unfold prop, member. rewrite Hc. cbn [In dual_names] in Hin.
    repeat (destruct Hin as [Hin|Hin]; [injection Hin as <- <-; reflexivity|]).
    destruct Hin.
Qed.

Lemma spelling_equivalence_witness :
  (createCredentialDetails (encode_store (uniform Snake) sample_store)
   = createCredentialDetails (encode_store (uniform Camel) sample_store)
   /\ exists d, createCredentialDetails (encode_store (uniform Snake) sample_store)
                = Ok (Sections d))
  /\ (exists d p,
        createCredentialDetails store_with_both_names = Ok (Sections d)
        /\ processHtml d = Some p /\ appName p = Some "Camera")
  /\ dual (obj [("signatureInfo", JStr "s")]) "signature_info" "signatureInfo"
     = Ok (JStr "s").
Proof.
  assert (Hwf : wf_store sample_store = true) by (vm_compute; reflexivity).
  split; [split|split].
  - exact (proj1 (proj1 spelling_equivalence sample_store Hwf)).
  - destruct (proj2 (proj2 (proj1 spelling_equivalence sample_store Hwf)) (uniform Snake))
      as [[|d] H]; [|now exists d].
    vm_compute in H. discriminate.
  - eexists _, _. unfold store_with_both_names, obj.
    rewrite (proj1 (proj2 spelling_equivalence) _ (JStr "urn:uuid:1"))
      by (vm_compute; reflexivity).
    vm_compute. repeat split.
  - refine (eq_trans
              (proj1 (proj2 (proj2 (proj2 (proj2 (proj2 (proj2 spelling_equivalence))))))
                 (list_to_map [("signatureInfo", JStr "s")])
                 "signature_info" "signatureInfo" _ _) _).
    + cbn [In dual_names]. tauto.
    + reflexivity.
    + reflexivity.
Defined.

(** ** Totality *)

Lemma createCredentialDetails_absent (sp : Spelling) (s : ManifestStore) :
  active s = None -> selects_inherited s = false ->
  createCredentialDetails (encode_store sp s) = Ok NoDetails.
Proof.
  intros H Hk. rewrite createCredentialDetails_encode.
  - unfold summarize. now rewrite H.
  - unfold wf_store. now rewrite H.
  - exact Hk.
Qed.

Lemma extractAuthor_loop_no_list (v : JSValue) (rest : list JSValue) :
  no_list v = true ->
  extractAuthor_loop (creative_work_with v :: rest) = extractAuthor_loop rest.
Proof.
  intros Hv. unfold extractAuthor_loop; fold extractAuthor_loop.
  unfold creative_work_with. rewrite !get_obj by reflexivity.
  cbn [assoc String.eqb Ascii.eqb Bool.eqb].
  unfold label_CreativeWork.
  cbn [default from_option id bind strict_eq_str String.eqb Ascii.eqb Bool.eqb].
  rewrite truthy_obj, get_obj by reflexivity.
  cbn [assoc String.eqb Ascii.eqb Bool.eqb default from_option id bind].
  destruct v as [| |b|n|s|l|m|f]; try discriminate; try reflexivity.
  - destruct b; reflexivity.
  - destruct (truthy (JNum n)); reflexivity.
  - destruct (truthy (JStr s)); [|reflexivity].
    cbn [get String.eqb Ascii.eqb Bool.eqb bind gt0]. unfold Text.units.
    destruct (Text.points s) as [|p ps]; [reflexivity|].
    replace (0 <? Z.of_nat (Text.count_units (p :: ps)))%Z with true
      by (symmetry; apply Z.ltb_lt; cbn [Text.count_units];
          destruct (Text.is_astral p); lia).
    change (index_of_key "0") with (Some 0). cbn [Text.unit_at].
    destruct (Text.is_astral p); reflexivity.
  - cbn [truthy get bind no_list] in *. unfold member.
    destruct (m !! "length"); [discriminate | reflexivity].
Qed.

(** C7, as the claim states it, fails: a field of the wrong shape can
    raise.  Here [data.actions] is a single action object instead of a
    list, and iterating it raises a [TypeError]. *)
Lemma malformed_field_raises :
  createCredentialDetails store_with_single_action = Throw.
Proof. vm_compute. reflexivity. Qed.

(** C7, amended.  On every well-formed store, in any spelling, the
    transformation returns a panel and raises nothing.  The panel is the
    no-details paragraph when no active manifest is found, and the
    sections otherwise, with a default for every optional field that is
    missing; this is stated for keys that are not the name of a member
    every object inherits and for validation codes of ASCII characters.
    A [data.author] that is a text, a number, a boolean, null or an
    object without a length is passed over like a missing one. *)
Theorem total_on_well_formed_stores :
  (forall sp s, wf_store s = true ->
      exists p, createCredentialDetails (encode_store sp s) = Ok p)
  /\ (forall sp s, wf_store s = true -> selects_inherited s = false ->
        ascii_codes s = true ->
        createCredentialDetails (encode_store sp s) = Ok (summarize s))
  /\ (forall sp s, active s = None -> selects_inherited s = false ->
        createCredentialDetails (encode_store sp s) = Ok NoDetails)
  /\ (forall sp s m, wf_store s = true -> active s = Some m -> ascii_codes s = true ->
        createCredentialDetails (encode_store sp s) = Ok (Sections (details_of s m)))
  /\ (forall v rest, no_list v = true ->
        extractAuthor_loop (creative_work_with v :: rest) = extractAuthor_loop rest).
Proof.
  split; [|split; [|split; [|split]]].
  - intros sp s Hwf. exists (rendered s). now apply createCredentialDetails_rendered.
  - intros sp s Hwf Hk _. now apply createCredentialDetails_encode.
  - apply createCredentialDetails_absent.
  - intros sp s m Hwf Hact _. now apply createCredentialDetails_active.
  - apply extractAuthor_loop_no_list.
Qed.

Lemma total_on_well_formed_stores_witness :
  (exists d, createCredentialDetails (encode_store (uniform Camel) sample_store)
             = Ok (Sections d))
  /\ createCredentialDetails
       (encode_store (uniform Snake)
          {| s_activeManifestKey := None; s_manifests := Some ∅;
             s_validationStatus := None |})
     = Ok NoDetails
  /\ extractAuthor (JArr [creative_work_with (JStr "Jane Doe")]) = Ok None.
Proof.
  split; [|split].
  - exists (details_of sample_store sample_manifest).
    apply (proj1 (proj2 (proj2 (proj2 total_on_well_formed_stores))));
      vm_compute; reflexivity.
  - apply (proj1 (proj2 (proj2 total_on_well_formed_stores))); reflexivity.
  - unfold extractAuthor. cbn [iterate bind].
    rewrite (proj2 (proj2 (proj2 (proj2 total_on_well_formed_stores)))); reflexivity.
Defined.

(** ** The app name *)

Lemma hd_split (sep : ascii) (s : string) :
  hd "" (Str.split sep s) = first_piece (fun c => (c =? sep)%char) s.
Proof.
  induction s as [|c s IH]; [reflexivity|]. cbn [Str.split first_piece].
  destruct (c =? sep)%char; [reflexivity|].
  rewrite <- IH. now destruct (Str.split sep s).
Qed.

Lemma replace_separators (s : string) :
  Str.replace_all_char "/" " " (Str.replace_all_char "_" " " s) = separators_to_blanks s.
Proof.
  induction s as [|c s IH]; [reflexivity|].
  unfold separators_to_blanks in *. cbn [Str.replace_all_char Str.map_chars].
  destruct (c =? "_")%char eqn:E1.
  - cbn [orb]. change (" " +:+ Str.replace_all_char "_" " " s)
      with (String " " (Str.replace_all_char "_" " " s)).
    cbn [Str.replace_all_char]. change ((" " =? "/")%char) with false. cbn iota.
    now rewrite IH.
  - cbn [Str.replace_all_char orb]. rewrite IH. now destruct (c =? "/")%char.
Qed.

Lemma appName_described (g : string) : appName_of g = described_appName g.
Proof. unfold appName_of, described_appName. now rewrite replace_separators, hd_split. Qed.

(** C8, as the claim states it, fails: the split is on the blank alone,
    so a tab does not end the first token. *)
Lemma app_name_as_stated_fails :
  appName_of tabbed_generator = "Photo App" +:+ String "009" "1.0"
  /\ appName_by_whitespace tabbed_generator = "Photo App".
Proof. split; vm_compute; reflexivity. Qed.

(** C8, amended.  The app name is the claim generator up to its first
    blank (U+0020), with underscores and slashes replaced by blanks and
    nothing else changed; the process section of the panel carries it
    for every non-empty claim generator. *)
Theorem app_name_derivation :
  (forall g, appName_of g = described_appName g)
  /\ (forall sp s m g,
        wf_store s = true -> active s = Some m ->
        m_claimGenerator m = Some g -> g <> "" ->
        exists d p, createCredentialDetails (encode_store sp s) = Ok (Sections d)
                    /\ processHtml d = Some p
                    /\ appName p = Some (described_appName g)).
Proof.
  split; [apply appName_described|].
  intros sp s m g Hwf Hact Hg Hne.
  exists (details_of s m). eexists. split; [|split].
  - now apply createCredentialDetails_active.
  - cbn [details_of processHtml]. rewrite Hg. cbn [present]. unfold nonempty.
    destruct (String.eqb_spec g ""); [contradiction|]. cbn [negb].
    unfold process_section. cbn [shown]. 
    destruct (String.eqb_spec g ""); [contradiction|]. cbn [negb orb]. reflexivity.
  - cbn [appName]. now rewrite appName_described.
Qed.

Lemma app_name_derivation_witness :
  exists d p, createCredentialDetails (encode_store (uniform Snake) sample_store)
              = Ok (Sections d)
              /\ processHtml d = Some p
              /\ appName p = Some "Adobe Photoshop 24.0".
Proof.
  apply (proj2 app_name_derivation (uniform Snake) sample_store sample_manifest
           "Adobe_Photoshop/24.0 c2pa-rs/0.5");
    try (vm_compute; reflexivity). discriminate.
Defined.

(** ** The highlighter *)

(** C6.  On a JSON text every token is wrapped in a span of its class:
    strings, keys (a string with the white space and the colon behind
    it), numbers, the boolean names and null; the characters between the
    tokens are left as they are, and a string ends at its closing quote,
    not at an escaped one. *)
Theorem syntaxHighlight_tokens (ts : list JsonText.token) :
  JsonText.tokens_ok ts = true ->
  syntaxHighlight (JsonText.text ts) = JsonText.highlighted ts.
Proof. intros Hok. apply scan_tokens; [assumption | now left]. Qed.

Lemma syntaxHighlight_tokens_witness :
  JsonText.text example_tokens = example_json
  /\ JsonText.highlighted example_tokens = example_markup
  /\ syntaxHighlight example_json = example_markup.
Proof.
  split; [reflexivity|]. split; [reflexivity|].
  apply (syntaxHighlight_tokens example_tokens). reflexivity.
Defined.
(** * Further properties *)

Ltac by_char c := destruct c as [[] [] [] [] [] [] [] []]; try discriminate; try reflexivity.

(** ** The highlighter on any text *)

Section HighlightMore.
Import Str Regex Highlight Direct JsonText Pieces.

Lemma match_number_nonempty s m r : match_number s = Some (m, r) -> m <> "".
Proof.
  unfold match_number.
  destruct (match s with
            | String c r0 => if (c =? "-")%char then (String c "", r0) else ("", s)
            | "" => ("", s)
            end) as [sign s1].
  destruct (digits s1) as [d s2]. destruct d as [|d0 d]; [discriminate|].
  destruct (fraction s2) as [f s3]. destruct (exponent s3) as [x s4].
  cbn [String.eqb]. intros H. injection H as <- <-.
  destruct sign; discriminate.
Qed.

Lemma match_at_nonempty prev s m r : match_at prev s = Some (m, r) -> m <> "".
Proof.
  unfold match_at.
  destruct (match_string s) as [x|] eqn:E1.
  { intros H. injection H as ->. destruct s as [|c s]; [discriminate|].
    cbn [match_string] in E1. destruct (c =? "034")%char; [|discriminate].
    destruct (string_body s) as [[body rest]|]; [|discriminate].
    destruct (colon_tail rest) as [[t r']|]; injection E1 as <- <-; discriminate. }
  destruct (match_literal prev s) as [x|] eqn:E2.
  { intros H. injection H as ->. unfold match_literal in E2.
    destruct (boundary prev s); [|discriminate]. unfold literal_at in E2.
    repeat match type of E2 with
           | context [if ?b then _ else _] => destruct b
           end; try discriminate; injection E2 as <- <-; discriminate. }
  apply match_number_nonempty.
Qed.

Lemma cls_of_known m : existsb (String.eqb (cls_of m)) classes = true.
Proof.
  unfold cls_of.
  repeat match goal with
         | |- context [if ?b then _ else _] => destruct b
         end; reflexivity.
Qed.

Lemma scan_pieces :
  forall n s prev,
    String.length s <= n ->
    exists ps,
      scan prev 0 s = join written ps /\ join source ps = s
      /\ forallb piece_ok ps = true.
Proof.
  induction n as [|n IH]; intros s prev Hn.
  { destruct s; [|cbn in Hn; lia]. now exists []. }
  destruct s as [|c s]; [now exists []|]. cbn [String.length] in Hn.
  destruct (match_at prev (String c s)) as [[m r]|] eqn:E.
  - pose proof (match_at_split _ _ _ _ E) as Hs.
    pose proof (match_at_nonempty _ _ _ _ E) as Hm.
    destruct m as [|c' m]; [now contradict Hm|].
    rewrite app_cons in Hs. injection Hs as <- ->.
    destruct (IH r (last_char prev (String c m))) as (ps & H1 & H2 & H3).
    { rewrite length_app_s in Hn. lia. }
    exists (Tagged (cls_of (String c m)) (String c m) :: ps).
    rewrite <- app_cons in E |- *. rewrite (scan_match _ _ _ _ E).
    cbn [join written source forallb piece_ok]. rewrite H1, H2, H3, cls_of_known.
    now split.
  - destruct (IH s (Some c)) as (ps & H1 & H2 & H3); [lia|].
    exists (Copied c :: ps). cbn [scan]. rewrite match_at_direct, E.
    cbn [join written source forallb piece_ok]. rewrite H1, H2, H3. now split.
Qed.

(** X1.  Whatever the input is, the output is the input with spans put
    around some of its parts: the output reads as a sequence of pieces,
    each a copied character or a non-empty part of the input inside a
    span of one of the five classes, and the parts in their order make
    up the input. *)
Theorem syntaxHighlight_keeps_the_text (json : string) :
  exists ps,
    syntaxHighlight json = join written ps
    /\ join source ps = json
    /\ forallb piece_ok ps = true.
Proof. apply (scan_pieces (String.length json)). lia. Qed.

(** *** Text in which nothing matches *)

Lemma digits_none (c : ascii) (r : string) :
  is_digit c = false -> digits (String c r) = ("", String c r).
Proof. intros H. cbn [digits]. now rewrite H. Qed.

Lemma match_number_none (c : ascii) (r : string) :
  (c =? "-")%char = false -> is_digit c = false -> match_number (String c r) = None.
Proof. intros H1 H2. unfold match_number. now rewrite H1, (digits_none c r H2). Qed.

Lemma match_at_none (prev : option ascii) (c : ascii) (r : string) :
  starts_match c = false -> match_at prev (String c r) = None.
Proof.
  unfold starts_match. intros H.
  repeat (apply orb_false_elim in H as [H ?]).
  unfold match_at. cbn [match_string]. rewrite eqb_quote.
  change JsonText.quote with Highlight.quote. rewrite H.
  rewrite match_literal_none, match_number_none; try easy.
  unfold not_name_start. now rewrite H2, H1, H0.
Qed.

Lemma scan_copy (prev : option ascii) (c : ascii) (r : string) :
  match_at prev (String c r) = None ->
  scan prev 0 (String c r) = String c (scan (Some c) 0 r).
Proof. intros H. cbn [scan]. now rewrite match_at_direct, H. Qed.

Lemma scan_inert (s : string) :
  all_chars (fun c => negb (starts_match c)) s = true ->
  forall prev, scan prev 0 s = s.
Proof.
  induction s as [|c s IH]; intros Hs prev; [reflexivity|].
  cbn [all_chars] in Hs. apply andb_prop in Hs as [Hc Hs].
  apply negb_true_iff in Hc.
  rewrite scan_copy by now apply match_at_none. now rewrite IH.
Qed.

(** X2.  A text without a quote, a minus sign, a digit and the letters t,
    f and n comes back unchanged: nothing in it can start a match. *)
Theorem syntaxHighlight_inert (json : string) :
  all_chars (fun c => negb (starts_match c)) json = true ->
  syntaxHighlight json = json.
Proof. intros H. now apply scan_inert. Qed.

Lemma syntaxHighlight_inert_witness :
  syntaxHighlight "{ [<b>, &amp;] }" = "{ [<b>, &amp;] }".
Proof. apply (syntaxHighlight_inert "{ [<b>, &amp;] }"). reflexivity. Defined.

(** *** A quote that opens no string *)

Lemma string_body_open :
  forall n s,
    String.length s <= n ->
    all_chars (fun c => negb (c =? Highlight.quote)%char) s = true ->
    string_body s = None.
Proof.
  induction n as [|n IH]; intros s Hn Hs; (destruct s as [|c s]; [reflexivity|]);
    [cbn in Hn; lia|].
  cbn [String.length] in Hn. cbn [all_chars] in Hs.
  apply andb_prop in Hs as [Hc Hs]. apply negb_true_iff in Hc.
  cbn [string_body]. rewrite eqb_quote. change JsonText.quote with Highlight.quote.
  rewrite Hc. destruct (c =? "\")%char.
  - destruct s as [|e r1]; [reflexivity|]. cbn [all_chars] in Hs.
    apply andb_prop in Hs as [_ Hs]. destruct (e =? "u")%char.
    + destruct r1 as [|h1 [|h2 [|h3 [|h4 r2]]]]; try reflexivity.
      destruct (_ && _); [|reflexivity]. cbn [all_chars] in Hs.
      repeat (apply andb_prop in Hs as [_ Hs]).
      rewrite (IH r2); [reflexivity | cbn in Hn; lia | assumption].
    + rewrite (IH r1); [reflexivity | cbn in Hn; lia | assumption].
  - rewrite (IH s); [reflexivity | lia | assumption].
Qed.

(** X3.  A quote behind which no further quote stands opens no string:
    it is copied, and the text behind it is scanned as text of its own,
    so that a number or a name in it is still put in a span. *)
Theorem syntaxHighlight_open_quote (s : string) :
  all_chars (fun c => negb (c =? Highlight.quote)%char) s = true ->
  syntaxHighlight (String Highlight.quote s)
  = String Highlight.quote (scan (Some Highlight.quote) 0 s).
Proof.
  intros Hs. apply scan_copy. unfold match_at. cbn [match_string].
  rewrite (string_body_open (String.length s) s (Nat.le_refl _) Hs).
  change ((Highlight.quote =? "034")%char) with true. cbv iota.
  now rewrite match_literal_none, match_number_none.
Qed.

Lemma syntaxHighlight_open_quote_witness :
  syntaxHighlight (String Highlight.quote "ab 12")
  = String Highlight.quote
      ("ab <span class=" +:+ Q +:+ "json-number" +:+ Q +:+ ">12</span>").
Proof. apply (syntaxHighlight_open_quote "ab 12"). reflexivity. Defined.

(** *** Names *)

Lemma name_char_facts (c : ascii) :
  is_name_char c = true ->
  is_word c = true /\ is_digit c = false /\ (c =? "-")%char = false
  /\ (c =? Highlight.quote)%char = false.
Proof. by_char c; intros _; repeat split. Qed.

Lemma scan_inside_word (w r : string) :
  all_chars is_name_char w = true ->
  forall prev,
    word_opt prev = true ->
    scan prev 0 (w +:+ r) = w +:+ scan (last_char prev w) 0 r.
Proof.
  induction w as [|c w IH]; intros Hw prev Hprev; [reflexivity|].
  cbn [all_chars] in Hw. apply andb_prop in Hw as [Hc Hw].
  destruct (name_char_facts c Hc) as (H1 & H2 & H3 & H4).
  rewrite !app_cons. rewrite scan_copy.
  - cbn [last_char]. rewrite IH; [reflexivity | assumption | exact H1].
  - unfold match_at. cbn [match_string]. rewrite eqb_quote.
    change JsonText.quote with Highlight.quote. rewrite H4.
    rewrite (match_number_none c _ H3 H2).
    unfold match_literal, boundary, Regex.boundary.
    cbn [before rest first_char word_opt]. now rewrite Hprev, H1.
Qed.

Lemma literal_at_whole_word (lit : string) :
  all_chars is_word lit = true ->
  forall w r,
    all_chars is_word w = true ->
    word_opt (first_char r) = false ->
    literal_at lit (w +:+ r) <> None -> w = lit.
Proof.
  unfold literal_at. induction lit as [|l lit IH]; intros Hlit w r Hw Hr.
  - rewrite prefix_nil. cbn [String.length drop].
    destruct w as [|c w]; [reflexivity|]. rewrite app_cons. cbn [first_char word_opt].
    cbn [all_chars] in Hw. apply andb_prop in Hw as [-> _]. now intros H.
  - cbn [all_chars] in Hlit. apply andb_prop in Hlit as [Hl Hlit].
    destruct w as [|c w].
    + rewrite app_nil_l. destruct r as [|d r]; [now intros H|].
      rewrite prefix_cons. cbn [first_char word_opt] in Hr.
      destruct (l =? d)%char eqn:E; [|now intros H].
      apply Ascii.eqb_eq in E as <-. congruence.
    + rewrite app_cons, prefix_cons. cbn [all_chars] in Hw.
      apply andb_prop in Hw as [Hc Hw].
      destruct (l =? c)%char eqn:E; [|now intros H].
      apply Ascii.eqb_eq in E as <-. cbn [andb String.length drop].
      intros H. f_equal. apply (IH Hlit w r Hw Hr).
      destruct (String.prefix lit (w +:+ r)); [|now contradict H].
      destruct (negb _); [discriminate | now contradict H].
Qed.

(** X4.  The names true, false and null are put in a span only as whole
    words.  A word of letters and underscores at the start of the text
    that is none of the three names is copied as it is, and the scan goes
    on behind it. *)
Theorem syntaxHighlight_other_names (w r : string) :
  all_chars is_name_char w = true ->
  is_literal_name w = false ->
  word_opt (first_char r) = false ->
  syntaxHighlight (w +:+ r) = w +:+ scan (last_char None w) 0 r.
Proof.
  intros Hw Hname Hr. destruct w as [|c w]; [reflexivity|].
  pose proof Hw as Hw'. cbn [all_chars] in Hw. apply andb_prop in Hw as [Hc Hw].
  destruct (name_char_facts c Hc) as (H1 & H2 & H3 & H4).
  assert (Hword : all_chars is_word (String c w) = true).
  { apply (all_chars_impl is_name_char); [|exact Hw'].
    intros d Hd. now destruct (name_char_facts d Hd). }
  assert (Hlit : forall lit, all_chars is_word lit = true -> String c w <> lit ->
                 literal_at lit (String c w +:+ r) = None).
  { intros lit Hl Hne. destruct (literal_at lit (String c w +:+ r)) eqn:E; [|reflexivity].
    exfalso. apply Hne. apply (literal_at_whole_word lit Hl _ r Hword Hr). now rewrite E. }
  unfold is_literal_name in Hname.
  apply orb_false_elim in Hname as [Hname Hn3].
  apply orb_false_elim in Hname as [Hn1 Hn2].
  apply String.eqb_neq in Hn1, Hn2, Hn3.
  unfold syntaxHighlight. rewrite app_cons, scan_copy.
  - cbn [last_char]. now rewrite (scan_inside_word w r Hw (Some c) H1).
  - rewrite <- app_cons. unfold match_at. rewrite app_cons at 1. cbn [match_string].
    rewrite eqb_quote. change JsonText.quote with Highlight.quote. rewrite H4.
    unfold match_literal. rewrite !Hlit by (reflexivity || assumption).
    rewrite app_cons. rewrite (match_number_none c _ H3 H2).
    now destruct (boundary None (String c (w +:+ r))).
Qed.

Lemma syntaxHighlight_other_names_witness :
  syntaxHighlight "nullable: true"
  = "nullable: <span class=" +:+ Q +:+ "json-boolean" +:+ Q +:+ ">true</span>".
Proof.
  apply (syntaxHighlight_other_names "nullable" ": true"); reflexivity.
Defined.

End HighlightMore.

(** ** The format of a validation code *)

Section ValidationCode.
Import Str JsonText.

Lemma all_chars_replace (p q : ascii -> bool) (c : ascii) (by_ s : string) :
  all_chars p by_ = true ->
  (forall d, (d =? c)%char = false -> q d = true -> p d = true) ->
  all_chars q s = true ->
  all_chars p (replace_all_char c by_ s) = true.
Proof.
  intros Hby Hpq. induction s as [|d s IH]; intros Hs; [reflexivity|].
  cbn [all_chars] in Hs. apply andb_prop in Hs as [Hd Hs].
  cbn [replace_all_char]. destruct (d =? c)%char eqn:E.
  - rewrite all_chars_app, Hby. now apply IH.
  - cbn [all_chars]. rewrite (Hpq d E Hd). now apply IH.
Qed.

Lemma all_chars_space_boundaries (p : ascii -> bool) (s : string) :
  p " "%char = true -> all_chars p s = true -> all_chars p (space_boundaries s) = true.
Proof.
  intros Hsp. induction s as [|a t IH]; intros Hs; [reflexivity|].
  cbn [all_chars] in Hs. apply andb_prop in Hs as [Ha Ht].
  rewrite space_boundaries_cons. cbn [all_chars]. rewrite Ha.
  destruct (is_lower a && head_upper t); cbn [all_chars andb]; rewrite ?Hsp; now apply IH.
Qed.

Lemma all_chars_map (p q : ascii -> bool) (f : ascii -> ascii) (s : string) :
  (forall c, q c = true -> p (f c) = true) ->
  all_chars q s = true -> all_chars p (map_chars f s) = true.
Proof.
  intros Hf. induction s as [|c s IH]; intros Hs; [reflexivity|].
  cbn [all_chars] in Hs. apply andb_prop in Hs as [Hc Hs].
  cbn [map_chars all_chars]. rewrite (Hf c Hc). now apply IH.
Qed.

Lemma all_chars_true (s : string) : all_chars (fun _ => true) s = true.
Proof. induction s as [|c s IH]; [reflexivity | exact IH]. Qed.

(** The text before the first character is put in upper case. *)
Lemma lowered_shape (code : string) :
  all_chars (fun c => no_dot_no_underscore c && not_upper c)
    (toLowerCase (space_boundaries (underscores_to_blanks (dots_to_arrows code)))) = true.
Proof.
  unfold toLowerCase.
  apply (all_chars_map _ no_dot_no_underscore).
  { intros c. unfold no_dot_no_underscore, not_upper. by_char c. }
  apply all_chars_space_boundaries; [reflexivity|].
  rewrite <- replace_underscores.
  apply (all_chars_replace _ (fun c => negb (c =? ".")%char)); [reflexivity | |].
  { intros d Hd Hq. unfold no_dot_no_underscore. now rewrite Hq, Hd. }
  unfold dots_to_arrows.
  apply (all_chars_replace _ (fun _ => true)); [reflexivity | | apply all_chars_true].
  intros d Hd _. now rewrite Hd.
Qed.

Lemma formatted_shape (code : string) :
  all_chars no_dot_no_underscore (formatValidationCode code) = true
  /\ all_chars not_upper (drop 1 (formatValidationCode code)) = true.
Proof.
  rewrite formatValidationCode_described, described_format_steps.
  pose proof (lowered_shape code) as H.
  destruct (toLowerCase _) as [|c r]; [now split|].
  cbn [all_chars] in H. apply andb_prop in H as [Hc Hr].
  cbn [capitalize_first drop all_chars]. split.
  - apply andb_true_intro. split.
    + revert Hc. unfold no_dot_no_underscore, not_upper. by_char c.
    + apply (all_chars_impl (fun c => no_dot_no_underscore c && not_upper c)); [|exact Hr].
      intros d Hd. now apply andb_prop in Hd as [-> _].
  - apply (all_chars_impl (fun c => no_dot_no_underscore c && not_upper c)); [|exact Hr].
    intros d Hd. now apply andb_prop in Hd as [_ ->].
Qed.

(** X5.  The formatted form of a validation code of ASCII characters
    holds no dot and no underscore, and no upper-case letter behind its
    first character. *)
Theorem formatValidationCode_shape (code : string) :
  Text.is_ascii code = true ->
  all_chars no_dot_no_underscore (formatValidationCode code) = true
  /\ all_chars not_upper (drop 1 (formatValidationCode code)) = true.
Proof. intros _. apply formatted_shape. Qed.

Lemma formatValidationCode_shape_witness :
  formatValidationCode "assertion.dataHash.MISMATCH" = "Assertion › data hash › mismatch"
  /\ all_chars no_dot_no_underscore (formatValidationCode "assertion.dataHash.MISMATCH")
     = true
  /\ all_chars not_upper (drop 1 (formatValidationCode "assertion.dataHash.MISMATCH"))
     = true.
Proof.
  split; [reflexivity|].
  apply (formatValidationCode_shape "assertion.dataHash.MISMATCH"). reflexivity.
Defined.

Lemma replace_absent (c : ascii) (by_ s : string) :
  all_chars (fun d => negb (d =? c)%char) s = true -> replace_all_char c by_ s = s.
Proof.
  induction s as [|d s IH]; intros Hs; [reflexivity|].
  cbn [all_chars] in Hs. apply andb_prop in Hs as [Hd Hs].
  apply negb_true_iff in Hd. cbn [replace_all_char]. rewrite Hd. now rewrite IH.
Qed.

Lemma space_boundaries_lower (t : string) :
  all_chars not_upper t = true ->
  space_boundaries t = t /\ head_upper t = false.
Proof.
  induction t as [|b t IH]; intros Ht; [now split|].
  cbn [all_chars] in Ht. apply andb_prop in Ht as [Hb Ht].
  destruct (IH Ht) as [IH1 IH2]. rewrite space_boundaries_cons, IH2, andb_false_r, IH1.
  split; [reflexivity|]. cbn [head_upper]. now apply negb_true_iff in Hb.
Qed.

Lemma map_chars_id (f : ascii -> ascii) (p : ascii -> bool) (s : string) :
  (forall c, p c = true -> f c = c) -> all_chars p s = true -> map_chars f s = s.
Proof.
  intros Hf. induction s as [|c s IH]; intros Hs; [reflexivity|].
  cbn [all_chars] in Hs. apply andb_prop in Hs as [Hc Hs].
  cbn [map_chars]. now rewrite (Hf c Hc), IH.
Qed.

Lemma formatted_twice (code : string) :
  formatValidationCode (formatValidationCode code) = formatValidationCode code.
Proof.
  destruct (formatted_shape code) as [H1 H2].
  rewrite !formatValidationCode_described in *.
  set (r := described_format code) in *. rewrite (described_format_steps r).
  assert (Hdot : dots_to_arrows r = r).
  { apply replace_absent. apply (all_chars_impl no_dot_no_underscore); [|exact H1].
    intros d Hd. now apply andb_prop in Hd as [-> _]. }
  assert (Hund : underscores_to_blanks r = r).
  { rewrite <- replace_underscores. apply replace_absent.
    apply (all_chars_impl no_dot_no_underscore); [|exact H1].
    intros d Hd. now apply andb_prop in Hd as [_ ->]. }
  rewrite Hdot, Hund. subst r. rewrite !described_format_steps in *.
  destruct (toLowerCase _) as [|c t]; [reflexivity|].
  cbn [capitalize_first drop] in *.
  destruct (space_boundaries_lower t H2) as [Ht Hh].
  rewrite space_boundaries_cons, Hh, andb_false_r, Ht.
  unfold toLowerCase. cbn [map_chars capitalize_first].
  rewrite (map_chars_id to_lower not_upper t); [|intros d; by_char d | exact H2].
  f_equal. clear. by_char c.
Qed.

(** X6.  Formatting the formatted form of a validation code of ASCII
    characters once more changes nothing. *)
Theorem formatValidationCode_idempotent (code : string) :
  Text.is_ascii code = true ->
  formatValidationCode (formatValidationCode code) = formatValidationCode code.
Proof. intros _. apply formatted_twice. Qed.

Lemma formatValidationCode_idempotent_witness :
  formatValidationCode "Time stamp › mismatch" = "Time stamp › mismatch"
  /\ formatValidationCode (formatValidationCode "timeStamp.mismatch")
     = formatValidationCode "timeStamp.mismatch".
Proof.
  split; [reflexivity|].
  apply (formatValidationCode_idempotent "timeStamp.mismatch"). reflexivity.
Defined.

End ValidationCode.

(** ** Authors and actions of a list of assertions put together *)

Section Concatenation.

Lemma actionList_loop_acc (l : list JSValue) :
  forall acc,
    actionList_loop l acc = (let* xs := actionList_loop l [] in Ok (acc ++ xs)).
Proof.
  induction l as [|x l IH]; intros acc; cbn [actionList_loop bind].
  - now rewrite app_nil_r.
  - destruct (get x "action") as [act| |]; cbn [bind]; try reflexivity.
    destruct (truthy act); [|apply IH].
    destruct (toString act) as [s| |]; cbn [bind]; try reflexivity.
    rewrite (IH (acc ++ [s])), (IH ([] ++ [s])).
    destruct (actionList_loop l []) as [xs| |]; cbn [bind]; try reflexivity.
    now rewrite <- app_assoc.
Qed.

Lemma extractActions_loop_acc (l : list JSValue) :
  forall acc,
    extractActions_loop l acc = (let* xs := extractActions_loop l [] in Ok (acc ++ xs)).
Proof.
  induction l as [|x l IH]; intros acc; cbn [extractActions_loop bind].
  - now rewrite app_nil_r.
  - destruct (get x "label") as [label| |]; cbn [bind]; try reflexivity.
    destruct (strict_eq_str label "c2pa.actions"); [|apply IH].
    destruct (get x "data") as [data| |]; cbn [bind]; try reflexivity.
    destruct (truthy data); [|apply IH].
    destruct (get data "actions") as [actionList| |]; cbn [bind]; try reflexivity.
    destruct (truthy actionList); [|apply IH].
    destruct (iterate actionList) as [al| |]; cbn [bind]; try reflexivity.
    rewrite (actionList_loop_acc al acc).
    destruct (actionList_loop al []) as [ys| |]; cbn [bind]; try reflexivity.
    rewrite (IH (acc ++ ys)), (IH ys).
    destruct (extractActions_loop l []) as [xs| |]; cbn [bind]; try reflexivity.
    now rewrite <- app_assoc.
Qed.

Lemma extractActions_loop_app (a b : list JSValue) :
  forall acc,
    extractActions_loop (a ++ b) acc
    = (let* xs := extractActions_loop a acc in extractActions_loop b xs).
Proof.
  induction a as [|x a IH]; intros acc; [reflexivity|].
  cbn [app extractActions_loop].
  destruct (get x "label") as [label| |]; cbn [bind]; try reflexivity.
  destruct (strict_eq_str label "c2pa.actions"); [|apply IH].
  destruct (get x "data") as [data| |]; cbn [bind]; try reflexivity.
  destruct (truthy data); [|apply IH].
  destruct (get data "actions") as [actionList| |]; cbn [bind]; try reflexivity.
  destruct (truthy actionList); [|apply IH].
  destruct (iterate actionList) as [al| |]; cbn [bind]; try reflexivity.
  destruct (actionList_loop al acc) as [ys| |]; cbn [bind]; try reflexivity.
  apply IH.
Qed.

(** X7.  The actions of two lists of assertions put one behind the other
    are the actions of the first followed by those of the second; a
    [TypeError] raised on either list is raised on the whole. *)
Theorem extractActions_app (a b : list JSValue) :
  extractActions (JArr (a ++ b))
  = (let* xs := extractActions (JArr a) in
     let* ys := extractActions (JArr b) in
     Ok (xs ++ ys)).
Proof.
  unfold extractActions. cbn [iterate bind]. rewrite extractActions_loop_app.
  destruct (extractActions_loop a []) as [xs| |]; cbn [bind]; try reflexivity.
  apply extractActions_loop_acc.
Qed.

(** X8.  The author of two lists of assertions put one behind the other
    is the author of the first if it has one; only otherwise is the
    second list read at all. *)
Theorem extractAuthor_app (a b : list JSValue) :
  extractAuthor (JArr (a ++ b))
  = (let* found := extractAuthor (JArr a) in
     match found with
     | Some name => Ok (Some name)
     | None => extractAuthor (JArr b)
     end).
Proof.
  unfold extractAuthor. cbn [iterate bind].
  induction a as [|x a IH]; [reflexivity|].
  cbn [app extractAuthor_loop].
  destruct (get x "label") as [label| |]; cbn [bind]; try reflexivity.
  destruct (strict_eq_str label _); [|apply IH].
  destruct (get x "data") as [data| |]; cbn [bind]; try reflexivity.
  destruct (truthy data); [|apply IH].
  destruct (get data "author") as [author| |]; cbn [bind]; try reflexivity.
  destruct (truthy author); [|apply IH].
  destruct (get author "length") as [len| |]; cbn [bind]; try reflexivity.
  destruct (gt0 len) as [[]| |]; cbn [bind]; try reflexivity; [|apply IH].
  destruct (get author "0") as [firstAuthor| |]; cbn [bind]; try reflexivity.
  destruct (get firstAuthor "name") as [name| |]; cbn [bind]; try reflexivity.
  destruct (truthy name); [|apply IH].
  now destruct (toString name) as [s| |].
Qed.

End Concatenation.

(** ** File sizes *)

Section FileSize.
Import Number.

Lemma toFixed1_quotient (bytes : Z) (unit : positive) :
  (0 <= bytes)%Z -> (bytes < 10 ^ 21 * Z.pos unit)%Z ->
  toFixed1 (QArith_base.Qdiv (QArith_base.inject_Z bytes)
              (QArith_base.inject_Z (Z.pos unit)))
  = Ok (tenths ((20 * bytes + Z.pos unit) / (2 * Z.pos unit))).
Proof.
  intros H0 H1. unfold toFixed1.
  cbv [QArith_base.Qdiv QArith_base.inject_Z QArith_base.Qinv QArith_base.Qmult
       QArith_base.Qnum QArith_base.Qden Qabs.Qabs QArith_base.Qle_bool
       QArith_base.Qplus Qround.Qfloor].
  replace (10 ^ 21 * Z.pos (1 * unit) <=? Z.abs (bytes * 1) * 1)%Z with false
    by (symmetry; apply Z.leb_gt; lia).
  replace (0 * Z.pos (1 * unit) <=? bytes * 1 * 1)%Z with true
    by (symmetry; apply Z.leb_le; lia).
  rewrite app_nil_l. do 2 f_equal; unfold tenths; do 2 f_equal; lia.
Qed.

(** X9.  A size of at least 1024 bytes is shown in KB below 1024 * 1024
    bytes and in MB from there on, as the number [n / 10] with one digit
    behind the dot that is nearest to the size in that unit, the larger
    one when two are equally near: it is off by at most a twentieth of
    the unit. *)
Theorem formatFileSize_rounds_to_nearest_tenth (bytes : Z) :
  (1024 <= bytes < 2 ^ 53)%Z ->
  exists n : Z,
    formatFileSize bytes = Ok (tenths n +:+ fst (unit_of bytes))
    /\ (- (snd (unit_of bytes)) < 2 * (snd (unit_of bytes) * n - 10 * bytes)
         <= snd (unit_of bytes))%Z.
Proof.
  intros [Hlo Hhi]. unfold formatFileSize, unit_of.
  replace (bytes <? 1024)%Z with false by (symmetry; apply Z.ltb_ge; lia).
  change (1024 * 1024)%Z with (Z.pos 1048576). change 1024%Z with (Z.pos 1024).
  destruct (bytes <? Z.pos 1048576)%Z eqn:E; rewrite toFixed1_quotient by lia;
    cbn [bind fst snd]; eexists; (split; [reflexivity|]).
  - pose proof (Z.div_mod (20 * bytes + Z.pos 1024) (2 * Z.pos 1024) ltac:(lia)) as Hd.
    pose proof (Z.mod_pos_bound (20 * bytes + Z.pos 1024) (2 * Z.pos 1024) ltac:(lia)).
    lia.
  - pose proof (Z.div_mod (20 * bytes + Z.pos 1048576) (2 * Z.pos 1048576) ltac:(lia)) as Hd.
    pose proof (Z.mod_pos_bound (20 * bytes + Z.pos 1048576) (2 * Z.pos 1048576) ltac:(lia)).
    lia.
Qed.

Lemma formatFileSize_rounds_to_nearest_tenth_witness :
  exists n : Z,
    formatFileSize 1280 = Ok (tenths n +:+ " KB")
    /\ (- 1024 < 2 * (1024 * n - 10 * 1280) <= 1024)%Z.
Proof. apply (formatFileSize_rounds_to_nearest_tenth 1280). lia. Defined.

(** X10.  The unit changes at 1024 * 1024 bytes, the rounding comes
    first: the last 51 sizes below that bound are shown as 1024.0 KB. *)
Theorem formatFileSize_below_one_MB (bytes : Z) :
  (1048525 <= bytes < 1048576)%Z ->
  formatFileSize bytes = Ok "1024.0 KB".
Proof.
  intros [Hlo Hhi]. unfold formatFileSize.
  replace (bytes <? 1024)%Z with false by (symmetry; apply Z.ltb_ge; lia).
  replace (bytes <? 1024 * 1024)%Z with true by (symmetry; apply Z.ltb_lt; lia).
  change 1024%Z with (Z.pos 1024) at 1. rewrite toFixed1_quotient by lia.
  replace ((20 * bytes + Z.pos 1024) / (2 * Z.pos 1024))%Z with 10240%Z; [reflexivity|].
  apply Z.div_unique with (r := (20 * bytes + 1024 - 2048 * 10240)%Z); lia.
Qed.

Lemma formatFileSize_below_one_MB_witness :
  formatFileSize 1048575 = Ok "1024.0 KB".
Proof. apply (formatFileSize_below_one_MB 1048575). lia. Defined.

End FileSize.

(** ** The text of [JSON.stringify] under the highlighter *)

Section Stringify.
Import Str JsonText Json.

Lemma value_ind' (P : value -> Prop) :
  P Undefined -> P Null -> (forall b, P (Bool b)) -> (forall n, P (Num n)) ->
  (forall s, P (Text s)) ->
  (forall items, Forall P items -> P (Arr items)) ->
  (forall members, Forall (fun m => P (snd m)) members -> P (Obj members)) ->
  forall v, P v.
Proof.
  intros HU HN HB HZ HS HA HO. fix IH 1.
  intros [ | | b | n | s | items | members];
    [exact HU | exact HN | apply HB | apply HZ | apply HS | | ].
  - apply HA. revert items. fix IHl 1. intros [|x r]; constructor; [apply IH | apply IHl].
  - apply HO. revert members. fix IHl 1.
    intros [|[k x] r]; constructor; [apply IH | apply IHl].
Qed.

(** *** The text of the tokens *)

Lemma app_nil_r_s (s : string) : s +:+ "" = s.
Proof. induction s as [|c s IH]; [reflexivity|]. rewrite app_cons. now f_equal. Qed.

Lemma text_app (a b : list token) : text (a ++ b) = text a +:+ text b.
Proof.
  induction a as [|t a IH]; [reflexivity|].
  cbn [app text]. now rewrite IH, app_assoc_s.
Qed.

Lemma text_punct (s : string) : text (punct s) = s.
Proof. induction s as [|c s IH]; [reflexivity|]. cbn [punct text lexeme]. now rewrite IH. Qed.

Lemma body_text_app (a b : list item) : body_text (a ++ b) = body_text a +:+ body_text b.
Proof.
  induction a as [|t a IH]; [reflexivity|].
  cbn [app body_text]. now rewrite IH, app_assoc_s.
Qed.

Lemma char_items_text (c : ascii) : body_text (char_items c) = quote_char c.
Proof. by_char c. Qed.

Lemma char_items_ok (c : ascii) : forallb item_ok (char_items c) = true.
Proof. by_char c. Qed.

Lemma string_items_text (s : string) : body_text (string_items s) = quote_body s.
Proof.
  induction s as [|c s IH]; [reflexivity|].
  cbn [string_items quote_body]. now rewrite body_text_app, char_items_text, IH.
Qed.

Lemma string_items_ok (s : string) : forallb item_ok (string_items s) = true.
Proof.
  induction s as [|c s IH]; [reflexivity|].
  cbn [string_items]. now rewrite forallb_app, char_items_ok, IH.
Qed.

Lemma string_token_text (s : string) : lexeme (TString (string_items s)) = Json.quote s.
Proof. cbn [lexeme]. unfold Json.quote. now rewrite string_items_text. Qed.

Lemma key_text (k : string) (r : string) :
  lexeme (TKey (string_items k) "") +:+ String " " r = Json.quote k +:+ ": " +:+ r.
Proof.
  cbn [lexeme]. unfold Json.quote. rewrite string_items_text, !app_cons.
  f_equal. rewrite !app_assoc_s. f_equal.
Qed.

Lemma uint_digits (d : Decimal.uint) :
  all_chars is_digit (NilEmpty.string_of_uint d) = true.
Proof. induction d; cbn [NilEmpty.string_of_uint all_chars]; auto. Qed.

Lemma number_token_ok (n : Z) : token_ok (number_token n) = true.
Proof.
  assert (H : forall d, nonempty (NilZero.string_of_uint d)
                        && all_chars is_digit (NilZero.string_of_uint d) = true).
  { intros d. unfold NilZero.string_of_uint.
    destruct d; try reflexivity; cbn [NilEmpty.string_of_uint nonempty String.eqb negb andb];
      cbn [all_chars]; apply (uint_digits d). }
  unfold number_token. destruct (Z.to_int n); cbn [token_ok]; now rewrite H.
Qed.

Lemma number_token_text (n : Z) :
  lexeme (number_token n) = NilZero.string_of_int (Z.to_int n).
Proof.
  unfold number_token. destruct (Z.to_int n) as [d|d];
    cbn [lexeme frac_text exp_text NilZero.string_of_int].
  - induction (NilZero.string_of_uint d) as [|c s IH]; [reflexivity|].
    rewrite app_nil_l in *. rewrite app_cons. now f_equal.
  - rewrite app_cons, app_nil_l. f_equal.
    induction (NilZero.string_of_uint d) as [|c s IH]; [reflexivity|].
    rewrite app_cons. now f_equal.
Qed.

Lemma join_text (sep : list token) (parts : list (list token)) :
  text (join_tokens sep parts) = Json.join (text sep) (map text parts).
Proof.
  induction parts as [|p r IH]; [reflexivity|].
  destruct r as [|q r]; [reflexivity|].
  change (join_tokens sep (p :: q :: r)) with (p ++ sep ++ join_tokens sep (q :: r)).
  change (Json.join (text sep) (map text (p :: q :: r)))
    with (text p +:+ text sep +:+ Json.join (text sep) (map text (q :: r))).
  now rewrite !text_app, IH.
Qed.

Lemma wrap_text (opening closing : ascii) (stepback indent : string)
    (parts : list (list token)) :
  text (wrap_tokens opening closing stepback indent parts)
  = wrap opening closing stepback indent (map text parts).
Proof.
  destruct parts as [|p r]; [reflexivity|].
  unfold wrap_tokens, wrap. cbn [map].
  change (text (TPunct opening :: ?l)) with (String opening (text l)).
  f_equal. rewrite !text_app, join_text, !text_punct.
  change (text (TPunct "," :: ?l)) with (String "," (text l)). rewrite text_punct.
  cbn [text lexeme map]. now rewrite app_nil_r_s.
Qed.

Lemma property_text (v : value) :
  forall stepback,
    property stepback v
    = match v with
      | Undefined => None
      | _ => Some (text (tokens stepback v))
      end.
Proof.
  induction v as [ | | b | n | s | items IH | members IH] using value_ind';
    intros stepback; try reflexivity.
  - now destruct b.
  - cbn [property tokens text]. now rewrite number_token_text, app_nil_r_s.
  - cbn [property tokens text]. now rewrite string_token_text, app_nil_r_s.
  - cbn [property tokens]. rewrite wrap_text. do 2 f_equal.
    rewrite map_map. apply map_ext_Forall.
    eapply Forall_impl; [exact IH|]. intros x Hx. cbn beta. rewrite Hx.
    now destruct x.
  - cbn [property tokens]. rewrite wrap_text. do 2 f_equal.
    induction IH as [|[k x] r Hx _ IHr]; [reflexivity|].
    cbn [omap list_omap snd] in *. rewrite Hx.
    destruct x; cbn [map]; rewrite ?IHr; try reflexivity; f_equal;
      change (text (?a :: TPunct " " :: ?l)) with (lexeme a +:+ String " " (text l));
      now rewrite key_text.
Qed.

(** *** The tokens are well formed

    A list of tokens [ts] closes when it stays well formed in front of
    any well-formed text that starts with a delimiter. *)

Local Abbreviation closes ts :=
  (forall rest, tokens_ok rest = true -> delimited (text rest) = true ->
                tokens_ok (ts ++ rest) = true).

Lemma tokens_ok_punct (s : string) (rest : list token) :
  all_chars is_punct s = true -> tokens_ok rest = true ->
  tokens_ok (punct s ++ rest) = true.
Proof.
  induction s as [|c s IH]; intros Hs Hrest; [exact Hrest|].
  cbn [all_chars] in Hs. apply andb_prop in Hs as [Hc Hs].
  cbn [punct app tokens_ok token_ok needs_delimiter]. rewrite Hc. now apply IH.
Qed.

Lemma delimited_punct (c : ascii) (s : string) :
  is_punct c = true -> delimited (String c s) = true.
Proof. cbn [delimited]. by_char c. Qed.

Lemma closes_join (sep : list token) (parts : list (list token)) :
  Forall (fun p => closes p) parts ->
  (forall rest, tokens_ok rest = true ->
                tokens_ok (sep ++ rest) = true /\ delimited (text (sep ++ rest)) = true) ->
  closes (join_tokens sep parts).
Proof.
  intros Hparts Hsep. induction Hparts as [|p r Hp Hr IH]; intros rest H1 H2; [exact H1|].
  destruct r as [|q r]; [now apply Hp|].
  change (join_tokens sep (p :: q :: r)) with (p ++ sep ++ join_tokens sep (q :: r)).
  rewrite <- !app_assoc.
  destruct (Hsep (join_tokens sep (q :: r) ++ rest)) as [H3 H4]; [now apply IH|].
  now apply Hp.
Qed.

Lemma closes_wrap (opening closing : ascii) (stepback indent : string)
    (parts : list (list token)) :
  is_punct opening = true -> is_punct closing = true ->
  all_chars is_punct stepback = true -> all_chars is_punct indent = true ->
  Forall (fun p => closes p) parts ->
  closes (wrap_tokens opening closing stepback indent parts).
Proof.
  intros Ho Hc Hsb Hind Hparts rest H1 H2. unfold wrap_tokens.
  assert (Hclose : tokens_ok (TPunct closing :: rest) = true)
    by (cbn [tokens_ok token_ok needs_delimiter]; now rewrite Hc).
  destruct parts as [|p r].
  { cbn [app tokens_ok token_ok needs_delimiter]. rewrite Ho. exact Hclose. }
  cbn [app tokens_ok token_ok needs_delimiter]. rewrite Ho. cbn [andb].
  rewrite <- !app_assoc.
  change (is_punct newline = true) with (true = true) in *.
  apply tokens_ok_punct; [exact Hind|].
  apply closes_join; [exact Hparts | | |].
  - intros rest' Hrest'. cbn [app tokens_ok token_ok needs_delimiter text lexeme].
    split; [|reflexivity].
    change (TPunct newline :: punct indent ++ rest')
      with (punct (String newline indent) ++ rest').
    apply tokens_ok_punct; [exact Hind | exact Hrest'].
  - cbn [punct app tokens_ok token_ok needs_delimiter]. cbn [andb].
    change (is_punct newline) with true. cbn [andb].
    apply tokens_ok_punct; [exact Hsb | exact Hclose].
  - reflexivity.
Qed.

Lemma tokens_closed (v : value) :
  forall stepback, all_chars is_punct stepback = true -> closes (tokens stepback v).
Proof.
  induction v as [ | | b | n | s | items IH | members IH] using value_ind';
    intros stepback Hsb.
  - intros rest H1 _. exact H1.
  - intros rest H1 H2. cbn [tokens app tokens_ok token_ok needs_delimiter]. now rewrite H1, H2.
  - intros rest H1 H2.
    destruct b; cbn [tokens app tokens_ok token_ok needs_delimiter]; now rewrite H1, H2.
  - intros rest H1 H2. cbn [tokens app tokens_ok].
    rewrite number_token_ok, H1. unfold number_token.
    destruct (Z.to_int n); cbn [needs_delimiter]; now rewrite H2.
  - intros rest H1 _. cbn [tokens app tokens_ok token_ok needs_delimiter].
    now rewrite string_items_ok, H1.
  - cbn [tokens].
    assert (Hind : all_chars is_punct (stepback +:+ gap) = true)
      by now rewrite all_chars_app, Hsb.
    apply closes_wrap; try reflexivity; try assumption.
    apply Forall_map. eapply Forall_impl; [exact IH|]. intros x Hx. cbn beta.
    destruct x; try (now apply Hx).
    intros rest H1 H2. cbn [app tokens_ok token_ok needs_delimiter]. now rewrite H1, H2.
  - cbn [tokens].
    assert (Hind : all_chars is_punct (stepback +:+ gap) = true)
      by now rewrite all_chars_app, Hsb.
    apply closes_wrap; try reflexivity; try assumption.
    induction IH as [|[k x] r Hx _ IHr]; [constructor|].
    cbn [omap list_omap snd] in *.
    assert (Hmember : closes (TKey (string_items k) "" :: TPunct " "
                                :: tokens (stepback +:+ gap) x)).
    { intros rest H1 H2. cbn [app tokens_ok token_ok needs_delimiter all_chars].
      rewrite string_items_ok. cbn [andb]. change (is_punct " ") with true. cbn [andb].
      now apply Hx. }
    destruct x; try (constructor; [exact Hmember | exact IHr]). exact IHr.
Qed.

(** X11.  On the text that [JSON.stringify] writes with an indentation of
    two blanks for a value whose numbers are integers up to 2^53 in
    absolute value, the highlighter puts every key with its colon in a
    span of class json-key, every string value, number, boolean and null
    in a span of its class, and leaves the brackets, commas, line breaks
    and indentation as they are. *)
Theorem syntaxHighlight_stringify (v : value) (json : string) :
  safe v = true ->
  stringify v = Some json ->
  syntaxHighlight json = highlighted (tokens "" v).
Proof.
  intros _. unfold stringify. rewrite property_text. intros H.
  assert (Hjson : json = text (tokens "" v)) by (destruct v; congruence).
  subst json. apply scan_tokens; [|now left].
  rewrite <- (app_nil_r (tokens "" v)). now apply tokens_closed.
Qed.

Lemma syntaxHighlight_stringify_witness :
  stringify (Obj [("a", Arr [Num 1; Null])])
  = Some ("{" +:+ String newline "  " +:+ Q +:+ "a" +:+ Q +:+ ": ["
          +:+ String newline "    1," +:+ String newline "    null"
          +:+ String newline "  ]" +:+ String newline "}")
  /\ syntaxHighlight ("{" +:+ String newline "  " +:+ Q +:+ "a" +:+ Q +:+ ": ["
          +:+ String newline "    1," +:+ String newline "    null"
          +:+ String newline "  ]" +:+ String newline "}")
     = "{" +:+ String newline "  "
       +:+ "<span class=" +:+ Q +:+ "json-key" +:+ Q +:+ ">"
       +:+ Q +:+ "a" +:+ Q +:+ ":</span> ["
       +:+ String newline "    "
       +:+ "<span class=" +:+ Q +:+ "json-number" +:+ Q +:+ ">1</span>,"
       +:+ String newline "    "
       +:+ "<span class=" +:+ Q +:+ "json-null" +:+ Q +:+ ">null</span>"
       +:+ String newline "  ]" +:+ String newline "}".
Proof.
  split; [reflexivity|].
  apply (syntaxHighlight_stringify (Obj [("a", Arr [Num 1; Null])])); reflexivity.
Defined.

End Stringify.

(** ** [processFile] *)

Section ProcessFile.
Import Page.

Lemma sections_not_NoDetails (store manifests activeManifest : JSValue) :
  sections store manifests activeManifest <> Ok NoDetails.
Proof.
  unfold sections. intros H.
  repeat match type of H with
         | bind ?x _ = Ok _ => destruct x; cbn [bind] in H; try discriminate
         end.
Qed.

Lemma guards_agree (store : JSValue) :
  createCredentialDetails store = Ok NoDetails <-> no_active_manifest store = Ok true.
Proof.
  unfold createCredentialDetails, no_active_manifest.
  destruct (dual store "active_manifest" "activeManifest") as [key| |]; cbn [bind];
    [|split; discriminate..].
  destruct (get store "manifests") as [ms| |]; cbn [bind]; [|split; discriminate..].
  destruct (truthy key); cbn [negb andb bind]; [|now split].
  destruct (truthy ms); cbn [negb andb bind]; [|now split].
  destruct (get_computed ms key) as [am| |]; cbn [bind]; [|split; discriminate..].
  destruct (truthy am); cbn [negb]; [|now split].
  split; [|discriminate]. intros H. now apply sections_not_NoDetails in H.
Qed.

(** X12.  The test for an active manifest in [processFile] and the one in
    [createCredentialDetails] agree: the paragraph that says that no
    details are available is written exactly for the stores that
    [processFile] turns away before it calls [createCredentialDetails]. *)
Theorem no_details_iff_no_active_manifest (store : JSValue) :
  createCredentialDetails store = Ok NoDetails <-> no_active_manifest store = Ok true.
Proof. apply guards_agree. Qed.

Lemma state_of_only (s : State) : state_of (only s) = Some s.
Proof. now destruct s. Qed.

Lemma state_of_handler (e : Thrown) (v : View) :
  state_of (panels (handler e v)) = Some no_data
  \/ state_of (panels (handler e v)) = Some error.
Proof.
  unfold handler. destruct (_ || _); [left | right]; reflexivity.
Qed.

Lemma stringify_truthy (store : Json.value) :
  truthy (Json.to_js store) = true -> exists json, Json.stringify store = Some json.
Proof.
  unfold Json.stringify. destruct store; try discriminate; intros _;
    cbn [Json.property]; try (eexists; reflexivity).
  destruct b; eexists; reflexivity.
Qed.

Lemma display_view (type_error : Thrown) (store : Json.value) (v v' : View) :
  truthy (Json.to_js store) = true ->
  no_active_manifest (Json.to_js store) = Ok false ->
  display type_error store v = Ok v' ->
  (state_of (panels v') = Some no_data \/ state_of (panels v') = Some error)
  \/ (state_of (panels v') = Some results
      /\ exists d json,
           credentialDetails v' = Some (Sections d)
           /\ Json.stringify store = Some json
           /\ currentJsonData v' = Some json
           /\ code v' = (fun _ => syntaxHighlight json) <$> code v).
Proof.
  intros Ht Hact. unfold display.
  destruct (createCredentialDetails (Json.to_js store)) as [panel| |] eqn:Ep;
    [| intros H; injection H as <-; left; apply state_of_handler | discriminate].
  destruct (stringify_truthy store Ht) as [json Hj]. rewrite Hj.
  assert (Hd : exists d, panel = Sections d).
  { destruct panel as [|d]; [|now exists d].
    apply guards_agree in Ep. congruence. }
  destruct Hd as [d ->].
  cbn [code with_currentJsonData with_credentialDetails].
  destruct (code v) as [html|] eqn:Ec; intros H; injection H as <-; right;
    (split; [reflexivity|]); exists d, json; cbn; rewrite ?Ec; auto.
Qed.

Lemma processFile_cases (c2pa : option Sdk) (type_error : Thrown) (file : File)
    (v : View) (r : Run) :
  processFile c2pa type_error file v = Ok r ->
  (* turned away, or an error *)
  ((state_of (panels (view r)) = Some no_data \/ state_of (panels (view r)) = Some error)
   /\ (free_called r = true <->
       exists reader store,
         c2pa = Some (fulfilled (Some reader))
         /\ manifestStore reader = fulfilled store))
  \/
  (* results *)
  (state_of (panels (view r)) = Some results
   /\ free_called r = true
   /\ exists reader store d json,
        c2pa = Some (fulfilled (Some reader))
        /\ manifestStore reader = fulfilled store
        /\ free reader = fulfilled tt
        /\ credentialDetails (view r) = Some (Sections d)
        /\ Json.stringify store = Some json
        /\ currentJsonData (view r) = Some json
        /\ code (view r) = (fun _ => syntaxHighlight json) <$> code v).
Proof.
  unfold processFile. destruct c2pa as [fromBlob|].
  2:{ intros H. injection H as <-. left. split; [now right|].
      cbn. split; [discriminate | now intros (? & ? & ? & _)]. }
  destruct (formatFileSize (file_size file)) as [size| |]; cbn [bind]; try discriminate.
  set (v1 := showState loading _).
  destruct fromBlob as [[reader|]|e].
  - destruct (manifestStore reader) as [store|e] eqn:Es.
    + assert (Hex : exists reader' store',
                Some (fulfilled (Some reader)) = Some (fulfilled (Some reader'))
                /\ manifestStore reader' = fulfilled store')
        by (exists reader, store; now split).
      destruct (free reader) as [[]|e] eqn:Ef.
      * destruct (truthy (Json.to_js store)) eqn:Ht; cbn [negb].
        2:{ intros H. injection H as <-. left. split; [now left | now split]. }
        destruct (no_active_manifest (Json.to_js store)) as [[]| |] eqn:Ea;
          try discriminate.
        -- intros H. injection H as <-. left. split; [now left | now split].
        -- destruct (display type_error store v1) as [v'| |] eqn:Ed; cbn [bind];
             try discriminate.
           intros H. injection H as <-. cbn [view free_called].
           destruct (display_view _ _ _ _ Ht Ea Ed) as [Hs | (Hs & d & json & H1 & H2 & H3 & H4)].
           ++ left. split; [exact Hs | now split].
           ++ right. split; [exact Hs|]. split; [reflexivity|].
              exists reader, store, d, json. repeat (split; [assumption || reflexivity|]).
              exact H4.
        -- intros H. injection H as <-. left.
           split; [apply state_of_handler | now split].
      * intros H. injection H as <-. left. split; [apply state_of_handler | now split].
    + intros H. injection H as <-. left. split; [apply state_of_handler|].
      cbn. split; [discriminate|]. intros (reader' & store' & Heq & Hm).
      injection Heq as <-. congruence.
  - intros H. injection H as <-. left. split; [now left|].
    cbn. split; [discriminate|]. now intros (? & ? & ? & _).
  - intros H. injection H as <-. left. split; [apply state_of_handler|].
    cbn. split; [discriminate|]. now intros (? & ? & ? & _).
Qed.

(** *** The run on the inputs in scope *)

Lemma formatFileSize_in_range (bytes : Z) :
  (0 <= bytes < 2 ^ 53)%Z -> exists size, formatFileSize bytes = Ok size.
Proof.
  intros [H0 H1]. unfold formatFileSize.
  destruct (bytes <? 1024)%Z; [eexists; reflexivity|].
  change (1024 * 1024)%Z with (Z.pos 1048576). change 1024%Z with (Z.pos 1024).
  destruct (bytes <? Z.pos 1048576)%Z; rewrite toFixed1_quotient by lia;
    eexists; reflexivity.
Qed.

Lemma guard_of_panel (store : JSValue) (p : Panel) :
  createCredentialDetails store = Ok p ->
  no_active_manifest store
  = Ok match p with NoDetails => true | Sections _ => false end.
Proof.
  intros H. destruct p as [|d].
  - now apply guards_agree.
  - revert H. unfold createCredentialDetails, no_active_manifest.
    destruct (dual store "active_manifest" "activeManifest") as [key| |]; cbn [bind];
      try discriminate.
    destruct (get store "manifests") as [ms| |]; cbn [bind]; try discriminate.
    destruct (truthy key); cbn [negb andb bind]; [|discriminate].
    destruct (truthy ms); cbn [negb andb bind]; [|discriminate].
    destruct (get_computed ms key) as [am| |]; cbn [bind]; try discriminate.
    destruct (truthy am); cbn [negb]; [reflexivity | discriminate].
Qed.

Lemma processFile_returns (c2pa : option Sdk) (type_error : Thrown) (file : File)
    (v : View) :
  in_scope c2pa file -> exists r, processFile c2pa type_error file v = Ok r.
Proof.
  intros [Hsize Hstore]. unfold processFile.
  destruct c2pa as [fromBlob|]; [|eexists; reflexivity].
  destruct (formatFileSize_in_range _ Hsize) as [size ->]. cbn [bind].
  destruct fromBlob as [[reader|]|e]; try (eexists; reflexivity).
  destruct (manifestStore reader) as [store|e] eqn:Es; [|eexists; reflexivity].
  destruct (free reader) as [[]|e]; [|eexists; reflexivity].
  destruct (Hstore reader store eq_refl Es) as [_ [Hfalsy | (sp & s & Hwf & Hjs)]].
  { rewrite Hfalsy. eexists; reflexivity. }
  destruct (truthy (Json.to_js store)) eqn:Ht; cbn [negb]; [|eexists; reflexivity].
  pose proof (createCredentialDetails_rendered sp s Hwf) as Hp. rewrite <- Hjs in Hp.
  rewrite (guard_of_panel _ _ Hp).
  destruct (rendered s) as [|d]; [eexists; reflexivity|].
  unfold display. rewrite Hp.
  destruct (stringify_truthy store Ht) as [json ->].
  cbn [code with_currentJsonData with_credentialDetails showState with_panels
       with_preview].
  destruct (code v); eexists; reflexivity.
Qed.

(** X13.  On the inputs in scope (a file below 2^53 bytes, any answer of
    the SDK, and as manifest store a well-formed store or a value without
    a store in it) [processFile] returns and raises nothing, and where it
    ends the loading indicator is gone: exactly one container is visible,
    and it is the one for no data, for an error or for the results. *)
Theorem processFile_ends_loading (c2pa : option Sdk) (type_error : Thrown)
    (file : File) (v : View) :
  in_scope c2pa file ->
  exists r,
    processFile c2pa type_error file v = Ok r
    /\ (state_of (panels (view r)) = Some no_data
        \/ state_of (panels (view r)) = Some error
        \/ state_of (panels (view r)) = Some results).
Proof.
  intros Hin. destruct (processFile_returns c2pa type_error file v Hin) as [r E].
  exists r. split; [exact E|].
  destruct (processFile_cases _ _ _ _ _ E) as [[[H|H] _] | [H _]]; auto.
Qed.

Lemma processFile_ends_loading_witness :
  exists r,
    processFile (Some (fulfilled (Some PageExample.reader)))
      PageExample.type_error PageExample.file PageExample.page = Ok r
    /\ (state_of (panels (view r)) = Some no_data
        \/ state_of (panels (view r)) = Some error
        \/ state_of (panels (view r)) = Some results).
Proof.
  apply (processFile_ends_loading (Some (fulfilled (Some PageExample.reader)))).
  split; [cbn; lia|].
  intros reader store H1 H2. injection H1 as <-. cbn in H2. injection H2 as <-.
  split; [reflexivity|]. right. exists (uniform Snake), PageExample.typed_store.
  split; vm_compute; reflexivity.
Defined.

(** X14.  On the inputs in scope, [reader.free] is called exactly when
    the SDK gave a reader and the promise of its manifest store was
    fulfilled; a reader whose manifest store is rejected is not given
    back. *)
Theorem reader_freed_iff_store_read (c2pa : option Sdk) (type_error : Thrown)
    (file : File) (v : View) :
  in_scope c2pa file ->
  exists r,
    processFile c2pa type_error file v = Ok r
    /\ (free_called r = true <->
        exists reader store,
          c2pa = Some (fulfilled (Some reader))
          /\ manifestStore reader = fulfilled store).
Proof.
  intros Hin. destruct (processFile_returns c2pa type_error file v Hin) as [r E].
  exists r. split; [exact E|].
  destruct (processFile_cases _ _ _ _ _ E)
    as [[_ H] | (_ & Hf & reader & store & _ & _ & H1 & H2 & _)]; [exact H|].
  split; [|now intros _]. intros _. now exists reader, store.
Qed.

Lemma reader_freed_iff_store_read_witness :
  exists r,
    processFile (Some (fulfilled (Some PageExample.failing_reader)))
      PageExample.type_error PageExample.file PageExample.page = Ok r
    /\ (free_called r = true <->
        exists reader store,
          Some (fulfilled (Some PageExample.failing_reader))
          = Some (fulfilled (Some reader))
          /\ manifestStore reader = fulfilled store).
Proof.
  apply (reader_freed_iff_store_read
           (Some (fulfilled (Some PageExample.failing_reader)))).
  split; [cbn; lia|].
  intros reader store H1 H2. injection H1 as <-. cbn in H2. discriminate.
Defined.



(** The run of the example ends with the results. *)
Lemma example_run_shows_results :
  exists r,
    processFile (Some (fulfilled (Some PageExample.reader)))
      PageExample.type_error PageExample.file PageExample.page = Ok r
    /\ state_of (panels (view r)) = Some results
    /\ fileInfo (view r) = "photo.jpg" +:+ bullet +:+ "1.3 KB" +:+ bullet +:+ "image/jpeg".
Proof. eexists. split; [vm_compute; reflexivity|]. split; reflexivity. Qed.








End ProcessFile.

(** ** The summary of the first version *)

Section FirstVersion.
Import Summary.

Lemma text_item_label (l : string) (v : JSValue) (items : list Item) :
  text_item l v = Ok items -> sublist (map label items) [l].
Proof.
  unfold text_item. destruct (truthy v).
  - destruct (toString v) as [s| |]; cbn [bind]; try discriminate.
    intros H. now injection H as <-.
  - intros H. injection H as <-. apply sublist_nil_l.
Qed.

Lemma count_item_label (l : string) (v : JSValue) :
  sublist (map label (count_item l v)) [l].
Proof. destruct v; cbn; try apply sublist_nil_l. reflexivity. Qed.

Lemma signature_items_labels (signatureInfo : JSValue) (items : list Item) :
  signature_items signatureInfo = Ok items ->
  sublist (map label items) ["Issuer"; "Signed At"].
Proof.
  unfold signature_items. destruct (truthy signatureInfo).
  2:{ intros H. injection H as <-. apply sublist_nil_l. }
  destruct (get signatureInfo "issuer") as [issuer| |]; cbn [bind]; try discriminate.
  destruct (text_item "Issuer" issuer) as [i1| |] eqn:E1; cbn [bind]; try discriminate.
  destruct (get signatureInfo "time") as [time| |]; cbn [bind]; try discriminate.
  apply text_item_label in E1.
  destruct (truthy time).
  - destruct (toString time) as [s| |]; cbn [bind]; try discriminate.
    intros H. injection H as <-. rewrite map_app.
    now apply (sublist_app _ ["Issuer"] _ ["Signed At"]).
  - cbn [bind]. intros H. injection H as <-. rewrite map_app.
    apply (sublist_app _ ["Issuer"] _ ["Signed At"]); [exact E1 | apply sublist_nil_l].
Qed.

Lemma manifest_items_labels (activeManifest : JSValue) (items : list Item) :
  manifest_items activeManifest = Ok items ->
  sublist (map label items)
    ["Claim Generator"; "Title"; "Format"; "Issuer"; "Signed At"; "Assertions"; "Ingredients"].
Proof.
  unfold manifest_items. destruct (truthy activeManifest).
  2:{ intros H. injection H as <-. apply sublist_nil_l. }
  destruct (get activeManifest "claimGenerator") as [cg| |]; cbn [bind]; try discriminate.
  destruct (text_item "Claim Generator" cg) as [i1| |] eqn:E1; cbn [bind]; try discriminate.
  destruct (get activeManifest "title") as [t| |]; cbn [bind]; try discriminate.
  destruct (text_item "Title" t) as [i2| |] eqn:E2; cbn [bind]; try discriminate.
  destruct (get activeManifest "format") as [f| |]; cbn [bind]; try discriminate.
  destruct (text_item "Format" f) as [i3| |] eqn:E3; cbn [bind]; try discriminate.
  destruct (get activeManifest "signatureInfo") as [si| |]; cbn [bind]; try discriminate.
  destruct (signature_items si) as [i4| |] eqn:E4; cbn [bind]; try discriminate.
  destruct (get activeManifest "assertions") as [a| |]; cbn [bind]; try discriminate.
  destruct (get activeManifest "ingredients") as [g| |]; cbn [bind]; try discriminate.
  intros H. injection H as <-. rewrite !map_app.
  apply text_item_label in E1, E2, E3. apply signature_items_labels in E4.
  apply (sublist_app _ ["Claim Generator"]); [exact E1|].
  apply (sublist_app _ ["Title"]); [exact E2|].
  apply (sublist_app _ ["Format"]); [exact E3|].
  apply (sublist_app _ ["Issuer"; "Signed At"]); [exact E4|].
  apply (sublist_app _ ["Assertions"] _ ["Ingredients"]); apply count_item_label.
Qed.

Lemma validation_items_label (validationStatus : JSValue) (items : list Item) :
  validation_items validationStatus = Ok items ->
  sublist (map label items) ["Validation"].
Proof.
  unfold validation_items. destruct (truthy validationStatus).
  2:{ intros H. injection H as <-. apply sublist_nil_l. }
  destruct validationStatus as [| | | | |l|m|f]; try discriminate.
  - destruct (some is_issue l) as [b| |]; cbn [bind]; try discriminate.
    intros H. now injection H as <-.
  - intros H. now apply call_method_not_Ok in H.
Qed.

(** X16.  The items of the summary come in one fixed order and each label
    at most once: their labels are the list Claim Generator, Title,
    Format, Issuer, Signed At, Assertions, Ingredients, Total Manifests,
    Validation with some of its entries left out. *)
Theorem createSummary_labels_in_order (store : JSValue) (items : list Item) :
  createSummary store = Ok items -> sublist (map label items) labels.
Proof.
  unfold createSummary.
  destruct (get store "activeManifest") as [am| |]; cbn [bind]; try discriminate.
  destruct (manifest_items am) as [i1| |] eqn:E1; cbn [bind]; try discriminate.
  destruct (get store "manifests") as [ms| |]; cbn [bind]; try discriminate.
  destruct (get store "validationStatus") as [vs| |]; cbn [bind]; try discriminate.
  destruct (validation_items vs) as [i3| |] eqn:E3; cbn [bind]; try discriminate.
  intros H. injection H as <-. rewrite !map_app.
  apply manifest_items_labels in E1. apply validation_items_label in E3.
  apply (sublist_app _ ["Claim Generator"; "Title"; "Format"; "Issuer"; "Signed At";
                        "Assertions"; "Ingredients"]); [exact E1|].
  apply (sublist_app _ ["Total Manifests"] _ ["Validation"]); [|exact E3].
  destruct (truthy ms); [reflexivity | apply sublist_nil_l].
Qed.

Lemma createSummary_labels_in_order_witness :
  createSummary StoreExample.first_version
  = Ok [ item "Title" "sunset.jpg"; item "Issuer" "Example CA"; item "Assertions" "1";
         item "Total Manifests" "1"; item "Validation" has_issues ]
  /\ sublist ["Title"; "Issuer"; "Assertions"; "Total Manifests"; "Validation"] labels.
Proof.
  split; [vm_compute; reflexivity|].
  apply (createSummary_labels_in_order StoreExample.first_version
           [ item "Title" "sunset.jpg"; item "Issuer" "Example CA"; item "Assertions" "1";
             item "Total Manifests" "1"; item "Validation" has_issues ]).
  vm_compute. reflexivity.
Defined.

Lemma some_filterM (p : JSValue -> outcome bool) (l issues : list JSValue) :
  filterM p l = Ok issues -> some p l = Ok (0 <? length issues)%nat.
Proof.
  revert issues. induction l as [|x r IH]; intros issues.
  - intros H. now injection H as <-.
  - rewrite filterM_cons. cbn [some].
    destruct (p x) as [keep| |]; cbn [bind]; try discriminate.
    destruct (filterM p r) as [r'| |]; cbn [bind]; try discriminate.
    intros H. injection H as <-. destruct keep; [reflexivity|]. now apply IH.
Qed.

(** X17.  The two versions agree on the verdict: on a list of validation
    entries for which the validation section of [createCredentialDetails]
    is built, the summary of the first version says that there are issues
    exactly if that section lists issues. *)
Theorem versions_agree_on_verdict (l : list JSValue) (verdict : Validation) :
  validation_section (JArr l) = Ok verdict ->
  validation_items (JArr l)
  = Ok [item "Validation"
          match verdict with
          | Verified => valid
          | Issues _ _ => has_issues
          end].
Proof.
  unfold validation_section, validation_items. cbn [validationIssues truthy].
  destruct (filterM is_issue l) as [issues| |] eqn:E; cbn [bind]; try discriminate.
  rewrite (some_filterM _ _ _ E). cbn [bind].
  destruct (0 <? length issues)%nat.
  - destruct (mapM issue_item issues); cbn [bind]; try discriminate.
    intros H. now injection H as <-.
  - cbn [bind]. intros H. now injection H as <-.
Qed.

Lemma versions_agree_on_verdict_witness :
  validation_items
    (JArr [ obj [("code", JStr "claim.signingCredential.trusted")];
            obj [("code", JStr "signingCredential.untrusted")] ])
  = Ok [item "Validation" has_issues].
Proof.
  apply (versions_agree_on_verdict
           [ obj [("code", JStr "claim.signingCredential.trusted")];
             obj [("code", JStr "signingCredential.untrusted")] ]
           (Issues 1 [{| issueCode := "Signing credential" +:+ Str.arrow +:+ "untrusted";
                         issueExplanation := "" |}])).
  vm_compute. reflexivity.
Defined.

End FirstVersion.

(** ** The numbering of ingredients *)

Section Ingredients.

Lemma ingredients_from_lookup (l : list IngredientRef) :
  forall index i ing,
    l !! i = Some ing ->
    ingredients_from index l !! i
    = Some {| ingTitle := default ("Ingredient " +:+ decimal (S (index + i)))
                            (present (ing_title ing));
              ingFormat := default "" (present (ing_format ing)) |}.
Proof.
  induction l as [|x l IH]; intros index i ing; [discriminate|].
  destruct i as [|i]; intros H.
  - injection H as <-. now rewrite Nat.add_0_r.
  - rewrite Nat.add_succ_r. exact (IH (S index) i ing H).
Qed.

Lemma ingredients_from_length (l : list IngredientRef) :
  forall index, length (ingredients_from index l) = length l.
Proof. induction l as [|x l IH]; intros index; [reflexivity|]. cbn. now rewrite IH. Qed.

(** X18.  An ingredient without a title, or with an empty one, is shown
    as Ingredient k, where k is its position in the list of all
    ingredients of the active manifest, counted from 1; the list shown
    has an item for every ingredient. *)
Theorem untitled_ingredient_is_numbered (sp : Spelling) (s : ManifestStore)
    (m : Manifest) (l : list IngredientRef) (i : nat) (ing : IngredientRef) :
  wf_store s = true ->
  active s = Some m ->
  m_ingredients m = Some l ->
  l !! i = Some ing ->
  present (ing_title ing) = None ->
  exists d items shown_item,
    createCredentialDetails (encode_store sp s) = Ok (Sections d)
    /\ ingredientsHtml d = Some items
    /\ length items = length l
    /\ items !! i = Some shown_item
    /\ ingTitle shown_item = "Ingredient " +:+ decimal (S i).
Proof.
  intros Hwf Hact Hl Hi Htitle.
  rewrite (createCredentialDetails_active sp s m) by assumption.
  eexists _, (ingredients_from 0 l), _. split; [reflexivity|].
  cbn [details_of ingredientsHtml]. rewrite Hl. cbn [default].
  split; [destruct l; [discriminate | reflexivity]|].
  split; [apply ingredients_from_length|].
  split; [apply (ingredients_from_lookup l 0 i ing Hi)|].
  cbn [ingTitle]. now rewrite Htitle.
Qed.

Lemma untitled_ingredient_is_numbered_witness :
  exists d items shown_item,
    createCredentialDetails (encode_store (uniform Snake) StoreExample.with_ingredients)
    = Ok (Sections d)
    /\ ingredientsHtml d = Some items
    /\ length items = 3
    /\ items !! 2 = Some shown_item
    /\ ingTitle shown_item = "Ingredient 3".
Proof.
  refine (untitled_ingredient_is_numbered (uniform Snake) StoreExample.with_ingredients
            StoreExample.manifest StoreExample.ingredients 2
            {| ing_title := Some ""; ing_format := None |} _ _ _ _ _);
    vm_compute; reflexivity.
Defined.

End Ingredients.

(** ** Members of the store that are not read *)

Section UnknownMembers.

Lemma prop_insert_ne (o : gmap string JSValue) (k k' : string) (x : JSValue) :
  k <> k' -> prop (<[k:=x]> o) k' = prop o k'.
Proof. intros H. unfold prop, member. now rewrite lookup_insert_ne. Qed.

(** X19.  A member of the store under any other name than the five that
    [createCredentialDetails] reads changes nothing: the panel is the
    same with it and without it, whatever its value. *)
Theorem other_store_members_are_ignored (o : gmap string JSValue) (k : string)
    (x : JSValue) :
  is_store_member k = false ->
  createCredentialDetails (JObj (<[k:=x]> o)) = createCredentialDetails (JObj o).
Proof.
  unfold is_store_member, store_members. cbn [existsb]. intros H.
  repeat (apply orb_false_elim in H as [? H]).
  repeat match goal with
         | E : (k =? _)%string = false |- _ => apply String.eqb_neq in E
         end.
  symmetry. apply createCredentialDetails_store.
  - now rewrite !dual_prop, !prop_insert_ne.
  - cbn [get]. f_equal. now apply prop_insert_ne.
  - now rewrite !dual_prop, !prop_insert_ne.
Qed.

Lemma other_store_members_are_ignored_witness :
  createCredentialDetails
    (JObj (<["tool" := JArr [JNull]]> (∅ : gmap string JSValue)))
  = createCredentialDetails (JObj ∅).
Proof. apply (other_store_members_are_ignored ∅ "tool" (JArr [JNull])). reflexivity. Defined.

End UnknownMembers.

(** ** The count on the validation badge *)

Section IssueCount.

Lemma mapM_length {A B} (f : A -> outcome B) (l : list A) :
  forall ys, mapM f l = Ok ys -> length ys = length l.
Proof.
  induction l as [|x r IH]; intros ys.
  - intros H. now injection H as <-.
  - rewrite mapM_cons. destruct (f x) as [y| |]; try discriminate.
    destruct (mapM f r) as [ys'| |]; try discriminate.
    intros H. injection H as <-. cbn. now rewrite (IH ys').
Qed.

(** X22.  Whatever the validation status is, when the validation section
    reports issues the number on the badge is the number of issues
    listed below it, and it is not zero. *)
Theorem issue_count_matches_the_list (validationStatus : JSValue) (count : nat)
    (items : list Issue) :
  validation_section validationStatus = Ok (Issues count items) ->
  length items = count /\ 0 < count.
Proof.
  unfold validation_section.
  destruct (validationIssues validationStatus) as [issues| |]; cbn [bind]; try discriminate.
  destruct (0 <? length issues)%nat eqn:E.
  - destruct (mapM issue_item issues) as [ys| |] eqn:Em; cbn [bind]; try discriminate.
    intros H. injection H as <- <-. apply Nat.ltb_lt in E.
    split; [now apply (mapM_length issue_item) | exact E].
  - cbn [bind]. discriminate.
Qed.

Lemma issue_count_matches_the_list_witness :
  length [{| issueCode := "Signing credential" +:+ Str.arrow +:+ "untrusted";
             issueExplanation := "" |}] = 1
  /\ 0 < 1.
Proof.
  apply (issue_count_matches_the_list
           (JArr [ obj [("code", JStr "claim.signingCredential.trusted")];
                   obj [("code", JStr "signingCredential.untrusted")] ])).
  vm_compute. reflexivity.
Defined.

End IssueCount.
